(** * Renovation transcript to spreadsheet: the pipeline of [app.py]

    A shallow embedding of the five pipeline stages of [app.py]
    ([extract_text], [clean_text], [build_prompt],
    [extract_details_with_gpt], [create_pretty_excel]) and the properties
    the specification states about them.

    Conventions.
    - A Python [str] is the list of its code points ([str := list N]).
    - A Python value (what [json.loads] can return) is the inductive
      [value]; a [dict] keeps its insertion order.
    - A call that may raise returns a [result]; code that also talks to
      the outside world (document parsers, the completion service, the
      Streamlit diagnostics) runs in the monad [M], which threads the list
      of such events.
    - Library functions whose result depends on data outside the program
      (the Unicode database, the document parsers, the completion
      service, the JSON decoder) are the variables of the section that
      uses them; [Json.loads] and [Instances] give concrete ones. *)

From Stdlib Require Import ZArith NArith List Bool Lia String Ascii DecimalString.
From stdpp Require Import base option list gmap.

Import ListNotations.
Local Open Scope N_scope.
Set Warnings "-register-all".

(* ===================================================================== *)
(** ** Python strings *)
(* ===================================================================== *)

Module Str.

(** A [str]: the sequence of its Unicode code points. *)
Definition str : Type := list N.

(** The code points of a literal (all literals of the program are ASCII). *)
Fixpoint lit (s : string) : str :=
  match s with
  | EmptyString => []
  | String c r => N_of_ascii c :: lit r
  end.
Global Arguments lit : simpl never.

(** The double quote, kept apart from the literals. *)
Definition dq : str := [34].
Definition quoted (s : str) : str := dq ++ s ++ dq.

Definition eqb (a b : str) : bool := bool_decide (a = b).

(** [str.isspace] on one code point, which is also what [\s] matches in a
    [str] pattern: the bidirectional types WS, B and S and the category
    Zs of the Unicode database. *)
Definition isspace (c : N) : bool :=
  ((9 <=? c) && (c <=? 13)) || ((28 <=? c) && (c <=? 32))
  || (c =? 133) || (c =? 160) || (c =? 5760)
  || ((8192 <=? c) && (c <=? 8202))
  || (c =? 8232) || (c =? 8233) || (c =? 8239) || (c =? 8287)
  || (c =? 12288).

Definition space : N := 32.

(** [s.lstrip()], [s.rstrip()], [s.strip()] with no argument. *)
Fixpoint lstrip (s : str) : str :=
  match s with
  | [] => []
  | c :: r => if isspace c then lstrip r else s
  end.

Definition rstrip (s : str) : str := rev (lstrip (rev s)).

Definition strip (s : str) : str := rstrip (lstrip s).

(** [sep.join(parts)] for parts that are all [str]. *)
Fixpoint join (sep : str) (parts : list str) : str :=
  match parts with
  | [] => []
  | [p] => p
  | p :: rest => p ++ sep ++ join sep rest
  end.

(** [a in b] for two [str]: [a] occurs in [b] as a contiguous run. *)
Definition substring (a b : str) : Prop :=
  exists pre post, b = pre ++ a ++ post.

Fixpoint startswith (b a : str) : bool :=
  match a, b with
  | [], _ => true
  | _ :: _, [] => false
  | x :: a', y :: b' => (x =? y) && startswith b' a'
  end.

Fixpoint contains (b a : str) : bool :=
  startswith b a ||
  match b with
  | [] => false
  | _ :: b' => contains b' a
  end.

(** [c.lower()] for an ASCII code point. *)
Definition ascii_tolower (c : N) : N :=
  if (65 <=? c) && (c <=? 90) then c + 32 else c.

Definition isascii (s : str) : bool := forallb (fun c => c <? 128) s.

End Str.

Import Str.

(* ===================================================================== *)
(** ** Text Normalizer ([clean_text]) *)
(* ===================================================================== *)

(** [re.sub(r"\s+", " ", text)]: scanning from the left, every maximal run
    of whitespace is one match and is replaced by one space. [in_run]
    tells that the code point before belongs to the run being replaced. *)
Fixpoint re_sub_spaces (in_run : bool) (text : str) : str :=
  match text with
  | [] => []
  | c :: rest =>
      if isspace c
      then if in_run then re_sub_spaces true rest
           else space :: re_sub_spaces true rest
      else c :: re_sub_spaces false rest
  end.

Definition clean_text (text : str) : str :=
  let text := re_sub_spaces false text in
  strip text.

(** A text in which every whitespace code point is a space that does not
    follow another whitespace code point; [prev] tells whether the code
    point before the text is whitespace. *)
Fixpoint single_spaced (prev : bool) (s : str) : Prop :=
  match s with
  | [] => True
  | c :: r =>
      (isspace c = true -> c = space /\ prev = false)
      /\ single_spaced (isspace c) r
  end.

(* ===================================================================== *)
(** ** Exceptions, results and the event monad *)
(* ===================================================================== *)

(** The exceptions the pipeline can meet. [IllegalCharacterError] is the
    one openpyxl raises on a cell text, whose message depends on its
    version and is not kept; [LibraryError] stands for whatever
    a collaborator raises on its own account (an unreadable document, a
    failed network call). *)
Inductive exn : Type :=
| ValueError (msg : str)
| JSONDecodeError (msg : str) (pos : nat)
| TypeError (msg : str)
| AttributeError (msg : str)
| IndexError (msg : str)
| RecursionError
| IllegalCharacterError
| LibraryError (what : str).

Inductive result (A : Type) : Type :=
| Ok (a : A)
| Raise (e : exn).
Arguments Ok {A} a.
Arguments Raise {A} e.

Definition rbind {A B} (r : result A) (k : A -> result B) : result B :=
  match r with
  | Ok a => k a
  | Raise e => Raise e
  end.

(** What the program does to the outside world, in the order it does it. *)
Record request : Type := {
  model : str;
  messages : list (str * str);   (* role, content *)
  temperature : str              (* the decimal literal of the source *)
}.

Inductive event : Type :=
| DocxDocument                       (* docx.Document(file_bytes) *)
| PdfReader                          (* PyPDF2.PdfReader(file_bytes) *)
| PageExtractText (page : nat)       (* page.extract_text() *)
| ChatCompletionCreate (req : request)
| StError (msg : str)                (* st.error(msg) *)
| StWrite (args : list str).         (* st.write(arg, ...) *)

(** Computations that may raise and that log their events. *)
Definition M (A : Type) : Type := list event -> result A * list event.

Definition ret {A} (a : A) : M A := fun tr => (Ok a, tr).
Definition raise {A} (e : exn) : M A := fun tr => (Raise e, tr).
Definition emit (ev : event) : M unit := fun tr => (Ok tt, tr ++ [ev]).
Definition lift {A} (r : result A) : M A := fun tr => (r, tr).
Definition bind {A B} (m : M A) (k : A -> M B) : M B :=
  fun tr =>
    match m tr with
    | (Ok a, tr') => k a tr'
    | (Raise e, tr') => (Raise e, tr')
    end.

(** [try: m except JSONDecodeError: h]. *)
Definition try_except_JSONDecodeError {A} (m : M A) (h : str -> nat -> M A) : M A :=
  fun tr =>
    match m tr with
    | (Raise (JSONDecodeError msg pos), tr') => h msg pos tr'
    | other => other
    end.

Declare Scope py_scope.
Delimit Scope py_scope with py.
Notation "'let!' x ':=' m 'in' k" := (bind m (fun x => k))
  (at level 10, x name, m at level 100, k at level 200) : py_scope.
Notation "'run!' m 'in' k" := (bind m (fun _ => k))
  (at level 10, m at level 100, k at level 200) : py_scope.
Notation "'let?' x ':=' m 'in' k" := (rbind m (fun x => k))
  (at level 10, x name, m at level 100, k at level 200) : py_scope.

(** The outcome of a run from the empty log. *)
Definition run {A} (m : M A) : result A * list event := m [].

(* ===================================================================== *)
(** ** Python values *)
(* ===================================================================== *)

(** What [json.loads] can return. A float is kept as the numeral it was
    read from; a dict is the list of its items in insertion order, with
    no key twice. *)
Inductive value : Type :=
| PyNone
| PyBool (b : bool)
| PyInt (z : Z)
| PyFloat (numeral : str)
| PyStr (s : str)
| PyList (items : list value)
| PyDict (items : list (str * value)).

Definition isinstance_list (v : value) : bool :=
  match v with PyList _ => true | _ => false end.

Definition isinstance_dict (v : value) : bool :=
  match v with PyDict _ => true | _ => false end.

Definition type_name (v : value) : str :=
  match v with
  | PyNone => lit "NoneType"
  | PyBool _ => lit "bool"
  | PyInt _ => lit "int"
  | PyFloat _ => lit "float"
  | PyStr _ => lit "str"
  | PyList _ => lit "list"
  | PyDict _ => lit "dict"
  end.

(** [d[key]] lookup and [d[key] = v] on the items of a dict. *)
Fixpoint dict_lookup (items : list (str * value)) (key : str) : option value :=
  match items with
  | [] => None
  | (k, v) :: rest => if Str.eqb k key then Some v else dict_lookup rest key
  end.

Fixpoint dict_setitem (items : list (str * value)) (key : str) (v : value)
  : list (str * value) :=
  match items with
  | [] => [(key, v)]
  | (k, w) :: rest =>
      if Str.eqb k key then (k, v) :: rest else (k, w) :: dict_setitem rest key v
  end.

(** [obj.get(key, default)]: only a dict has the method. *)
Definition py_get (obj : value) (key : str) (default : value) : result value :=
  match obj with
  | PyDict items =>
      Ok (match dict_lookup items key with Some v => v | None => default end)
  | _ =>
      Raise (AttributeError
               (lit "'" ++ type_name obj ++ lit "' object has no attribute 'get'"))
  end.

(** Decimal numerals. *)
Definition decimal_N (n : N) : str :=
  lit (DecimalString.NilEmpty.string_of_uint (N.to_uint n)).

Definition decimal_Z (z : Z) : str :=
  match z with
  | Zneg p => lit "-" ++ decimal_N (Npos p)
  | _ => decimal_N (Z.to_N z)
  end.

(** [sep.join(items)] on a list of values: every item has to be a [str]. *)
Fixpoint join_values (sep : str) (i : N) (items : list value) : result (list str) :=
  match items with
  | [] => Ok []
  | PyStr s :: rest =>
      (let? parts := join_values sep (i + 1) rest in Ok (s :: parts))%py
  | v :: _ =>
      Raise (TypeError (lit "sequence item " ++ decimal_N i
                          ++ lit ": expected str instance, " ++ type_name v
                          ++ lit " found"))
  end.

Definition py_join (sep : str) (items : list value) : result str :=
  (let? parts := join_values sep 0 items in Ok (join sep parts))%py.

Definition hexdigit (d : N) : N := if d <? 10 then 48 + d else 87 + d.

(** The [width] lowest hexadecimal digits of [c], most significant first. *)
Fixpoint hex (width : nat) (c : N) : str :=
  match width with
  | O => []
  | S w => hex w (c / 16) ++ [hexdigit (c mod 16)]
  end.

Section Repr.

(** [repr] of a float, given its numeral, and [str.isprintable] on a
    code point above ASCII: both are tables of the interpreter. *)
Variable float_repr : str -> str.
Variable isprintable : N -> bool.

Definition repr_char (quote c : N) : str :=
  if (c =? quote) || (c =? 92) then [92; c]
  else if c =? 9 then lit "\t"
  else if c =? 10 then lit "\n"
  else if c =? 13 then lit "\r"
  else if (c <? 32) || (c =? 127) then lit "\x" ++ hex 2 c
  else if c <? 127 then [c]
  else if isprintable c then [c]
  else if c <=? 255 then lit "\x" ++ hex 2 c
  else if c <=? 65535 then lit "\u" ++ hex 4 c
  else lit "\U" ++ hex 8 c.

(** [repr(s)] for a [str]: double quotes only when the text has a single
    quote and no double quote. *)
Definition repr_str (s : str) : str :=
  let quote :=
    if existsb (N.eqb 39) s && negb (existsb (N.eqb 34) s) then 34 else 39 in
  [quote] ++ flat_map (repr_char quote) s ++ [quote].

Fixpoint repr (v : value) : str :=
  match v with
  | PyNone => lit "None"
  | PyBool true => lit "True"
  | PyBool false => lit "False"
  | PyInt z => decimal_Z z
  | PyFloat numeral => float_repr numeral
  | PyStr s => repr_str s
  | PyList items => lit "[" ++ join (lit ", ") (map repr items) ++ lit "]"
  | PyDict items =>
      lit "{" ++
      join (lit ", ")
        (map (fun kv => repr_str (fst kv) ++ lit ": " ++ repr (snd kv)) items)
      ++ lit "}"
  end.

(** [str(v)]. *)
Definition py_str (v : value) : str :=
  match v with
  | PyStr s => s
  | _ => repr v
  end.

End Repr.

(* ===================================================================== *)
(** ** Text Extractor ([extract_text]) *)
(* ===================================================================== *)

Section TextExtractor.

(** The uploaded file object. *)
Context {file : Type}.

(** [str.lower] on a text with a code point above ASCII (the case tables
    of the Unicode database). *)
Variable unicode_lower : str -> str.

(** [docx.Document(f)]: the texts of the paragraphs in document order, or
    what the parser raises. *)
Variable docx_Document : file -> result (list str).

(** [PyPDF2.PdfReader(f)]: the pages in document order, each with the
    outcome of its [extract_text()] ([None] is a possible outcome), or
    what the parser raises. *)
Variable PyPDF2_PdfReader : file -> result (list (result (option str))).

(** [s.lower()]: an all-ASCII text is lowered code point by code point. *)
Definition lower (s : str) : str :=
  if isascii s then map ascii_tolower s else unicode_lower s.

Definition extract_text_from_docx (file_bytes : file) : M str :=
  (run! emit DocxDocument in
   let! paragraphs := lift (docx_Document file_bytes) in
   ret (join [10] paragraphs))%py.

(** The loop over [pdf_reader.pages]; [i] numbers the page. *)
Fixpoint pdf_pages (i : nat) (pages : list (result (option str))) (text : str)
  : M str :=
  match pages with
  | [] => ret text
  | page :: rest =>
      (run! emit (PageExtractText i) in
       let! extracted := lift page in
       let page_text :=
         match extracted with
         | Some ((_ :: _) as t) => t
         | _ => []                       (* [or ""] *)
         end in
       pdf_pages (S i) rest (text ++ (page_text ++ [10])))%py
  end.

Definition extract_text_from_pdf (file_bytes : file) : M str :=
  let text := [] in
  (run! emit PdfReader in
   let! pages := lift (PyPDF2_PdfReader file_bytes) in
   pdf_pages 0 pages text)%py.

Definition extract_text (file_bytes : file) (file_extension : str) : M str :=
  let file_extension := lower file_extension in
  if Str.eqb file_extension (lit ".docx") then
    extract_text_from_docx file_bytes
  else if Str.eqb file_extension (lit ".pdf") then
    extract_text_from_pdf file_bytes
  else
    raise (ValueError (lit "Unsupported file format: " ++ file_extension)).

End TextExtractor.

(* ===================================================================== *)
(** ** Prompt Builder ([build_prompt]) *)
(* ===================================================================== *)

(** The list [headers] of [create_pretty_excel]: the ten field names in
    their fixed order, which is also the order of the prompt. *)
Definition headers : list str :=
  [ lit "ProjectName"; lit "ClientName"; lit "PropertyAddress";
    lit "ProjectManager"; lit "RenovationAreas"; lit "ScopeOfWork";
    lit "MaterialPreferences"; lit "BudgetOrCost"; lit "Timeline";
    lit "AdditionalNotes" ].

Definition nl : str := [10].

(** The text of the f-string before [{transcript_text}], line by line. *)
Definition prompt_head : str :=
  nl
  ++ lit "You are an AI assistant extracting renovation details from a client transcript." ++ nl
  ++ lit "Please carefully analyze the conversation and return a JSON object with these keys:" ++ nl
  ++ nl
  ++ lit "1. " ++ quoted (lit "ProjectName") ++ lit ": (If not mentioned, return " ++ quoted (lit "Not provided") ++ lit ")" ++ nl
  ++ lit "2. " ++ quoted (lit "ClientName") ++ lit ": (If not mentioned, return " ++ quoted (lit "Not provided") ++ lit ")" ++ nl
  ++ lit "3. " ++ quoted (lit "PropertyAddress") ++ lit ": (If not mentioned, return " ++ quoted (lit "Not provided") ++ lit ")" ++ nl
  ++ lit "4. " ++ quoted (lit "ProjectManager") ++ lit ": (If not mentioned, return " ++ quoted (lit "Not provided") ++ lit ")" ++ nl
  ++ lit "5. " ++ quoted (lit "RenovationAreas") ++ lit ": (List or describe the rooms/areas, e.g., " ++ quoted (lit "Kitchen, Bathroom") ++ lit ")" ++ nl
  ++ lit "6. " ++ quoted (lit "ScopeOfWork") ++ lit ": (Summarize all renovation tasks or goals)" ++ nl
  ++ lit "7. " ++ quoted (lit "MaterialPreferences") ++ lit ": (List any specific materials or design preferences)" ++ nl
  ++ lit "8. " ++ quoted (lit "BudgetOrCost") ++ lit ": (Any budget or cost references)" ++ nl
  ++ lit "9. " ++ quoted (lit "Timeline") ++ lit ": (Any schedule or start/end dates mentioned)" ++ nl
  ++ lit "10. " ++ quoted (lit "AdditionalNotes") ++ lit ": (Extra details like permit requirements, constraints, etc.)" ++ nl
  ++ nl
  ++ lit "Transcript:" ++ nl.

(** The text of the f-string after [{transcript_text}]. *)
Definition prompt_tail : str :=
  nl
  ++ nl
  ++ lit "Return only valid JSON with exactly the keys:" ++ nl
  ++ lit "ProjectName, ClientName, PropertyAddress, ProjectManager, RenovationAreas, ScopeOfWork, MaterialPreferences, BudgetOrCost, Timeline, AdditionalNotes." ++ nl
  ++ lit "    ".

(** The replacement field [{transcript_text}] of a [str] is the text
    itself. *)
Definition build_prompt (transcript_text : str) : str :=
  let prompt := prompt_head ++ transcript_text ++ prompt_tail in
  prompt.

(* ===================================================================== *)
(** ** Extraction Client ([extract_details_with_gpt]) *)
(* ===================================================================== *)

Definition GPT_MODEL : str := lit "gpt-4".

(** The answer of the completion service: [response.choices], each
    choice with its [message.content]. *)
Record response : Type := { choices : list str }.

Definition not_provided : value := PyStr (lit "Not provided").

(** The dict literal of the [except] branch. *)
Definition fallback : value :=
  PyDict
    [ (lit "ProjectName", not_provided);
      (lit "ClientName", not_provided);
      (lit "PropertyAddress", not_provided);
      (lit "ProjectManager", not_provided);
      (lit "RenovationAreas", not_provided);
      (lit "ScopeOfWork", not_provided);
      (lit "MaterialPreferences", not_provided);
      (lit "BudgetOrCost", not_provided);
      (lit "Timeline", not_provided);
      (lit "AdditionalNotes", not_provided) ].

(** The keyword arguments of [openai.ChatCompletion.create]. *)
Definition completion_request (prompt : str) : request :=
  {| model := GPT_MODEL;
     messages := [(lit "user", prompt)];
     temperature := lit "0.2" |}.

(** A record that is a mapping with every one of the ten keys. *)
Definition has_all_keys (v : value) : Prop :=
  exists items,
    v = PyDict items /\
    Forall (fun header => dict_lookup items header <> None) headers.

Section ExtractionClient.

(** [openai.ChatCompletion.create(...)]: an answer, or what the client
    raises (network, credential, service). *)
Variable ChatCompletion_create : request -> result response.

(** [json.loads] on a [str]. *)
Variable json_loads : str -> result value.

(** [response.choices[0]]. *)
Definition first_choice (r : response) : result str :=
  match choices r with
  | c :: _ => Ok c
  | [] => Raise (IndexError (lit "list index out of range"))
  end.

Definition extract_details_with_gpt (transcript_text : str) : M value :=
  let prompt := build_prompt transcript_text in
  let req := completion_request prompt in
  (run! emit (ChatCompletionCreate req) in
   let! response := lift (ChatCompletion_create req) in
   let! content := lift (first_choice response) in
   let gpt_output := strip content in
   let! details :=
     try_except_JSONDecodeError
       (lift (json_loads gpt_output))
       (fun _ _ =>
          run! emit (StError (lit "Error parsing GPT JSON output. Returning fallback data.")) in
          run! emit (StWrite [lit "Raw GPT output was:"; gpt_output]) in
          ret fallback) in
   ret details)%py.

End ExtractionClient.

(* ===================================================================== *)
(** ** Spreadsheet Renderer ([create_pretty_excel]) *)
(* ===================================================================== *)

Local Open Scope nat_scope.

(** The style objects of openpyxl, with the arguments the source gives. *)
Record Font : Type := { bold : bool; color : str }.
Record PatternFill : Type := { fill_type : str; fgColor : str }.
Record Side : Type := { style : str }.
Record Border : Type := {
  border_left : Side; border_right : Side;
  border_top : Side; border_bottom : Side
}.
Record Alignment : Type := {
  horizontal : option str; vertical : option str; wrap_text : bool
}.

Record Cell : Type := {
  cell_value : str;
  cell_font : option Font;
  cell_fill : option PatternFill;
  cell_alignment : option Alignment;
  cell_border : option Border
}.

(** A worksheet: its cells by (row, column), both counted from 1, the
    column widths by column letter and the row heights by row. *)
Record Worksheet : Type := {
  title : str;
  cells : gmap (nat * nat) Cell;
  column_width : gmap str nat;
  row_height : gmap nat nat;
  freeze_panes : option str
}.

Record Workbook : Type := {
  worksheets : list Worksheet;
  active : nat                     (* index of the active sheet *)
}.

(** The buffer [wb.save(output)] fills, as the workbook it holds, and the
    read cursor. *)
Record BytesIO : Type := { saved : Workbook; position : nat }.

Definition new_worksheet (t : str) : Worksheet :=
  {| title := t; cells := ∅; column_width := ∅; row_height := ∅;
     freeze_panes := None |}.

(** [Workbook()] comes with one sheet, which is the active one. *)
Definition Workbook_new : Workbook :=
  {| worksheets := [new_worksheet (lit "Sheet")]; active := 0 |}.

Definition blank_cell : Cell :=
  {| cell_value := []; cell_font := None; cell_fill := None;
     cell_alignment := None; cell_border := None |}.

Definition with_cells (f : gmap (nat * nat) Cell -> gmap (nat * nat) Cell)
  (ws : Worksheet) : Worksheet :=
  {| title := title ws; cells := f (cells ws);
     column_width := column_width ws; row_height := row_height ws;
     freeze_panes := freeze_panes ws |}.

Definition set_title (t : str) (ws : Worksheet) : Worksheet :=
  {| title := t; cells := cells ws;
     column_width := column_width ws; row_height := row_height ws;
     freeze_panes := freeze_panes ws |}.

Definition set_column_width (letter : str) (w : nat) (ws : Worksheet) : Worksheet :=
  {| title := title ws; cells := cells ws;
     column_width := <[letter := w]> (column_width ws);
     row_height := row_height ws; freeze_panes := freeze_panes ws |}.

Definition set_row_height (row h : nat) (ws : Worksheet) : Worksheet :=
  {| title := title ws; cells := cells ws;
     column_width := column_width ws;
     row_height := <[row := h]> (row_height ws);
     freeze_panes := freeze_panes ws |}.

Definition set_freeze_panes (ref : str) (ws : Worksheet) : Worksheet :=
  {| title := title ws; cells := cells ws;
     column_width := column_width ws; row_height := row_height ws;
     freeze_panes := Some ref |}.

(** The cell at (row, column), made blank when the sheet has none. *)
Definition cell_at (row column : nat) (ws : Worksheet) : Cell :=
  match cells ws !! (row, column) with
  | Some c => c
  | None => blank_cell
  end.

(** [Cell.check_string] of openpyxl, through which every text given to a
    cell goes: the text is cut to its first 32767 characters, and what is
    left is refused when it holds a control character other than the tab,
    the line feed and the carriage return. *)
Definition is_illegal_character (c : N) : bool :=
  ((c <=? 8) || ((11 <=? c) && (c <=? 12)) || ((14 <=? c) && (c <=? 31)))%N.

(** [v[:n]]. *)
Fixpoint slice_to (n : N) (v : str) : str :=
  match v with
  | [] => []
  | c :: rest => if (n =? 0)%N then [] else c :: slice_to (N.pred n) rest
  end.

Definition check_string (v : str) : result str :=
  let v := slice_to 32767 v in
  if existsb is_illegal_character v
  then Raise IllegalCharacterError
  else Ok v.

(** The cell at (row, column) with the text [v], then updated by
    [styling]. *)
Definition put_cell (row column : nat) (v : str) (styling : Cell -> Cell)
  (ws : Worksheet) : Worksheet :=
  let c := cell_at row column ws in
  let c := {| cell_value := v; cell_font := cell_font c;
              cell_fill := cell_fill c; cell_alignment := cell_alignment c;
              cell_border := cell_border c |} in
  with_cells (fun m => <[(row, column) := styling c]> m) ws.

(** [ws.cell(row=, column=, value=)] followed by the attribute
    assignments on the cell it returns: the cell is got or made, takes the
    text that [check_string] makes of the value, and is then updated by
    [styling]. [cell_value] is the [value] of the cell; that openpyxl
    marks a text starting with [=] as a formula is not recorded. *)
Definition ws_cell (row column : nat) (v : str) (styling : Cell -> Cell)
  (ws : Worksheet) : result Worksheet :=
  (let? v := check_string v in
   Ok (put_cell row column v styling ws))%py.

(** [wb.active], and its replacement by the sheet after the updates. *)
Definition wb_active (wb : Workbook) : Worksheet :=
  match worksheets wb !! active wb with
  | Some ws => ws
  | None => new_worksheet []
  end.

Definition wb_update_active (ws : Worksheet) (wb : Workbook) : Workbook :=
  {| worksheets := <[active wb := ws]> (worksheets wb); active := active wb |}.

(** [get_column_letter]: 1 is A, 26 is Z, 27 is AA, up to 18278 (ZZZ). *)
Fixpoint column_letters (fuel col_idx : nat) (letters : str) : str :=
  match fuel with
  | O => letters
  | S fuel =>
      if Nat.eqb col_idx 0 then letters
      else
        let q := col_idx / 26 in
        let r := col_idx mod 26 in
        if Nat.eqb r 0
        then column_letters fuel (q - 1) (N.of_nat (26 + 64) :: letters)
        else column_letters fuel q (N.of_nat (r + 64) :: letters)
  end.

Definition get_column_letter (col_idx : nat) : result str :=
  if (1 <=? col_idx) && (N.of_nat col_idx <=? 18278)%N
  then Ok (column_letters 3 col_idx [])
  else Raise (ValueError (lit "Invalid column index "
                            ++ decimal_N (N.of_nat col_idx))).

(** [enumerate(l, start)]. *)
Fixpoint enumerate {A} (start : nat) (l : list A) : list (nat * A) :=
  match l with
  | [] => []
  | x :: r => (start, x) :: enumerate (S start) r
  end.

(** A [for] loop whose body updates a state and may raise. *)
Fixpoint for_each {A S} (items : list A) (body : A -> S -> result S) (s : S)
  : result S :=
  match items with
  | [] => Ok s
  | x :: rest => (let? s := body x s in for_each rest body s)%py
  end.

Definition header_font : Font := {| bold := true; color := lit "FFFFFF" |}.
Definition header_fill : PatternFill :=
  {| fill_type := lit "solid"; fgColor := lit "4F81BD" |}.
Definition thin_border : Border :=
  {| border_left := {| style := lit "thin" |};
     border_right := {| style := lit "thin" |};
     border_top := {| style := lit "thin" |};
     border_bottom := {| style := lit "thin" |} |}.
Definition center_alignment : Alignment :=
  {| horizontal := Some (lit "center"); vertical := Some (lit "center");
     wrap_text := false |}.
Definition wrap_alignment : Alignment :=
  {| horizontal := None; vertical := Some (lit "top"); wrap_text := true |}.

Definition header_style (c : Cell) : Cell :=
  {| cell_value := cell_value c;
     cell_font := Some header_font;
     cell_fill := Some header_fill;
     cell_alignment := Some center_alignment;
     cell_border := Some thin_border |}.

Definition value_style (c : Cell) : Cell :=
  {| cell_value := cell_value c;
     cell_font := cell_font c;
     cell_fill := cell_fill c;
     cell_alignment := Some wrap_alignment;
     cell_border := Some thin_border |}.

(** The body of the first loop: one header cell and its column width. *)
Definition header_body (item : nat * str) (ws : Worksheet) : result Worksheet :=
  let '(col_idx, header) := item in
  (let? ws := ws_cell 1 col_idx header header_style ws in
   let? letter := get_column_letter col_idx in
   Ok (set_column_width letter 25 ws))%py.

Section Renderer.

Variable float_repr : str -> str.
Variable isprintable : N -> bool.

(** The text one field of [details] is rendered to: the first three lines
    of the body of the second loop. *)
Definition field_text (details : value) (header : str) : result str :=
  (let? val := py_get details header not_provided in
   let? val :=
     match val with
     | PyList items =>                       (* isinstance(val, list) *)
         let? joined := py_join (lit ", ") items in Ok (PyStr joined)
     | _ => Ok val
     end in
   Ok (py_str float_repr isprintable val))%py.

(** The body of the second loop: one value cell. *)
Definition value_body (details : value) (item : nat * str) (ws : Worksheet)
  : result Worksheet :=
  let '(col_idx, header) := item in
  (let? text := field_text details header in
   ws_cell 2 col_idx text value_style ws)%py.

(** The text the cell of a field takes: the text of the field as
    [ws.cell] keeps it. *)
Definition cell_text (details : value) (header : str) : result str :=
  (let? text := field_text details header in check_string text)%py.

(** The texts of the cells of the fields [hs] in order, or what the first
    field that cannot be rendered raises. *)
Fixpoint cell_texts (details : value) (hs : list str) : result (list str) :=
  match hs with
  | [] => Ok []
  | header :: rest =>
      (let? text := cell_text details header in
       let? texts := cell_texts details rest in
       Ok (text :: texts))%py
  end.

Definition create_pretty_excel (details : value) : result BytesIO :=
  let wb := Workbook_new in
  let ws := wb_active wb in
  let ws := set_title (lit "Renovation Data") ws in
  (let? ws := for_each (enumerate 1 headers) header_body ws in
   let? ws := for_each (enumerate 1 headers) (value_body details) ws in
   let ws := set_freeze_panes (lit "A2") ws in
   let ws := set_row_height 1 25 ws in
   let wb := wb_update_active ws wb in
   Ok {| saved := wb; position := 0 |})%py.

End Renderer.

(** What one round of the first loop and one round of the second loop do
    to the sheet when the cell takes the text as it is, and the workbook
    the function saves when the texts of the cells of row 2 are [texts]. *)
Definition header_write (ws : Worksheet) (item : nat * str) : Worksheet :=
  set_column_width [N.of_nat (64 + fst item)] 25
    (put_cell 1 (fst item) (snd item) header_style ws).

Definition value_write (ws : Worksheet) (item : nat * str) : Worksheet :=
  put_cell 2 (fst item) (snd item) value_style ws.

Definition rendered_sheet (texts : list str) : Worksheet :=
  set_row_height 1 25
    (set_freeze_panes (lit "A2")
       (fold_left value_write (enumerate 1 texts)
          (fold_left header_write (enumerate 1 headers)
             (set_title (lit "Renovation Data") (wb_active Workbook_new))))).

Definition rendered (texts : list str) : BytesIO :=
  {| saved := wb_update_active (rendered_sheet texts) Workbook_new;
     position := 0 |}.

(** A field that holds a list with an item that is not a [str]. *)
Definition list_with_non_str (details : value) (header : str) : Prop :=
  exists items fields item,
    details = PyDict fields
    /\ dict_lookup fields header = Some (PyList items)
    /\ In item items
    /\ (forall s, item <> PyStr s).

(** A text of ASCII characters that a cell accepts, and a value that is
    rendered to such a text: [null], a boolean, such a text, or a list of
    such texts. *)
Definition plain_text (s : str) : bool :=
  forallb (fun c => (c <? 128)%N && negb (is_illegal_character c)) s.

Definition plain_value (v : value) : bool :=
  match v with
  | PyNone | PyBool _ => true
  | PyStr s => plain_text s
  | PyList items =>
      forallb (fun item => match item with
                           | PyStr s => plain_text s
                           | _ => false
                           end) items
  | _ => false
  end.

(** The rows and the columns of a sheet that hold a cell, and the values
    of one row over the first [n] columns. *)
Definition populated_rows (ws : Worksheet) : gset nat :=
  set_map fst (dom (cells ws)).

Definition populated_columns (ws : Worksheet) : gset nat :=
  set_map snd (dom (cells ws)).

Definition row_values (ws : Worksheet) (row n : nat) : list (option str) :=
  map (fun column => cell_value <$> cells ws !! (row, column)) (seq 1 n).

(* ===================================================================== *)
(** ** The JSON decoder of the standard library ([json.loads]) *)
(* ===================================================================== *)

(** [json.loads] with its default arguments (strict, no hooks), as the
    scanner of CPython 3.11 reads a [str]: a concrete instance for the
    [json_loads] of the extraction client. Positions count code points
    from 0. Every array or object the scanner enters is one more nested
    call of the interpreter: [depth] is the number of such calls the
    interpreter still allows when the scanner starts (995 for a call at
    the top of a script under the default limit of 1000, fewer inside an
    application), and a text nested deeper raises [RecursionError]. So
    does, within three calls of the limit, an error the scanner raises on
    the spot, and at the limit a constant that is not a JSON one: building
    the exception and looking up the constant are calls too. The limit on
    the digits of an integer is left out. *)
Module Json.

Local Open Scope N_scope.

Definition is_ws (c : N) : bool :=
  (c =? 32) || (c =? 9) || (c =? 10) || (c =? 13).

Fixpoint skip_ws (pos : nat) (s : str) : nat * str :=
  match s with
  | c :: r => if is_ws c then skip_ws (S pos) r else (pos, s)
  | [] => (pos, [])
  end.

Definition is_digit (c : N) : bool := (48 <=? c) && (c <=? 57).

Definition hexval (c : N) : option N :=
  if is_digit c then Some (c - 48)
  else if (97 <=? c) && (c <=? 102) then Some (c - 87)
  else if (65 <=? c) && (c <=? 70) then Some (c - 55)
  else None.

Definition hex4 (a b c d : N) : option N :=
  match hexval a, hexval b, hexval c, hexval d with
  | Some a, Some b, Some c, Some d => Some (((a * 16 + b) * 16 + c) * 16 + d)
  | _, _, _, _ => None
  end.

(** The one-letter escapes. *)
Definition backslash (esc : N) : option N :=
  if (esc =? 34) || (esc =? 92) || (esc =? 47) then Some esc
  else if esc =? 98 then Some 8
  else if esc =? 102 then Some 12
  else if esc =? 110 then Some 10
  else if esc =? 114 then Some 13
  else if esc =? 116 then Some 9
  else None.

Definition is_high_surrogate (c : N) : bool := (55296 <=? c) && (c <=? 56319).
Definition is_low_surrogate (c : N) : bool := (56320 <=? c) && (c <=? 57343).
Definition join_surrogates (hi lo : N) : N :=
  65536 + N.lor (N.shiftl (hi - 55296) 10) (lo - 56320).

Definition unterminated (begin : nat) : exn :=
  JSONDecodeError (lit "Unterminated string starting at") begin.
Definition invalid_uXXXX (pos : nat) : exn :=
  JSONDecodeError (lit "Invalid \uXXXX escape") pos.

(** The text of a string whose opening quote stood at [begin]; [s] starts
    at [pos], [acc] holds the code points read so far, last first. *)
Fixpoint scanstring (begin pos : nat) (s acc : str) {struct s}
  : result (str * nat * str) :=
  match s with
  | [] => Raise (unterminated begin)
  | c :: r =>
      if c =? 34 then Ok (rev acc, S pos, r)
      else if c =? 92 then
        match r with
        | [] => Raise (unterminated begin)
        | esc :: r1 =>
            if esc =? 117 then
              match r1 with
              | h1 :: h2 :: h3 :: h4 :: ((_ :: _) as r2) =>
                  match hex4 h1 h2 h3 h4 with
                  | None => Raise (invalid_uXXXX (S pos))
                  | Some u =>
                      match r2 with
                      | b :: e :: g1 :: g2 :: g3 :: g4 :: ((_ :: _) as r3) =>
                          if is_high_surrogate u && (b =? 92) && (e =? 117)
                          then
                            match hex4 g1 g2 g3 g4 with
                            | None => Raise (invalid_uXXXX (7 + pos)%nat)
                            | Some u2 =>
                                if is_low_surrogate u2
                                then scanstring begin (12 + pos)%nat r3
                                       (join_surrogates u u2 :: acc)
                                else scanstring begin (6 + pos)%nat r2 (u :: acc)
                            end
                          else scanstring begin (6 + pos)%nat r2 (u :: acc)
                      | _ => scanstring begin (6 + pos)%nat r2 (u :: acc)
                      end
                  end
              | _ => Raise (invalid_uXXXX (S pos))
              end
            else
              match backslash esc with
              | Some ch => scanstring begin (2 + pos)%nat r1 (ch :: acc)
              | None => Raise (JSONDecodeError (lit "Invalid \escape") pos)
              end
        end
      else if c <=? 31 then
        Raise (JSONDecodeError (lit "Invalid control character at") pos)
      else scanstring begin (S pos) r (c :: acc)
  end.

(** The digits [s] starts with, and what follows them. *)
Fixpoint span_digits (s : str) : str * str :=
  match s with
  | c :: r =>
      if is_digit c then let '(ds, rest) := span_digits r in (c :: ds, rest)
      else ([], s)
  | [] => ([], [])
  end.

Definition digits_value (ds : str) : N :=
  fold_left (fun n d => 10 * n + (d - 48)) ds 0.

(** The integer part of a number: a lone 0, or digits not starting
    with 0. *)
Definition integer_part (s : str) : option (str * str) :=
  match s with
  | c :: r =>
      if (49 <=? c) && (c <=? 57)
      then let '(ds, rest) := span_digits r in Some (c :: ds, rest)
      else if c =? 48 then Some ([c], r)
      else None
  | [] => None
  end.

(** A fraction: a point followed by at least one digit. *)
Definition fraction_part (s : str) : str * str :=
  match s with
  | p :: d :: r =>
      if (p =? 46) && is_digit d
      then let '(ds, rest) := span_digits r in (p :: d :: ds, rest)
      else ([], s)
  | _ => ([], s)
  end.

(** An exponent: e or E, an optional sign, at least one digit. *)
Definition exponent_part (s : str) : str * str :=
  match s with
  | e :: r =>
      if (e =? 101) || (e =? 69) then
        let '(sign, r1) :=
          match r with
          | sg :: r' => if (sg =? 45) || (sg =? 43) then ([sg], r') else ([], r)
          | [] => ([], r)
          end in
        match span_digits r1 with
        | ([], _) => ([], s)
        | (ds, rest) => (e :: sign ++ ds, rest)
        end
      else ([], s)
  | [] => ([], s)
  end.

(** A number at the head of [s]: its value, the position after it and
    the rest; [None] when [s] does not start with a number. *)
Definition match_number (pos : nat) (s : str) : option (value * nat * str) :=
  let '(minus, s1) :=
    match s with
    | c :: r => if c =? 45 then ([c], r) else ([], s)
    | [] => ([], s)
    end in
  match integer_part s1 with
  | None => None
  | Some (int, s2) =>
      let '(frac, s3) := fraction_part s2 in
      let '(exp, s4) := exponent_part s3 in
      let numeral := minus ++ int ++ frac ++ exp in
      let v :=
        match frac, exp with
        | [], [] =>
            let n := Z.of_N (digits_value int) in
            PyInt (match minus with [] => n | _ => (- n)%Z end)
        | _, _ => PyFloat numeral
        end in
      Some (v, (pos + length numeral)%nat, s4)
  end.

Definition expecting_value (pos : nat) : exn :=
  JSONDecodeError (lit "Expecting value") pos.

(** An error raised where the scanner stands, [depth] calls before the
    limit: the exception object is built by three nested calls. *)
Definition raise_errmsg (depth : nat) (msg : str) (pos : nat) : exn :=
  if (depth <? 3)%nat then RecursionError else JSONDecodeError msg pos.

(** A string scanned [depth] calls before the limit. *)
Definition scanstring_at (depth begin pos : nat) (s : str)
  : result (str * nat * str) :=
  match scanstring begin pos s [] with
  | Raise (JSONDecodeError msg at_) => Raise (raise_errmsg depth msg at_)
  | scanned => scanned
  end.

(** The constants the scanner knows by name; the last three are looked up
    by a call of [parse_constant]. *)
Definition constants : list (str * value) :=
  [ (lit "null", PyNone); (lit "true", PyBool true);
    (lit "false", PyBool false); (lit "NaN", PyFloat (lit "NaN"));
    (lit "Infinity", PyFloat (lit "Infinity"));
    (lit "-Infinity", PyFloat (lit "-Infinity")) ].

Definition parse_constant (depth : nat) (found : value * nat * str)
  : result (value * nat * str) :=
  match found, depth with
  | (PyFloat _, _, _), O => Raise RecursionError
  | _, _ => Ok found
  end.

Fixpoint match_constant (table : list (str * value)) (pos : nat) (s : str)
  : option (value * nat * str) :=
  match table with
  | [] => None
  | (name, v) :: rest =>
      if startswith s name
      then Some (v, (pos + length name)%nat, skipn (length name) s)
      else match_constant rest pos s
  end.

(** One JSON term at the head of [s], the members of an object after its
    brace and the items of an array after its bracket. [depth] is the
    nesting still allowed; [fuel] bounds the steps, and [loads] gives two
    for every code point, more than a text can use. *)
Fixpoint scan_once (fuel depth pos : nat) (s : str) {struct fuel}
  : result (value * nat * str) :=
  match fuel with
  | O => Raise RecursionError
  | S fuel =>
      match s with
      | [] => Raise (expecting_value pos)
      | c :: r =>
          if c =? 34 then
            (let? scanned := scanstring_at depth pos (S pos) r in
             let '(text, pos', rest) := scanned in
             Ok (PyStr text, pos', rest))%py
          else if c =? 123 then
            match depth with
            | O => Raise RecursionError
            | S depth =>
                let '(pos1, s1) := skip_ws (S pos) r in
                match s1 with
                | c1 :: r1 =>
                    if c1 =? 125 then Ok (PyDict [], S pos1, r1)
                    else object_members fuel depth pos1 s1 []
                | [] => object_members fuel depth pos1 s1 []
                end
            end
          else if c =? 91 then
            match depth with
            | O => Raise RecursionError
            | S depth =>
                let '(pos1, s1) := skip_ws (S pos) r in
                match s1 with
                | c1 :: r1 =>
                    if c1 =? 93 then Ok (PyList [], S pos1, r1)
                    else array_items fuel depth pos1 s1 []
                | [] => array_items fuel depth pos1 s1 []
                end
            end
          else
            match match_constant constants pos s with
            | Some found => parse_constant depth found
            | None =>
                match match_number pos s with
                | Some found => Ok found
                | None => Raise (expecting_value pos)
                end
            end
      end
  end

with object_members (fuel depth pos : nat) (s : str) (acc : list (str * value))
  {struct fuel} : result (value * nat * str) :=
  match fuel with
  | O => Raise RecursionError
  | S fuel =>
      match s with
      | q :: r =>
          if q =? 34 then
            (let? scanned := scanstring_at depth pos (S pos) r in
             let '(key, pos1, s1) := scanned in
             let '(pos2, s2) := skip_ws pos1 s1 in
             match s2 with
             | colon :: r2 =>
                 if colon =? 58 then
                   let '(pos3, s3) := skip_ws (S pos2) r2 in
                   let? term := scan_once fuel depth pos3 s3 in
                   let '(val, pos4, s4) := term in
                   let acc := dict_setitem acc key val in
                   let '(pos5, s5) := skip_ws pos4 s4 in
                   match s5 with
                   | c5 :: r5 =>
                       if c5 =? 125 then Ok (PyDict acc, S pos5, r5)
                       else if c5 =? 44 then
                         let '(pos6, s6) := skip_ws (S pos5) r5 in
                         object_members fuel depth pos6 s6 acc
                       else Raise (raise_errmsg depth (lit "Expecting ',' delimiter") pos5)
                   | [] => Raise (raise_errmsg depth (lit "Expecting ',' delimiter") pos5)
                   end
                 else Raise (raise_errmsg depth (lit "Expecting ':' delimiter") pos2)
             | [] => Raise (raise_errmsg depth (lit "Expecting ':' delimiter") pos2)
             end)%py
          else Raise (raise_errmsg depth
                        (lit "Expecting property name enclosed in double quotes") pos)
      | [] => Raise (raise_errmsg depth
                       (lit "Expecting property name enclosed in double quotes") pos)
      end
  end

with array_items (fuel depth pos : nat) (s : str) (acc : list value)
  {struct fuel} : result (value * nat * str) :=
  match fuel with
  | O => Raise RecursionError
  | S fuel =>
      (let? term := scan_once fuel depth pos s in
       let '(val, pos1, s1) := term in
       let acc := acc ++ [val] in
       let '(pos2, s2) := skip_ws pos1 s1 in
       match s2 with
       | c2 :: r2 =>
           if c2 =? 93 then Ok (PyList acc, S pos2, r2)
           else if c2 =? 44 then
             let '(pos3, s3) := skip_ws (S pos2) r2 in
             array_items fuel depth pos3 s3 acc
           else Raise (raise_errmsg depth (lit "Expecting ',' delimiter") pos2)
       | [] => Raise (raise_errmsg depth (lit "Expecting ',' delimiter") pos2)
       end)%py
  end.

(** [json.loads(s)], called where the interpreter allows [depth] more
    nested calls: one term, with whitespace around it and nothing else. *)
Definition loads (depth : nat) (s : str) : result value :=
  if startswith s [65279] then
    Raise (JSONDecodeError
             (lit "Unexpected UTF-8 BOM (decode using utf-8-sig)") 0)
  else
    let '(pos, s1) := skip_ws 0 s in
    (let? term := scan_once (2 * length s + 2) depth pos s1 in
     let '(obj, pos1, s2) := term in
     let '(end_, rest) := skip_ws pos1 s2 in
     match rest with
     | [] => Ok obj
     | _ :: _ => Raise (JSONDecodeError (lit "Extra data") end_)
     end)%py.

End Json.

(** Values for the variables of the sections, for statements evaluated on
    ASCII data without floats, where none of them is consulted: the error
    text of a non-ASCII extension and the [repr] of a float or of a code
    point above ASCII are outside what they decide. *)
Module Instances.

Definition unicode_lower (s : str) : str := s.
Definition float_repr (numeral : str) : str := numeral.
Definition isprintable (c : N) : bool := true.

(** A document of two paragraphs, a document of two pages the second of
    which yields no text, and a completion service that always gives the
    same answer. *)
Definition docx_Document (f : unit) : result (list str) :=
  Ok [lit "Client: Jane Doe,"; lit "budget $50,000"].
Definition PyPDF2_PdfReader (f : unit) : result (list (result (option str))) :=
  Ok [Ok (Some (lit "Client: Jane Doe")); Ok None].
Definition answering (content : str) (req : request) : result response :=
  Ok {| choices := [content] |}.

End Instances.

(* ===================================================================== *)
(** ** Presentation Shell ([main]) *)
(* ===================================================================== *)

(** [os.path.splitext] as [posixpath] has it: the extension starts at the
    last dot of the last path component, unless only dots stand before it
    in that component. Indices are integers, -1 for "not found", as
    [str.rfind] gives them. *)
Module PosixPath.

Fixpoint rfind_from (c : N) (p : str) (i found : Z) : Z :=
  match p with
  | [] => found
  | x :: r => rfind_from c r (i + 1)%Z (if (x =? c)%N then i else found)
  end.

(** [p.rfind(c)] for a one-character [c]. *)
Definition rfind (c : N) (p : str) : Z := rfind_from c p 0%Z (-1)%Z.

(** [p[i:j]], [p[:j]] and [p[i:]] for indices that are not negative. *)
Definition slice (p : str) (i j : Z) : str :=
  firstn (Z.to_nat (j - i)) (skipn (Z.to_nat i) p).

(** The [while] loop over [filenameIndex]: it stops at the first
    character before [dotIndex] that is not a dot; [between] is
    [p[filenameIndex:dotIndex]]. *)
Fixpoint has_name_before_dot (between : str) : bool :=
  match between with
  | [] => false
  | c :: r => if negb (c =? 46)%N then true else has_name_before_dot r
  end.

Definition splitext (p : str) : str * str :=
  let sepIndex := rfind 47%N p in
  let dotIndex := rfind 46%N p in
  if (sepIndex <? dotIndex)%Z
     && has_name_before_dot (slice p (sepIndex + 1) dotIndex)
  then (firstn (Z.to_nat dotIndex) p, skipn (Z.to_nat dotIndex) p)
  else (p, []).

End PosixPath.

(** The arguments of [st.download_button]. *)
Record download : Type := {
  label : str; data : BytesIO; file_name : str; mime : str
}.

(** What [main] shows and asks, in order. [Ev] carries the events of the
    pipeline stages and the [st.write] and [st.error] of [main] itself. *)
Inductive ui_event : Type :=
| Ev (e : event)
| SidebarTitle (text : str)               (* st.sidebar.title *)
| SidebarMarkdown (text : str)            (* st.sidebar.markdown *)
| SidebarFileUploader (text : str) (types : list str)
| StTitle (text : str)
| StButton (text : str)
| SpinnerEnter (text : str)               (* entering [with st.spinner] *)
| SpinnerExit                             (* leaving it *)
| StSuccess (text : str)
| StJson (v : value)
| StDownloadButton (d : download)
| StInfo (text : str).

(** Computations of the shell: they may raise and they log [ui_event]s. *)
Definition UI (A : Type) : Type :=
  list ui_event -> result A * list ui_event.

Definition ui_ret {A} (a : A) : UI A := fun log => (Ok a, log).
Definition ui_emit (ev : ui_event) : UI unit := fun log => (Ok tt, log ++ [ev]).
Definition ui_lift {A} (r : result A) : UI A := fun log => (r, log).
Definition ui_bind {A B} (m : UI A) (k : A -> UI B) : UI B :=
  fun log =>
    match m log with
    | (Ok a, log') => k a log'
    | (Raise e, log') => (Raise e, log')
    end.

(** A stage run inside the shell: its events follow those logged so far. *)
Definition stage {A} (m : M A) : UI A :=
  fun log => let '(r, events) := run m in (r, log ++ map Ev events).

(** [with st.spinner(text): body]: the spinner is left also when the body
    raises. *)
Definition with_spinner {A} (text : str) (body : UI A) : UI A :=
  fun log =>
    let '(r, log') := body (log ++ [SpinnerEnter text]) in
    (r, log' ++ [SpinnerExit]).

(** [try: body except Exception as e: handler(e)]. *)
Definition try_except_Exception (body : UI unit) (handler : exn -> UI unit)
  : UI unit :=
  fun log =>
    match body log with
    | (Raise e, log') => handler e log'
    | done => done
    end.

Declare Scope ui_scope.
Delimit Scope ui_scope with ui.
Notation "'let!' x ':=' m 'in' k" := (ui_bind m (fun x => k))
  (at level 10, x name, m at level 100, k at level 200) : ui_scope.
Notation "'run!' m 'in' k" := (ui_bind m (fun _ => k))
  (at level 10, m at level 100, k at level 200) : ui_scope.

Definition st_write (args : list str) : UI unit := ui_emit (Ev (StWrite args)).
Definition st_error (msg : str) : UI unit := ui_emit (Ev (StError msg)).

(** The keyword arguments of the [st.download_button] of [main]. *)
Definition download_of (excel_data : BytesIO) : download :=
  {| label := lit "Download Excel";
     data := excel_data;
     file_name := lit "Renovation_Extracted_Details.xlsx";
     mime := lit "application/vnd.openxmlformats-officedocument.spreadsheetml.sheet" |}.

Section Shell.

(** The uploaded file object and its [name]. *)
Context {file : Type}.
Variable name : file -> str.

Variable unicode_lower : str -> str.
Variable docx_Document : file -> result (list str).
Variable PyPDF2_PdfReader : file -> result (list (result (option str))).
Variable ChatCompletion_create : request -> result response.
Variable json_loads : str -> result value.
Variable float_repr : str -> str.
Variable isprintable : N -> bool.

(** [str(e)] for the exceptions whose text is not the message they were
    built with. *)
Variable other_exception_text : exn -> str.

(** [str(e)]. *)
Definition exception_text (e : exn) : str :=
  match e with
  | ValueError msg | TypeError msg | AttributeError msg | IndexError msg => msg
  | _ => other_exception_text e
  end.

(** The body of the [try] of [main]. *)
Definition process (uploaded_file : file) (file_extension : str) : UI unit :=
  (let! cleaned_text :=
     with_spinner (lit "Extracting text...")
       (let! raw_text :=
          stage (extract_text unicode_lower docx_Document PyPDF2_PdfReader
                   uploaded_file file_extension) in
        let cleaned_text := clean_text raw_text in
        ui_ret cleaned_text) in
   let! details :=
     with_spinner (lit "Extracting details via GPT...")
       (stage (extract_details_with_gpt ChatCompletion_create json_loads
                 cleaned_text)) in
   run! ui_emit (StSuccess (lit "Extraction complete! Here are the details:")) in
   run! ui_emit (StJson details) in
   let! excel_data :=
     with_spinner (lit "Generating Excel file...")
       (ui_lift (create_pretty_excel float_repr isprintable details)) in
   run! ui_emit (StSuccess (lit "Excel file ready!")) in
   ui_emit (StDownloadButton (download_of excel_data)))%ui.

(** [main], given what the two widgets return: the uploaded file, if any,
    and whether the button was pressed. *)
Definition main (uploaded_file : option file) (process_button : bool) : UI unit :=
  (run! ui_emit (SidebarTitle (lit "Chapter Renovation Details")) in
   run! ui_emit (SidebarMarkdown (lit "### Upload your transcript here:")) in
   run! ui_emit (SidebarFileUploader (lit "Choose a .docx or .pdf file")
                   [lit "docx"; lit "pdf"]) in
   run! ui_emit (StTitle (lit "Renovation Transcript " ++ [8614%N]
                            ++ lit " Excel Generator")) in
   run! st_write
          [lit "This app takes a DOCX or PDF transcript about a renovation project, extracts the key details using GPT, and returns a downloadable Excel file."] in
   match uploaded_file with
   | Some uploaded_file =>
       let file_extension := snd (PosixPath.splitext (name uploaded_file)) in
       run! st_write [lit "**File uploaded:** `" ++ name uploaded_file ++ lit "`"] in
       run! ui_emit (StButton (lit "Process File with GPT")) in
       if process_button then
         try_except_Exception
           (process uploaded_file file_extension)
           (fun e => st_error (lit "An error occurred: " ++ exception_text e))
       else ui_ret tt
   | None =>
       ui_emit (StInfo (lit "Please upload a DOCX or PDF file from the sidebar to begin."))
   end)%ui.

End Shell.

(** The events of the pipeline among those of the shell. *)
Definition pipeline_events (log : list ui_event) : list event :=
  flat_map (fun ev => match ev with Ev e => [e] | _ => [] end) log.

Definition is_completion_call (e : event) : bool :=
  match e with ChatCompletionCreate _ => true | _ => false end.

Definition is_parser_call (e : event) : bool :=
  match e with
  | DocxDocument | PdfReader | PageExtractText _ => true
  | _ => false
  end.

(** A code point that is not whitespace, and the replacement of every
    whitespace code point by a space. *)
Definition non_space (c : N) : bool := negb (isspace c).
Definition to_space (c : N) : N := if isspace c then space else c.

(** What a page adds to the text of a PDF: its text, or nothing when
    [extract_text()] gave [None]. *)
Definition page_text (extracted : option str) : str :=
  match extracted with
  | Some t => t
  | None => []
  end.

Definition is_spinner_enter (ev : ui_event) : bool :=
  match ev with SpinnerEnter _ => true | _ => false end.

Definition is_spinner_exit (ev : ui_event) : bool :=
  match ev with SpinnerExit => true | _ => false end.

Definition is_download (ev : ui_event) : bool :=
  match ev with StDownloadButton _ => true | _ => false end.

(** The events of the three spinners of [main], given the events of the
    stage each one wraps, and what [main] logs before it looks at the
    button, given the name of the upload. *)
Definition text_spinner (events : list event) : list ui_event :=
  [SpinnerEnter (lit "Extracting text...")] ++ map Ev events ++ [SpinnerExit].

Definition details_spinner (events : list event) : list ui_event :=
  [SpinnerEnter (lit "Extracting details via GPT...")] ++ map Ev events
  ++ [SpinnerExit].

Definition excel_spinner : list ui_event :=
  [SpinnerEnter (lit "Generating Excel file..."); SpinnerExit].

Definition preview (details : value) : list ui_event :=
  [StSuccess (lit "Extraction complete! Here are the details:"); StJson details].

Definition greeting : list ui_event :=
  [ SidebarTitle (lit "Chapter Renovation Details");
    SidebarMarkdown (lit "### Upload your transcript here:");
    SidebarFileUploader (lit "Choose a .docx or .pdf file")
      [lit "docx"; lit "pdf"];
    StTitle (lit "Renovation Transcript " ++ [8614%N] ++ lit " Excel Generator");
    Ev (StWrite
          [lit "This app takes a DOCX or PDF transcript about a renovation project, extracts the key details using GPT, and returns a downloadable Excel file."]) ].

Definition upload_notice (file_name : str) : list ui_event :=
  [ Ev (StWrite [lit "**File uploaded:** `" ++ file_name ++ lit "`"]);
    StButton (lit "Process File with GPT") ].

(** Uploads for the statements evaluated on data: the file object is its
    name, every DOCX has the same two paragraphs and every PDF the same
    two pages, and no exception text beyond the messages is consulted. *)
Module Examples.

Definition name (f : str) : str := f.
Definition docx_Document (f : str) : result (list str) :=
  Ok [lit "Client: Jane Doe,"; lit "budget $50,000"].
Definition PyPDF2_PdfReader (f : str) : result (list (result (option str))) :=
  Ok [Ok (Some (lit "Client: Jane Doe")); Ok None].
Definition other_exception_text (e : exn) : str := [].

(** [main] on these uploads, with the given service. *)
Definition main (service : request -> result response)
  (uploaded_file : option str) (process_button : bool)
  : result unit * list ui_event :=
  main name Instances.unicode_lower docx_Document PyPDF2_PdfReader service
    (Json.loads 100) Instances.float_repr Instances.isprintable other_exception_text
    uploaded_file process_button [].

End Examples.

(* ===================================================================== *)
(** * Properties *)
(* ===================================================================== *)

(** ** The Text Normalizer *)

Module CleanText.

Lemma isspace_space : isspace space = true.
Proof. reflexivity. Qed.

Lemma re_sub_single_spaced (text : str) (in_run : bool) :
  single_spaced in_run (re_sub_spaces in_run text).
Proof.
  revert in_run. induction text as [|c rest IH]; intros in_run; simpl; [exact I|].
  destruct (isspace c) eqn:Hc.
  - destruct in_run; [apply IH|].
    simpl. rewrite isspace_space. split; [auto | apply IH].
  - simpl. rewrite Hc. split; [discriminate | apply IH].
Qed.

Lemma re_sub_fixed (s : str) (in_run : bool) :
  single_spaced in_run s -> re_sub_spaces in_run s = s.
Proof.
  revert in_run. induction s as [|c r IH]; intros in_run; simpl; [reflexivity|].
  intros [Hc Hr]. destruct (isspace c) eqn:E.
  - destruct (Hc eq_refl) as [-> ->]. f_equal. apply IH. exact Hr.
  - f_equal. apply IH. exact Hr.
Qed.

(** The flag is irrelevant for a text that does not start with
    whitespace. *)
Lemma single_spaced_flag (s : str) (p q : bool) :
  match s with c :: _ => isspace c = false | [] => True end ->
  single_spaced p s -> single_spaced q s.
Proof.
  destruct s as [|c r]; simpl; [auto|].
  intros Hc [_ Hr]. split; [rewrite Hc; discriminate | exact Hr].
Qed.

Lemma lstrip_head (s : str) :
  match lstrip s with c :: _ => isspace c = false | [] => True end.
Proof.
  induction s as [|c r IH]; simpl; [exact I|].
  destruct (isspace c) eqn:E; [exact IH | exact E].
Qed.

Lemma lstrip_single_spaced (s : str) (p q : bool) :
  single_spaced p s -> single_spaced q (lstrip s).
Proof.
  revert p. induction s as [|c r IH]; intros p; simpl; [auto|].
  intros [Hc Hr]. destruct (isspace c) eqn:E.
  - eapply IH. exact Hr.
  - simpl. rewrite E. split; [discriminate | exact Hr].
Qed.

Lemma lstrip_fixed (s : str) :
  match s with c :: _ => isspace c = false | [] => True end -> lstrip s = s.
Proof. destruct s as [|c r]; simpl; [reflexivity|]. intros ->. reflexivity. Qed.

Lemma lstrip_snoc (l : str) (c : N) :
  lstrip (l ++ [c]) =
  if isspace c
  then match lstrip l with [] => [] | _ :: _ => lstrip l ++ [c] end
  else lstrip l ++ [c].
Proof.
  induction l as [|a l IH]; simpl.
  - destruct (isspace c); reflexivity.
  - destruct (isspace a) eqn:Ea; [exact IH|].
    destruct (isspace c); reflexivity.
Qed.

(** [rstrip], read from the left. *)
Lemma rstrip_cons (c : N) (r : str) :
  rstrip (c :: r) =
  match rstrip r with
  | [] => if isspace c then [] else [c]
  | _ :: _ => c :: rstrip r
  end.
Proof.
  unfold rstrip. simpl rev at 2. rewrite lstrip_snoc.
  destruct (lstrip (rev r)) as [|a l] eqn:E.
  - simpl. destruct (isspace c); reflexivity.
  - assert (Hne : rev (a :: l) <> []).
    { intros H. apply (f_equal (@length N)) in H.
      rewrite length_rev in H. discriminate H. }
    destruct (rev (a :: l)) as [|b m] eqn:Er; [contradiction|].
    assert (Hrev : rev ((a :: l) ++ [c]) = c :: b :: m).
    { rewrite rev_app_distr. simpl. simpl in Er. rewrite Er. reflexivity. }
    destruct (isspace c); exact Hrev.
Qed.

Lemma rstrip_prefix (s : str) : exists q, s = rstrip s ++ q.
Proof.
  induction s as [|c r [q Hq]]; [exists []; reflexivity|].
  rewrite rstrip_cons. destruct (rstrip r) as [|a l] eqn:E.
  - destruct (isspace c).
    + exists (c :: r). reflexivity.
    + exists r. reflexivity.
  - exists q. simpl. f_equal. exact Hq.
Qed.

Lemma rstrip_last (s init : str) (c : N) :
  rstrip s = init ++ [c] -> isspace c = false.
Proof.
  revert init. induction s as [|a r IH]; intros init.
  - destruct init; discriminate.
  - rewrite rstrip_cons. destruct (rstrip r) as [|b l] eqn:E.
    + destruct (isspace a) eqn:Ea.
      * destruct init; discriminate.
      * destruct init as [|x [|y init]]; try discriminate.
        intros H. injection H as <-. exact Ea.
    + destruct init as [|x init]; [discriminate|].
      intros H. injection H as _ H. apply (IH init). exact H.
Qed.

Lemma rstrip_idempotent (s : str) : rstrip (rstrip s) = rstrip s.
Proof.
  induction s as [|c r IH]; [reflexivity|].
  rewrite rstrip_cons. destruct (rstrip r) as [|a l] eqn:E.
  - destruct (isspace c) eqn:Ec; [reflexivity|].
    unfold rstrip. simpl. rewrite Ec. reflexivity.
  - rewrite rstrip_cons, IH. reflexivity.
Qed.

Lemma rstrip_head (s : str) :
  match s with c :: _ => isspace c = false | [] => True end ->
  match rstrip s with c :: _ => isspace c = false | [] => True end.
Proof.
  destruct s as [|c r]; [intros _; exact I|].
  intros Hc. rewrite rstrip_cons. rewrite Hc.
  destruct (rstrip r); exact Hc.
Qed.

Lemma single_spaced_app_l (p : bool) (a b : str) :
  single_spaced p (a ++ b) -> single_spaced p a.
Proof.
  revert p. induction a as [|c r IH]; intros p; simpl; [auto|].
  intros [Hc Hr]. split; [exact Hc | apply IH; exact Hr].
Qed.

Lemma single_spaced_adjacent (p : bool) (pre post : str) (a b : N) :
  single_spaced p (pre ++ a :: b :: post) ->
  isspace a && isspace b = false.
Proof.
  revert p. induction pre as [|c r IH]; intros p; simpl.
  - intros [_ [Hb _]]. destruct (isspace b); [|apply andb_false_r].
    destruct (Hb eq_refl) as [_ ->]. reflexivity.
  - intros [_ Hr]. eapply IH. exact Hr.
Qed.

Lemma strip_head (s : str) :
  match strip s with c :: _ => isspace c = false | [] => True end.
Proof. unfold strip. apply rstrip_head, lstrip_head. Qed.

Lemma strip_idempotent (s : str) : strip (strip s) = strip s.
Proof.
  unfold strip at 1. rewrite lstrip_fixed by apply strip_head.
  unfold strip. apply rstrip_idempotent.
Qed.

Lemma strip_single_spaced (s : str) (p q : bool) :
  single_spaced p s -> single_spaced q (strip s).
Proof.
  intros H. unfold strip.
  destruct (rstrip_prefix (lstrip s)) as [tl Htl].
  apply (single_spaced_app_l q _ tl). rewrite <- Htl.
  eapply lstrip_single_spaced. exact H.
Qed.

Lemma clean_text_single_spaced (x : str) : single_spaced false (clean_text x).
Proof.
  unfold clean_text. eapply strip_single_spaced. apply re_sub_single_spaced.
Qed.

End CleanText.

(** C4. For every text [x], [clean_text] is idempotent, its result has no
    two consecutive whitespace code points, and it neither starts nor ends
    with whitespace. *)
Theorem clean_text_idempotent_normalized (x : str) :
  clean_text (clean_text x) = clean_text x
  /\ (forall pre a b post,
        clean_text x = pre ++ a :: b :: post ->
        isspace a && isspace b = false)
  /\ (forall c rest, clean_text x = c :: rest -> isspace c = false)
  /\ (forall init c, clean_text x = init ++ [c] -> isspace c = false).
Proof.
  pose proof (CleanText.clean_text_single_spaced x) as Hn.
  repeat split.
  - unfold clean_text at 1.
    rewrite (CleanText.re_sub_fixed _ _ Hn).
    unfold clean_text. apply CleanText.strip_idempotent.
  - intros pre a b post E. rewrite E in Hn.
    eapply CleanText.single_spaced_adjacent. exact Hn.
  - intros c rest E. pose proof (CleanText.strip_head (re_sub_spaces false x)) as H.
    unfold clean_text in E. rewrite E in H. exact H.
  - intros init c E. unfold clean_text, strip in E.
    eapply CleanText.rstrip_last. exact E.
Qed.

(** ** The Prompt Builder *)

Lemma startswith_sound (b a : str) :
  startswith b a = true -> exists post, b = a ++ post.
Proof.
  revert b. induction a as [|x a IH]; intros b; simpl.
  - intros _. exists b. reflexivity.
  - destruct b as [|y b]; [discriminate|].
    intros H. apply andb_true_iff in H as [Hxy Hr].
    apply N.eqb_eq in Hxy as ->.
    destruct (IH b Hr) as [post ->]. exists post. reflexivity.
Qed.

Lemma contains_sound (b a : str) : contains b a = true -> substring a b.
Proof.
  induction b as [|y b IH]; intros H.
  - destruct a; [|discriminate]. exists [], []. reflexivity.
  - change (startswith (y :: b) a || contains b a = true) in H.
    apply orb_true_iff in H as [H|H].
    + apply startswith_sound in H as [post ->]. exists [], post. reflexivity.
    + destruct (IH H) as (pre & post & ->). exists (y :: pre), post. reflexivity.
Qed.

Lemma substring_app (a b pre post : str) :
  substring a b -> substring a (pre ++ b ++ post).
Proof.
  intros (p & q & ->). exists (pre ++ p), (q ++ post).
  rewrite <- !app_assoc. reflexivity.
Qed.

(** C6. For every text [t], [build_prompt t] holds [t] as it is and holds
    each of the ten field names. *)
Theorem build_prompt_contains (t : str) :
  substring t (build_prompt t)
  /\ Forall (fun name => substring name (build_prompt t))
       [ lit "ProjectName"; lit "ClientName"; lit "PropertyAddress";
         lit "ProjectManager"; lit "RenovationAreas"; lit "ScopeOfWork";
         lit "MaterialPreferences"; lit "BudgetOrCost"; lit "Timeline";
         lit "AdditionalNotes" ].
Proof.
  split.
  - exists prompt_head, prompt_tail. reflexivity.
  - assert (Hhead : forall name,
               contains prompt_head name = true ->
               substring name (build_prompt t)).
    { intros name H. apply (substring_app name prompt_head [] (t ++ prompt_tail)).
      apply contains_sound. exact H. }
    repeat (apply List.Forall_cons; [apply Hhead; vm_compute; reflexivity|]).
    apply List.Forall_nil.
Qed.

(** ** The Text Extractor *)

Section TextExtractorFacts.

Context {file : Type}.
Variable unicode_lower : str -> str.
Variable docx_Document : file -> result (list str).
Variable PyPDF2_PdfReader : file -> result (list (result (option str))).

Lemma ascii_tolower_ascii (c : N) :
  (ascii_tolower c <? 128)%N = (c <? 128)%N.
Proof.
  unfold ascii_tolower.
  destruct ((65 <=? c)%N && (c <=? 90)%N) eqn:E; [|reflexivity].
  apply andb_true_iff in E as [_ E]. apply N.leb_le in E.
  transitivity true; [apply N.ltb_lt | symmetry; apply N.ltb_lt]; lia.
Qed.

Lemma isascii_tolower (s : str) : isascii (map ascii_tolower s) = isascii s.
Proof.
  induction s as [|c r IH]; [reflexivity|].
  simpl. rewrite ascii_tolower_ascii. f_equal. exact IH.
Qed.

(** An extension that is [target] up to the case of its ASCII letters
    lowers to [target]. *)
Lemma lower_case_variant (ext target : str) :
  isascii target = true ->
  map ascii_tolower ext = target ->
  lower unicode_lower ext = target.
Proof.
  intros Ht E. unfold lower.
  rewrite <- isascii_tolower, E, Ht. reflexivity.
Qed.

Lemma eqb_refl (a : str) : Str.eqb a a = true.
Proof. unfold Str.eqb. apply bool_decide_eq_true. reflexivity. Qed.

Lemma eqb_neq (a b : str) : a <> b -> Str.eqb a b = false.
Proof. intros H. unfold Str.eqb. apply bool_decide_eq_false. exact H. Qed.

End TextExtractorFacts.

(** C5. Whatever the file is, an extension that does not lower to
    [.docx] or [.pdf] (the extension carries its dot, as
    [os.path.splitext] returns it) makes [extract_text] raise the
    unsupported-format [ValueError] without any call to a document parser:
    the event log is left as it was. An extension that is [.docx]
    (respectively [.pdf]) in any letter case selects
    [extract_text_from_docx] (respectively [extract_text_from_pdf]). *)
Theorem extract_text_dispatch {file : Type}
  (unicode_lower : str -> str)
  (docx_Document : file -> result (list str))
  (PyPDF2_PdfReader : file -> result (list (result (option str))))
  (file_bytes : file) (file_extension : str) :
  let extract := extract_text unicode_lower docx_Document PyPDF2_PdfReader in
  (lower unicode_lower file_extension <> lit ".docx" ->
   lower unicode_lower file_extension <> lit ".pdf" ->
   forall log,
     extract file_bytes file_extension log =
     (Raise (ValueError (lit "Unsupported file format: "
                           ++ lower unicode_lower file_extension)), log))
  /\ (map ascii_tolower file_extension = lit ".docx" ->
      extract file_bytes file_extension =
      extract_text_from_docx docx_Document file_bytes)
  /\ (map ascii_tolower file_extension = lit ".pdf" ->
      extract file_bytes file_extension =
      extract_text_from_pdf PyPDF2_PdfReader file_bytes).
Proof.
  intros extract. unfold extract, extract_text. repeat split.
  - intros Hd Hp log. rewrite (eqb_neq _ _ Hd), (eqb_neq _ _ Hp). reflexivity.
  - intros E.
    rewrite (lower_case_variant unicode_lower _ (lit ".docx") eq_refl E).
    reflexivity.
  - intros E.
    rewrite (lower_case_variant unicode_lower _ (lit ".pdf") eq_refl E).
    reflexivity.
Qed.

(** C5 at three extensions: [.txt] is refused with nothing logged,
    [.DocX] goes through the DOCX parser and [.PDF] through the PDF
    parser. *)
Lemma extract_text_dispatch_witness :
  run (extract_text Instances.unicode_lower Instances.docx_Document
         Instances.PyPDF2_PdfReader tt (lit ".txt"))
  = (Raise (ValueError (lit "Unsupported file format: .txt")), [])
  /\ run (extract_text Instances.unicode_lower Instances.docx_Document
            Instances.PyPDF2_PdfReader tt (lit ".DocX"))
     = (Ok (lit "Client: Jane Doe," ++ [10%N] ++ lit "budget $50,000"),
        [DocxDocument])
  /\ run (extract_text Instances.unicode_lower Instances.docx_Document
            Instances.PyPDF2_PdfReader tt (lit ".PDF"))
     = (Ok (lit "Client: Jane Doe" ++ [10%N; 10%N]),
        [PdfReader; PageExtractText 0; PageExtractText 1]).
Proof.
  pose proof (extract_text_dispatch Instances.unicode_lower
                Instances.docx_Document Instances.PyPDF2_PdfReader) as H.
  split; [|split].
  - destruct (H tt (lit ".txt")) as [Hraise _].
    unfold run. rewrite Hraise.
    + reflexivity.
    + vm_compute. discriminate.
    + vm_compute. discriminate.
  - destruct (H tt (lit ".DocX")) as (_ & Hdocx & _).
    unfold run. rewrite Hdocx; reflexivity.
  - destruct (H tt (lit ".PDF")) as (_ & _ & Hpdf).
    unfold run. rewrite Hpdf; reflexivity.
Defined.

(** ** The Extraction Client *)

Section ExtractionClientFacts.

Variable ChatCompletion_create : request -> result response.
Variable json_loads : str -> result value.

(** What the client does once the service has answered: the decoder
    decides. *)
Lemma extract_details_answered (transcript_text content : str)
  (resp : response) (others : list str) :
  ChatCompletion_create (completion_request (build_prompt transcript_text))
    = Ok resp ->
  choices resp = content :: others ->
  run (extract_details_with_gpt ChatCompletion_create json_loads transcript_text)
  = let req := completion_request (build_prompt transcript_text) in
    match json_loads (strip content) with
    | Ok details => (Ok details, [ChatCompletionCreate req])
    | Raise (JSONDecodeError _ _) =>
        (Ok fallback,
         [ ChatCompletionCreate req;
           StError (lit "Error parsing GPT JSON output. Returning fallback data.");
           StWrite [lit "Raw GPT output was:"; strip content] ])
    | Raise e => (Raise e, [ChatCompletionCreate req])
    end.
Proof.
  intros Hresp Hchoices.
  unfold run, extract_details_with_gpt, bind, emit, lift, ret,
    try_except_JSONDecodeError, first_choice.
  rewrite Hresp, Hchoices.
  destruct (json_loads (strip content)) as [details|[]]; reflexivity.
Qed.

End ExtractionClientFacts.

Lemma fallback_fields :
  exists items,
    fallback = PyDict items
    /\ map fst items = headers
    /\ Forall (fun header => dict_lookup items header = Some not_provided) headers.
Proof.
  eexists. split; [reflexivity|]. split; [reflexivity|].
  repeat (apply List.Forall_cons; [vm_compute; reflexivity|]).
  apply List.Forall_nil.
Qed.




(** The nesting that is refused at a depth of 100 is read one level
    further, up to the end of the text, at a depth of 101. *)
Lemma loads_nesting_limit :
  Json.loads 100 (repeat 91%N 101) = Raise RecursionError
  /\ Json.loads 101 (repeat 91%N 101)
     = Raise (JSONDecodeError (lit "Expecting value") 101)
  /\ Json.loads 100 (repeat 91%N 100 ++ repeat 93%N 100)
     = Ok (Nat.iter 99 (fun v => PyList [v]) (PyList [])).
Proof. repeat split; vm_compute; reflexivity. Qed.

(** C3. When the completion service answers and the text of its first
    choice, trimmed, decodes to a JSON object, the client returns that
    object as the decoder gave it: no key is checked or added, no value
    changed, and nothing is reported. *)
Theorem parsed_object_returned_as_is
  (ChatCompletion_create : request -> result response)
  (json_loads : str -> result value)
  (transcript_text content : str) (items : list (str * value))
  (resp : response) (others : list str) :
  ChatCompletion_create (completion_request (build_prompt transcript_text))
    = Ok resp ->
  choices resp = content :: others ->
  json_loads (strip content) = Ok (PyDict items) ->
  run (extract_details_with_gpt ChatCompletion_create json_loads transcript_text)
  = (Ok (PyDict items),
     [ChatCompletionCreate (completion_request (build_prompt transcript_text))]).
Proof.
  intros Hresp Hchoices Hjson.
  rewrite (extract_details_answered _ _ _ _ _ _ Hresp Hchoices), Hjson.
  reflexivity.
Qed.

(** C3 on an answer with surrounding whitespace, an extra key, a list and
    a number, decoded by [Json.loads]. *)
Lemma parsed_object_returned_as_is_witness :
  fst (run (extract_details_with_gpt
              (Instances.answering
                 (lit " {" ++ quoted (lit "ProjectName") ++ lit ": "
                    ++ quoted (lit "Oak St Remodel") ++ lit ", "
                    ++ quoted (lit "RenovationAreas") ++ lit ": ["
                    ++ quoted (lit "Kitchen") ++ lit ", "
                    ++ quoted (lit "Bath") ++ lit "], "
                    ++ quoted (lit "Floors") ++ lit ": 2} " ++ [10%N]))
              (Json.loads 100) (lit "Client: Jane Doe")))
  = Ok (PyDict
          [ (lit "ProjectName", PyStr (lit "Oak St Remodel"));
            (lit "RenovationAreas",
             PyList [PyStr (lit "Kitchen"); PyStr (lit "Bath")]);
            (lit "Floors", PyInt 2) ]).
Proof.
  erewrite parsed_object_returned_as_is.
  - reflexivity.
  - reflexivity.
  - reflexivity.
  - vm_compute. reflexivity.
Defined.

(** C9. When the text of the first choice, trimmed, decodes to a value
    that is not an object (an array, a number, a string, a constant), the
    client returns that value as it is, not the fallback record: the
    record it hands on need not be a mapping. *)
Theorem parsed_non_object_returned_as_is
  (ChatCompletion_create : request -> result response)
  (json_loads : str -> result value)
  (transcript_text content : str) (details : value)
  (resp : response) (others : list str) :
  ChatCompletion_create (completion_request (build_prompt transcript_text))
    = Ok resp ->
  choices resp = content :: others ->
  json_loads (strip content) = Ok details ->
  isinstance_dict details = false ->
  run (extract_details_with_gpt ChatCompletion_create json_loads transcript_text)
  = (Ok details,
     [ChatCompletionCreate (completion_request (build_prompt transcript_text))])
  /\ details <> fallback.
Proof.
  intros Hresp Hchoices Hjson Hdict. split.
  - rewrite (extract_details_answered _ _ _ _ _ _ Hresp Hchoices), Hjson.
    reflexivity.
  - intros ->. discriminate Hdict.
Qed.

(** C9 on an array, decoded by [Json.loads]. *)
Lemma parsed_non_object_returned_as_is_witness :
  fst (run (extract_details_with_gpt
              (Instances.answering
                 (lit "[" ++ quoted (lit "Kitchen") ++ lit ", 3, null]"))
              (Json.loads 100) (lit "Client: Jane Doe")))
  = Ok (PyList [PyStr (lit "Kitchen"); PyInt 3; PyNone]).
Proof.
  edestruct parsed_non_object_returned_as_is as [Hrun _];
    [..|rewrite Hrun; reflexivity].
  - reflexivity.
  - reflexivity.
  - vm_compute. reflexivity.
  - reflexivity.
Defined.

(** ** The Spreadsheet Renderer *)

Module Render.

Lemma get_column_letter_A_Z (c : nat) :
  1 <= c <= 26 -> get_column_letter c = Ok [N.of_nat (64 + c)].
Proof.
  intros [Hlo Hhi].
  do 27 (destruct c as [|c]; [first [lia | vm_compute; reflexivity]|]).
  lia.
Qed.

(** What [check_string] returns is the cut text, and it holds no illegal
    character; a text of at most 32767 characters is not cut. *)
Lemma check_string_Ok (v text : str) :
  check_string v = Ok text ->
  text = slice_to 32767 v /\ existsb is_illegal_character text = false.
Proof.
  unfold check_string.
  destruct (existsb is_illegal_character (slice_to 32767 v)) eqn:E;
    [discriminate|].
  intros [= <-]. split; [reflexivity | exact E].
Qed.

Lemma check_string_Raise (v : str) :
  existsb is_illegal_character (slice_to 32767 v) = true ->
  check_string v = Raise IllegalCharacterError.
Proof. intros H. unfold check_string. rewrite H. reflexivity. Qed.

Lemma slice_to_short (n : N) (v : str) :
  (N.of_nat (length v) <= n)%N -> slice_to n v = v.
Proof.
  revert n. induction v as [|c rest IH]; intros n H; [reflexivity|].
  simpl in *. destruct (N.eqb_spec n 0) as [->|Hn]; [lia|].
  f_equal. apply IH. lia.
Qed.

(** The text a cell keeps has at most 32767 characters. *)
Lemma slice_to_length (n : N) (v : str) :
  N.of_nat (length (slice_to n v)) = N.min n (N.of_nat (length v)).
Proof.
  revert n. induction v as [|c rest IH]; intros n; [simpl; lia|].
  cbn [slice_to]. destruct (N.eqb_spec n 0) as [->|Hn]; [simpl; lia|].
  cbn [length]. rewrite !Nat2N.inj_succ, IH. lia.
Qed.

Lemma check_string_length (v text : str) :
  check_string v = Ok text -> (N.of_nat (length text) <= 32767)%N.
Proof.
  intros H. apply check_string_Ok in H as [-> _].
  rewrite slice_to_length. lia.
Qed.

Lemma header_body_write (item : nat * str) (ws : Worksheet) :
  1 <= fst item <= 26 -> check_string (snd item) = Ok (snd item) ->
  header_body item ws = Ok (header_write ws item).
Proof.
  destruct item as [c h]. simpl. intros Hc Hh.
  unfold header_body, header_write, ws_cell.
  rewrite Hh, (get_column_letter_A_Z c Hc).
  reflexivity.
Qed.

Lemma header_loop (items : list (nat * str)) (ws : Worksheet) :
  Forall (fun item => 1 <= fst item <= 26
                      /\ check_string (snd item) = Ok (snd item)) items ->
  for_each items header_body ws = Ok (fold_left header_write items ws).
Proof.
  revert ws. induction items as [|item rest IH]; intros ws H; [reflexivity|].
  apply Forall_cons in H as [[Hitem Htext] Hrest].
  simpl. rewrite (header_body_write item ws Hitem Htext). simpl. apply IH, Hrest.
Qed.

Section Loops.
Variable float_repr : str -> str.
Variable isprintable : N -> bool.

Lemma value_body_cell_text (details : value) (item : nat * str) (ws : Worksheet) :
  value_body float_repr isprintable details item ws =
  match cell_text float_repr isprintable details (snd item) with
  | Ok text => Ok (value_write ws (fst item, text))
  | Raise e => Raise e
  end.
Proof.
  destruct item as [c h]. unfold value_body, cell_text, ws_cell. cbn [fst snd].
  destruct (field_text float_repr isprintable details h) as [text|e];
    [|reflexivity].
  cbn [rbind]. destruct (check_string text); reflexivity.
Qed.

Lemma value_loop (details : value) (hs : list str) (start : nat) (ws : Worksheet) :
  for_each (enumerate start hs) (value_body float_repr isprintable details) ws =
  match cell_texts float_repr isprintable details hs with
  | Ok texts => Ok (fold_left value_write (enumerate start texts) ws)
  | Raise e => Raise e
  end.
Proof.
  revert start ws. induction hs as [|h rest IH]; intros start ws; [reflexivity|].
  cbn [enumerate for_each cell_texts]. rewrite value_body_cell_text. cbn [fst snd].
  destruct (cell_text float_repr isprintable details h) as [text|e];
    cbn [rbind]; [|reflexivity].
  rewrite IH.
  destruct (cell_texts float_repr isprintable details rest); reflexivity.
Qed.

Lemma create_pretty_excel_rendered (details : value) :
  create_pretty_excel float_repr isprintable details =
  match cell_texts float_repr isprintable details headers with
  | Ok texts => Ok (rendered texts)
  | Raise e => Raise e
  end.
Proof.
  unfold create_pretty_excel.
  rewrite header_loop.
  - cbv beta iota delta [rbind]. rewrite value_loop.
    destruct (cell_texts float_repr isprintable details headers); reflexivity.
  - repeat (apply List.Forall_cons;
            [split; [simpl; lia | vm_compute; reflexivity]|]).
    apply List.Forall_nil.
Qed.

Lemma cell_texts_Forall2 (details : value) (hs : list str) (texts : list str) :
  cell_texts float_repr isprintable details hs = Ok texts ->
  Forall2 (fun h t => cell_text float_repr isprintable details h = Ok t) hs texts.
Proof.
  revert texts. induction hs as [|h rest IH]; intros texts; simpl.
  - intros [= <-]. constructor.
  - destruct (cell_text float_repr isprintable details h) as [t|e] eqn:Et; [|discriminate].
    simpl. destruct (cell_texts float_repr isprintable details rest) as [ts|e]; [|discriminate].
    simpl. intros [= <-]. constructor; [exact Et | apply IH; reflexivity].
Qed.

End Loops.

Lemma enumerate_fst {A} (l : list A) (start : nat) :
  map fst (enumerate start l) = seq start (length l).
Proof.
  revert start. induction l as [|x r IH]; intros start; [reflexivity|].
  simpl. f_equal. apply IH.
Qed.

Lemma enumerate_lookup {A} (l : list A) (start i : nat) (x : A) :
  l !! i = Some x -> In (start + i, x) (enumerate start l).
Proof.
  revert start i. induction l as [|y r IH]; intros start i; [discriminate|].
  destruct i as [|i]; simpl.
  - intros [= ->]. left. f_equal. lia.
  - intros H. right. replace (start + S i) with (S start + i) by lia.
    apply IH. exact H.
Qed.

Section RowFold.

Variable row : nat.
Variable step : Worksheet -> nat * str -> Worksheet.
Hypothesis step_cells : forall ws item,
  exists cell,
    cell_value cell = snd item
    /\ cells (step ws item) = <[(row, fst item) := cell]> (cells ws).
Hypothesis step_title : forall ws item, title (step ws item) = title ws.

Lemma fold_title (items : list (nat * str)) (ws : Worksheet) :
  title (fold_left step items ws) = title ws.
Proof.
  revert ws. induction items as [|item rest IH]; intros ws; [reflexivity|].
  simpl. rewrite IH. apply step_title.
Qed.

Lemma fold_untouched (items : list (nat * str)) (ws : Worksheet) (r c : nat) :
  r <> row \/ ~ In c (map fst items) ->
  cells (fold_left step items ws) !! (r, c) = cells ws !! (r, c).
Proof.
  revert ws. induction items as [|item rest IH]; intros ws H; [reflexivity|].
  simpl. rewrite IH.
  - destruct (step_cells ws item) as (cell & _ & ->).
    apply lookup_insert_ne. intros Heq. injection Heq as Hr Hc.
    destruct H as [H|H]; [congruence|]. apply H. left. exact Hc.
  - destruct H as [H|H]; [left; exact H|]. right. intros Hin. apply H.
    right. exact Hin.
Qed.

Lemma fold_written (items : list (nat * str)) (ws : Worksheet) (c : nat) (t : str) :
  List.NoDup (map fst items) -> In (c, t) items ->
  cell_value <$> cells (fold_left step items ws) !! (row, c) = Some t.
Proof.
  revert ws. induction items as [|item rest IH]; intros ws Hnd Hin; [destruct Hin|].
  simpl in Hnd. inversion Hnd as [|? ? Hfresh Hnd']; subst.
  simpl. destruct Hin as [->|Hin].
  - rewrite fold_untouched by (right; exact Hfresh).
    destruct (step_cells ws (c, t)) as (cell & Hv & ->).
    simpl. rewrite lookup_insert_eq. simpl. f_equal. exact Hv.
  - apply IH; assumption.
Qed.

Lemma fold_dom (items : list (nat * str)) (ws : Worksheet) :
  dom (cells (fold_left step items ws)) =
  dom (cells ws) ∪ list_to_set (map (fun item => (row, fst item)) items).
Proof.
  revert ws. induction items as [|item rest IH]; intros ws; simpl.
  - rewrite (right_id_L ∅ (∪)). reflexivity.
  - rewrite IH. destruct (step_cells ws item) as (cell & _ & ->).
    rewrite dom_insert_L.
    rewrite (comm_L (∪) {[(row, fst item)]} (dom (cells ws))).
    rewrite <- (assoc_L (∪)). reflexivity.
Qed.

End RowFold.

Lemma header_write_cells (ws : Worksheet) (item : nat * str) :
  exists cell,
    cell_value cell = snd item
    /\ cells (header_write ws item) = <[(1, fst item) := cell]> (cells ws).
Proof. eexists. split; [|reflexivity]. reflexivity. Qed.

Lemma value_write_cells (ws : Worksheet) (item : nat * str) :
  exists cell,
    cell_value cell = snd item
    /\ cells (value_write ws item) = <[(2, fst item) := cell]> (cells ws).
Proof. eexists. split; [|reflexivity]. reflexivity. Qed.

(** The sheet for ten texts: its title, which cells it has, and the values
    of its two rows. *)
Lemma rendered_sheet_spec (texts : list str) :
  length texts = 10 ->
  let ws := rendered_sheet texts in
  title ws = lit "Renovation Data"
  /\ (forall r c, is_Some (cells ws !! (r, c)) <-> (r = 1 \/ r = 2) /\ 1 <= c <= 10)
  /\ (forall i h, headers !! i = Some h ->
        cell_value <$> cells ws !! (1, S i) = Some h)
  /\ (forall i t, texts !! i = Some t ->
        cell_value <$> cells ws !! (2, S i) = Some t).
Proof.
  intros Hlen ws. unfold ws, rendered_sheet. cbn [title cells set_row_height set_freeze_panes].
  split; [|split; [|split]].
  - rewrite (fold_title value_write (fun _ _ => eq_refl)).
    rewrite (fold_title header_write (fun _ _ => eq_refl)).
    reflexivity.
  - intros r c. rewrite <- elem_of_dom.
    rewrite (fold_dom 2 value_write value_write_cells).
    rewrite (fold_dom 1 header_write header_write_cells).
    change (dom (cells (set_title (lit "Renovation Data") (wb_active Workbook_new))))
      with (dom (∅ : gmap (nat * nat) Cell)).
    rewrite dom_empty_L, !elem_of_union, !elem_of_list_to_set, !list_elem_of_In.
    rewrite !in_map_iff.
    split.
    + intros [[H|H]|H].
      * apply elem_of_empty in H. destruct H.
      * destruct H as ([c' h] & [= <- <-] & Hin).
        apply (in_map fst) in Hin. rewrite enumerate_fst in Hin.
        apply in_seq in Hin. simpl in Hin. lia.
      * destruct H as ([c' h] & [= <- <-] & Hin).
        apply (in_map fst) in Hin. rewrite enumerate_fst, Hlen in Hin.
        apply in_seq in Hin. simpl in Hin. lia.
    + intros [Hr Hc].
      assert (Hh : exists h, headers !! (c - 1) = Some h).
      { apply lookup_lt_is_Some. simpl. lia. }
      assert (Ht : exists t, texts !! (c - 1) = Some t).
      { apply lookup_lt_is_Some. lia. }
      destruct Hh as [h Hh], Ht as [t Ht].
      destruct Hr as [->| ->].
      * left. right. exists (c, h). split; [reflexivity|].
        replace c with (1 + (c - 1)) at 1 by lia. apply enumerate_lookup, Hh.
      * right. exists (c, t). split; [reflexivity|].
        replace c with (1 + (c - 1)) at 1 by lia. apply enumerate_lookup, Ht.
  - intros i h Hi.
    rewrite (fold_untouched 2 value_write value_write_cells) by (left; discriminate).
    apply (fold_written 1 header_write header_write_cells).
    + rewrite enumerate_fst. apply List.seq_NoDup.
    + apply (enumerate_lookup headers 1 i h Hi).
  - intros i t Hi.
    apply (fold_written 2 value_write value_write_cells).
    + rewrite enumerate_fst. apply List.seq_NoDup.
    + apply (enumerate_lookup texts 1 i t Hi).
Qed.

Lemma join_values_cases (sep : str) (items : list value) (i : N) :
  (exists strs, items = map PyStr strs /\ join_values sep i items = Ok strs)
  \/ (exists item msg,
        In item items /\ (forall s, item <> PyStr s)
        /\ join_values sep i items = Raise (TypeError msg)).
Proof.
  revert i. induction items as [|v rest IH]; intros i.
  - left. exists []. split; reflexivity.
  - assert (Hbad : (forall s, v <> PyStr s) ->
                   exists item msg,
                     In item (v :: rest) /\ (forall s, item <> PyStr s)
                     /\ join_values sep i (v :: rest) = Raise (TypeError msg)).
    { intros Hv. exists v. destruct v; try (eexists; split; [left; reflexivity|];
        split; [exact Hv | reflexivity]).
      exfalso. eapply Hv. reflexivity. }
    destruct v as [| | | |s| |]; try (right; apply Hbad; discriminate).
    simpl. destruct (IH (i + 1)%N) as [(strs & -> & ->)|(item & msg & Hin & Hns & ->)].
    + left. exists (s :: strs). split; reflexivity.
    + right. exists item, msg. split; [right; exact Hin|]. split; [exact Hns|reflexivity].
Qed.

Section Fields.
Variable float_repr : str -> str.
Variable isprintable : N -> bool.


(** What [field_text] gives on a mapping. *)
Lemma field_text_dict (fields : list (str * value)) (header : str) :
  match dict_lookup fields header with
  | None => field_text float_repr isprintable (PyDict fields) header = Ok (lit "Not provided")
  | Some (PyList items) =>
      (exists strs,
          items = map PyStr strs
          /\ field_text float_repr isprintable (PyDict fields) header = Ok (join (lit ", ") strs))
      \/ (exists msg,
            list_with_non_str (PyDict fields) header
            /\ field_text float_repr isprintable (PyDict fields) header = Raise (TypeError msg))
  | Some v =>
      field_text float_repr isprintable (PyDict fields) header = Ok (py_str float_repr isprintable v)
  end.
Proof.
  unfold field_text, py_get.
  destruct (dict_lookup fields header) as [v|] eqn:E; [|reflexivity].
  destruct v; try reflexivity.
  simpl. unfold py_join.
  destruct (join_values_cases (lit ", ") items 0)
    as [(strs & -> & Hj)|(item & msg & Hin & Hns & Hj)]; rewrite Hj.
  - left. exists strs. split; reflexivity.
  - right. exists msg. split; [|reflexivity].
    exists items, fields, item. repeat split; assumption.
Qed.

Lemma field_text_not_dict (details : value) (header : str) :
  isinstance_dict details = false ->
  exists msg, field_text float_repr isprintable details header = Raise (AttributeError msg).
Proof.
  intros H. destruct details; try discriminate H; eexists; reflexivity.
Qed.

Lemma cell_text_not_dict (details : value) (header : str) :
  isinstance_dict details = false ->
  cell_text float_repr isprintable details header
  = Raise (AttributeError
             (lit "'" ++ type_name details
                ++ lit "' object has no attribute 'get'")).
Proof.
  intros H. destruct details; try discriminate H; reflexivity.
Qed.

(** The text of a cell is the text of its field, cut. *)
Lemma cell_text_Ok (details : value) (header text : str) :
  cell_text float_repr isprintable details header = Ok text ->
  exists whole,
    field_text float_repr isprintable details header = Ok whole
    /\ text = slice_to 32767 whole
    /\ existsb is_illegal_character text = false.
Proof.
  unfold cell_text.
  destruct (field_text float_repr isprintable details header) as [whole|e];
    [|discriminate].
  cbn [rbind]. intros H. exists whole. split; [reflexivity|].
  apply check_string_Ok, H.
Qed.

Lemma cell_texts_length (details : value) (hs texts : list str) :
  cell_texts float_repr isprintable details hs = Ok texts -> length texts = length hs.
Proof.
  intros H. apply cell_texts_Forall2 in H.
  symmetry. eapply Forall2_length. exact H.
Qed.

(** The function returns exactly when every cell can be given its text,
    and then it returns the workbook of the texts. *)
Lemma create_pretty_excel_Ok (details : value) (out : BytesIO) :
  create_pretty_excel float_repr isprintable details = Ok out ->
  exists texts,
    cell_texts float_repr isprintable details headers = Ok texts
    /\ length texts = 10
    /\ out = rendered texts.
Proof.
  rewrite create_pretty_excel_rendered.
  destruct (cell_texts float_repr isprintable details headers) as [texts|e] eqn:E; [|discriminate].
  intros [= <-]. exists texts. split; [reflexivity|]. split; [|reflexivity].
  apply (cell_texts_length _ _ _ E).
Qed.

Lemma cell_texts_Ok (details : value) (hs : list str) :
  (forall h, In h hs ->
     exists text, cell_text float_repr isprintable details h = Ok text) ->
  exists texts, cell_texts float_repr isprintable details hs = Ok texts.
Proof.
  induction hs as [|h rest IH]; intros Hgood; [exists []; reflexivity|].
  destruct IH as [texts Htexts]; [intros h' Hin; apply Hgood; right; exact Hin|].
  destruct (Hgood h) as [t Ht]; [left; reflexivity|].
  exists (t :: texts). cbn [cell_texts]. rewrite Ht. cbn [rbind].
  rewrite Htexts. reflexivity.
Qed.

(** A field whose cell cannot be given its text makes the whole row
    fail. *)
Lemma cell_texts_Raise (details : value) (hs : list str) (h : str) (e : exn) :
  In h hs -> cell_text float_repr isprintable details h = Raise e ->
  exists e', cell_texts float_repr isprintable details hs = Raise e'.
Proof.
  intros Hin Hbad. induction hs as [|h0 rest IH]; [destruct Hin|].
  cbn [cell_texts].
  destruct (cell_text float_repr isprintable details h0) as [t|e0] eqn:E0;
    cbn [rbind]; [|eexists; reflexivity].
  destruct Hin as [->|Hin]; [rewrite Hbad in E0; discriminate E0|].
  destruct (IH Hin) as [e' ->]. exists e'. reflexivity.
Qed.

Lemma plain_text_legal (s : str) (n : N) :
  plain_text s = true -> existsb is_illegal_character (slice_to n s) = false.
Proof.
  revert n. induction s as [|c rest IH]; intros n; [reflexivity|].
  cbn [plain_text forallb slice_to]. intros H.
  apply andb_prop in H as [Hc Hrest]. apply andb_prop in Hc as [_ Hc].
  destruct (n =? 0)%N; [reflexivity|].
  cbn [existsb]. rewrite (IH (N.pred n) Hrest).
  destruct (is_illegal_character c); [discriminate Hc | reflexivity].
Qed.

Lemma check_string_plain (s : str) :
  plain_text s = true -> check_string s = Ok (slice_to 32767 s).
Proof.
  intros H. unfold check_string. rewrite (plain_text_legal s 32767 H).
  reflexivity.
Qed.

Lemma plain_text_app (a b : str) :
  plain_text (a ++ b) = plain_text a && plain_text b.
Proof. apply forallb_app. Qed.

Lemma plain_text_join (strs : list str) :
  forallb plain_text strs = true -> plain_text (join (lit ", ") strs) = true.
Proof.
  induction strs as [|s rest IH]; [reflexivity|].
  cbn [forallb]. intros H. apply andb_prop in H as [Hs Hrest].
  destruct rest as [|s' rest']; [exact Hs|].
  change (join (lit ", ") (s :: s' :: rest'))
    with (s ++ lit ", " ++ join (lit ", ") (s' :: rest')).
  rewrite !plain_text_app, Hs, (IH Hrest). reflexivity.
Qed.

Lemma plain_list_strs (items : list value) :
  forallb (fun item => match item with
                       | PyStr s => plain_text s
                       | _ => false
                       end) items = true ->
  exists strs, items = map PyStr strs /\ forallb plain_text strs = true.
Proof.
  induction items as [|item rest IH]; [exists []; split; reflexivity|].
  cbn [forallb]. intros H. apply andb_prop in H as [Hitem Hrest].
  destruct (IH Hrest) as (strs & -> & Hstrs).
  destruct item; try discriminate Hitem.
  exists (s :: strs). split; [reflexivity|].
  cbn [forallb]. rewrite Hitem, Hstrs. reflexivity.
Qed.

(** A field that is missing or holds a plain value gets its cell. *)
Lemma cell_text_plain (fields : list (str * value)) (header : str) :
  (forall v, dict_lookup fields header = Some v -> plain_value v = true) ->
  exists text, cell_text float_repr isprintable (PyDict fields) header = Ok text.
Proof.
  intros Hplain. pose proof (field_text_dict fields header) as H.
  unfold cell_text.
  destruct (dict_lookup fields header) as [v|] eqn:E.
  - specialize (Hplain v eq_refl).
    destruct v as [|b| | |s|items|]; try discriminate Hplain.
    + rewrite H. eexists. vm_compute. reflexivity.
    + rewrite H. destruct b; eexists; vm_compute; reflexivity.
    + rewrite H. cbn [rbind py_str]. rewrite (check_string_plain s Hplain).
      eexists. reflexivity.
    + destruct (plain_list_strs items Hplain) as (strs & Hitems & Hstrs).
      destruct H as [(strs' & Heq & ->)|(msg & Hbad & _)].
      * rewrite Hitems in Heq.
        assert (strs = strs') as <-.
        { clear -Heq. revert strs' Heq.
          induction strs as [|a r IH]; intros [|a' r'] Heq;
            try discriminate Heq; [reflexivity|].
          injection Heq as -> Hr. f_equal. apply IH, Hr. }
        cbn [rbind]. rewrite (check_string_plain _ (plain_text_join strs Hstrs)).
        eexists. reflexivity.
      * exfalso. destruct Hbad as (items' & fields' & item & [= <-] & Hl & Hi & Hns).
        rewrite E in Hl. injection Hl as <-.
        rewrite Hitems in Hi. apply in_map_iff in Hi as (s & <- & _).
        apply (Hns s). reflexivity.
  - rewrite H. eexists. vm_compute. reflexivity.
Qed.

Lemma cell_text_bad_list (details : value) (h : str) :
  list_with_non_str details h ->
  exists msg, cell_text float_repr isprintable details h = Raise (TypeError msg).
Proof.
  intros (items & fields & item & -> & Hl & Hi & Hns).
  pose proof (field_text_dict fields h) as H. rewrite Hl in H.
  unfold cell_text.
  destruct H as [(strs & -> & _)|(msg & _ & ->)].
  - exfalso. apply in_map_iff in Hi as (s & <- & _). apply (Hns s). reflexivity.
  - exists msg. reflexivity.
Qed.

End Fields.

End Render.

Lemma rendered_workbook_shape (texts : list str) :
  length texts = 10 ->
  position (rendered texts) = 0
  /\ exists ws,
       worksheets (saved (rendered texts)) = [ws]
       /\ title ws = lit "Renovation Data"
       /\ populated_rows ws = {[1; 2]}
       /\ populated_columns ws = list_to_set (seq 1 10)
       /\ size (populated_rows ws) = 2
       /\ size (populated_columns ws) = 10
       /\ row_values ws 1 10 = map Some headers.
Proof.
  intros Hlen. split; [reflexivity|].
  exists (rendered_sheet texts).
  destruct (Render.rendered_sheet_spec texts Hlen) as (Htitle & Hcells & Hrow1 & _).
  assert (Hrows : populated_rows (rendered_sheet texts) = {[1; 2]}).
  { apply set_eq. intros r. unfold populated_rows. rewrite elem_of_map.
    split.
    - intros ([r' c] & -> & Hin). apply elem_of_dom, Hcells in Hin as [Hr _].
      simpl. rewrite elem_of_union, !elem_of_singleton. exact Hr.
    - rewrite elem_of_union, !elem_of_singleton. intros Hr.
      exists (r, 1). split; [reflexivity|].
      apply elem_of_dom, Hcells. split; [exact Hr | lia]. }
  assert (Hcols : populated_columns (rendered_sheet texts) = list_to_set (seq 1 10)).
  { apply set_eq. intros c. unfold populated_columns.
    rewrite elem_of_map, elem_of_list_to_set, list_elem_of_In, in_seq.
    split.
    - intros ([r c'] & -> & Hin). apply elem_of_dom, Hcells in Hin as [_ Hc].
      simpl. lia.
    - intros Hc. exists (1, c). split; [reflexivity|].
      apply elem_of_dom, Hcells. split; [left; reflexivity | lia]. }
  split; [reflexivity|]. split; [exact Htitle|].
  split; [exact Hrows|]. split; [exact Hcols|].
  split; [rewrite Hrows; reflexivity|]. split; [rewrite Hcols; reflexivity|].
  unfold row_values. cbn [seq map headers].
  repeat (f_equal; [apply Hrow1; reflexivity|]).
  f_equal. apply Hrow1. reflexivity.
Qed.

(** C7, as the code has it. Whenever [create_pretty_excel] returns, the
    buffer is at position 0 and the workbook has exactly one sheet, named
    "Renovation Data", whose cells are those of rows 1 and 2 over columns
    1 to 10 (two populated rows, ten populated columns), with row 1 equal
    to the ten field names in the fixed order. It returns for a mapping in
    which each of the ten fields is missing or holds [null], a boolean, a
    plain text or a list of plain texts. It does not return for every
    record: it raises [AttributeError] for one that is not a mapping, and
    it raises when one of the ten fields holds a list with an item that
    is not a string, or is rendered to a text with a control character
    among its first 32767 characters, which the sheet refuses. *)
Theorem create_pretty_excel_workbook
  (float_repr : str -> str) (isprintable : N -> bool) (details : value) :
  (forall out,
     create_pretty_excel float_repr isprintable details = Ok out ->
     position out = 0
     /\ exists ws,
          worksheets (saved out) = [ws]
          /\ title ws = lit "Renovation Data"
          /\ populated_rows ws = {[1; 2]}
          /\ populated_columns ws = list_to_set (seq 1 10)
          /\ size (populated_rows ws) = 2
          /\ size (populated_columns ws) = 10
          /\ row_values ws 1 10 =
             map Some
               [ lit "ProjectName"; lit "ClientName"; lit "PropertyAddress";
                 lit "ProjectManager"; lit "RenovationAreas";
                 lit "ScopeOfWork"; lit "MaterialPreferences";
                 lit "BudgetOrCost"; lit "Timeline"; lit "AdditionalNotes" ])
  /\ (forall fields,
        details = PyDict fields ->
        (forall header v,
           In header headers -> dict_lookup fields header = Some v ->
           plain_value v = true) ->
        exists out, create_pretty_excel float_repr isprintable details = Ok out)
  /\ (isinstance_dict details = false ->
      exists msg,
        create_pretty_excel float_repr isprintable details
        = Raise (AttributeError msg))
  /\ (forall header,
        In header headers -> list_with_non_str details header ->
        exists e, create_pretty_excel float_repr isprintable details = Raise e)
  /\ (forall header text,
        In header headers ->
        field_text float_repr isprintable details header = Ok text ->
        existsb is_illegal_character (slice_to 32767 text) = true ->
        exists e, create_pretty_excel float_repr isprintable details = Raise e).
Proof.
  rewrite Render.create_pretty_excel_rendered.
  split; [|split; [|split; [|split]]].
  - intros out Hout.
    destruct (cell_texts float_repr isprintable details headers) as [texts|e] eqn:E;
      [|discriminate Hout].
    injection Hout as <-.
    apply rendered_workbook_shape.
    apply (Render.cell_texts_length float_repr isprintable _ _ _ E).
  - intros fields -> Hplain.
    destruct (Render.cell_texts_Ok float_repr isprintable (PyDict fields) headers)
      as [texts ->].
    + intros h Hin. apply Render.cell_text_plain.
      intros v Hv. exact (Hplain h v Hin Hv).
    + eexists. reflexivity.
  - intros Hdict.
    eexists. unfold headers. cbn [cell_texts].
    rewrite (Render.cell_text_not_dict float_repr isprintable details _ Hdict).
    reflexivity.
  - intros header Hin Hbad.
    destruct (Render.cell_text_bad_list float_repr isprintable details header Hbad)
      as [msg Hmsg].
    destruct (Render.cell_texts_Raise float_repr isprintable details headers
                header _ Hin Hmsg) as [e ->].
    exists e. reflexivity.
  - intros header text Hin Hfield Hillegal.
    assert (Hcell : cell_text float_repr isprintable details header
                    = Raise IllegalCharacterError).
    { unfold cell_text. rewrite Hfield. cbn [rbind].
      apply Render.check_string_Raise, Hillegal. }
    destruct (Render.cell_texts_Raise float_repr isprintable details headers
                header _ Hin Hcell) as [e ->].
    exists e. reflexivity.
Qed.

(** C7 on a record with a list of strings, a text and missing keys. *)
Lemma create_pretty_excel_workbook_witness :
  exists out ws,
    create_pretty_excel Instances.float_repr Instances.isprintable
      (PyDict [ (lit "ProjectName", PyStr (lit "Oak St Remodel"));
                (lit "RenovationAreas",
                 PyList [PyStr (lit "Kitchen"); PyStr (lit "Bath")]);
                (lit "BudgetOrCost", PyStr (lit "$50,000")) ])
    = Ok out
    /\ worksheets (saved out) = [ws]
    /\ title ws = lit "Renovation Data"
    /\ size (populated_rows ws) = 2
    /\ size (populated_columns ws) = 10.
Proof.
  pose proof (create_pretty_excel_workbook Instances.float_repr
                Instances.isprintable
                (PyDict [ (lit "ProjectName", PyStr (lit "Oak St Remodel"));
                          (lit "RenovationAreas",
                           PyList [PyStr (lit "Kitchen"); PyStr (lit "Bath")]);
                          (lit "BudgetOrCost", PyStr (lit "$50,000")) ]))
    as (Hshape & Hreturns & _).
  destruct (Hreturns _ eq_refl) as [out Hout].
  - intros header v Hin Hv.
    repeat (destruct Hin as [<-|Hin];
            [ vm_compute in Hv; first [ discriminate Hv | injection Hv as <- ];
              vm_compute; reflexivity |]).
    destruct Hin.
  - destruct (Hshape out Hout) as (_ & ws & Hws & Htitle & _ & _ & Hr & Hc & _).
    exists out, ws. repeat split; assumption.
Defined.

(** A text with a backspace is refused by the sheet: no workbook is
    produced. *)
Lemma create_pretty_excel_control_character :
  create_pretty_excel Instances.float_repr Instances.isprintable
    (PyDict [ (lit "ProjectName", PyStr (lit "a" ++ [8%N] ++ lit "b")) ])
  = Raise IllegalCharacterError.
Proof. vm_compute. reflexivity. Qed.

(** C7 as stated fails: on a record whose [MaterialPreferences] is a list
    holding [null], no workbook is produced. *)
Lemma create_pretty_excel_workbook_counterexample :
  create_pretty_excel Instances.float_repr Instances.isprintable
    (PyDict [ (lit "ProjectName", PyStr (lit "Oak St Remodel"));
              (lit "MaterialPreferences", PyList [PyNone]) ])
  = Raise (TypeError
             (lit "sequence item 0: expected str instance, NoneType found"))
  /\ ~ (exists out,
          create_pretty_excel Instances.float_repr Instances.isprintable
            (PyDict [ (lit "ProjectName", PyStr (lit "Oak St Remodel"));
                      (lit "MaterialPreferences", PyList [PyNone]) ])
          = Ok out).
Proof.
  assert (H : create_pretty_excel Instances.float_repr Instances.isprintable
                (PyDict [ (lit "ProjectName", PyStr (lit "Oak St Remodel"));
                          (lit "MaterialPreferences", PyList [PyNone]) ])
              = Raise (TypeError
                         (lit "sequence item 0: expected str instance, NoneType found")))
    by (vm_compute; reflexivity).
  split; [exact H|]. intros [out Hout]. rewrite H in Hout. discriminate Hout.
Qed.

(** The text of the row-2 cell of the field at index [i], in the only
    sheet of the workbook. *)
Lemma row2_cell (float_repr : str -> str) (isprintable : N -> bool)
  (details : value) (out : BytesIO) (i : nat) (header : str) :
  create_pretty_excel float_repr isprintable details = Ok out ->
  headers !! i = Some header ->
  exists fields ws whole,
    details = PyDict fields
    /\ worksheets (saved out) = [ws]
    /\ field_text float_repr isprintable details header = Ok whole
    /\ existsb is_illegal_character (slice_to 32767 whole) = false
    /\ cell_value <$> cells ws !! (2, S i) = Some (slice_to 32767 whole).
Proof.
  intros Hout Hi.
  destruct (isinstance_dict details) eqn:Hdict.
  - destruct details as [| | | | | |fields]; try discriminate Hdict.
    destruct (Render.create_pretty_excel_Ok _ _ _ _ Hout) as (texts & Htexts & Hlen & ->).
    pose proof (Render.cell_texts_Forall2 _ _ _ _ _ Htexts) as Hall.
    destruct (Forall2_lookup_l _ _ _ _ _ Hall Hi) as (text & Htext & Hcell).
    destruct (Render.cell_text_Ok _ _ _ _ _ Hcell) as (whole & Hfield & -> & Hlegal).
    exists fields, (rendered_sheet texts), whole.
    split; [reflexivity|]. split; [reflexivity|]. split; [exact Hfield|].
    split; [exact Hlegal|].
    destruct (Render.rendered_sheet_spec texts Hlen) as (_ & _ & _ & Hrow2).
    apply Hrow2. exact Htext.
  - exfalso. rewrite Render.create_pretty_excel_rendered in Hout.
    unfold headers in Hout. cbn [cell_texts] in Hout.
    rewrite (Render.cell_text_not_dict float_repr isprintable details _ Hdict)
      in Hout.
    discriminate Hout.
Qed.

(** C8, as the code has it. Whenever [create_pretty_excel] returns, the
    record is a mapping and the row-2 cell of each field, in the fixed
    order, holds ["Not provided"] when the key is missing, and otherwise
    the first 32767 characters of the items joined with [", "] when the
    value is a list (its items are then strings), and of the [str] of the
    value when it is not a list. *)
Theorem row2_cell_text (float_repr : str -> str) (isprintable : N -> bool)
  (details : value) (out : BytesIO) (i : nat) (header : str) :
  create_pretty_excel float_repr isprintable details = Ok out ->
  headers !! i = Some header ->
  exists fields ws,
    details = PyDict fields
    /\ worksheets (saved out) = [ws]
    /\ match dict_lookup fields header with
       | None =>
           cell_value <$> cells ws !! (2, S i) = Some (lit "Not provided")
       | Some (PyList items) =>
           exists strs,
             items = map PyStr strs
             /\ cell_value <$> cells ws !! (2, S i)
                = Some (slice_to 32767 (join (lit ", ") strs))
       | Some v =>
           cell_value <$> cells ws !! (2, S i)
           = Some (slice_to 32767 (py_str float_repr isprintable v))
       end.
Proof.
  intros Hout Hi.
  destruct (row2_cell _ _ _ _ _ _ Hout Hi)
    as (fields & ws & whole & -> & Hws & Hfield & _ & Hcell).
  exists fields, ws. split; [reflexivity|]. split; [exact Hws|].
  pose proof (Render.field_text_dict float_repr isprintable fields header) as H.
  destruct (dict_lookup fields header) as [v|].
  - destruct v;
      try (rewrite H in Hfield; injection Hfield as <-; exact Hcell).
    destruct H as [(strs & -> & H)|(msg & _ & H)]; rewrite H in Hfield.
    + injection Hfield as <-. exists strs. split; [reflexivity | exact Hcell].
    + discriminate Hfield.
  - rewrite H in Hfield. injection Hfield as <-. exact Hcell.
Qed.

(** C8 on the example of the specification: the list [["Kitchen",
    "Bath"]] fills the cell of column 5 with ["Kitchen, Bath"]; the
    missing [ClientName] gives ["Not provided"] in column 2 and the number
    of [BudgetOrCost] its decimal text in column 8. *)
Lemma row2_cell_text_witness :
  exists out ws,
    create_pretty_excel Instances.float_repr Instances.isprintable
      (PyDict [ (lit "ProjectName", PyStr (lit "Oak St Remodel"));
                (lit "RenovationAreas",
                 PyList [PyStr (lit "Kitchen"); PyStr (lit "Bath")]);
                (lit "BudgetOrCost", PyInt 50000) ])
    = Ok out
    /\ worksheets (saved out) = [ws]
    /\ cell_value <$> cells ws !! (2, 5) = Some (lit "Kitchen, Bath")
    /\ cell_value <$> cells ws !! (2, 2) = Some (lit "Not provided")
    /\ cell_value <$> cells ws !! (2, 8) = Some (lit "50000").
Proof.
  set (details := PyDict [ (lit "ProjectName", PyStr (lit "Oak St Remodel"));
                           (lit "RenovationAreas",
                            PyList [PyStr (lit "Kitchen"); PyStr (lit "Bath")]);
                           (lit "BudgetOrCost", PyInt 50000) ]).
  assert (Hout : create_pretty_excel Instances.float_repr Instances.isprintable
                   details
                 = Ok (rendered
                         [ lit "Oak St Remodel"; lit "Not provided";
                           lit "Not provided"; lit "Not provided";
                           lit "Kitchen, Bath"; lit "Not provided";
                           lit "Not provided"; lit "50000";
                           lit "Not provided"; lit "Not provided" ])).
  { rewrite Render.create_pretty_excel_rendered. vm_compute. reflexivity. }
  eexists. eexists. split; [exact Hout|].
  destruct (row2_cell_text _ _ _ _ 4 (lit "RenovationAreas") Hout eq_refl)
    as (f5 & ws5 & E5 & W5 & C5).
  destruct (row2_cell_text _ _ _ _ 1 (lit "ClientName") Hout eq_refl)
    as (f2 & ws2 & E2 & W2 & C2).
  destruct (row2_cell_text _ _ _ _ 7 (lit "BudgetOrCost") Hout eq_refl)
    as (f8 & ws8 & E8 & W8 & C8).
  injection E5 as <-. injection E2 as <-. injection E8 as <-.
  injection W5 as <-. injection W2 as <-. injection W8 as <-.
  split; [reflexivity|].
  split; [|split].
  - destruct C5 as (strs & Hstrs & C5).
    destruct strs as [|a [|b [|c strs]]]; try discriminate Hstrs.
    injection Hstrs as <- <-. exact C5.
  - exact C2.
  - exact C8.
Defined.

(** C8 as stated fails: the list [["Kitchen", 2]] is not rendered to its
    items joined with [", "]; the join raises and no cell is written. *)
Lemma row2_cell_text_counterexample :
  create_pretty_excel Instances.float_repr Instances.isprintable
    (PyDict [ (lit "RenovationAreas",
               PyList [PyStr (lit "Kitchen"); PyInt 2]) ])
  = Raise (TypeError
             (lit "sequence item 1: expected str instance, int found"))
  /\ ~ (exists out,
          create_pretty_excel Instances.float_repr Instances.isprintable
            (PyDict [ (lit "RenovationAreas",
                       PyList [PyStr (lit "Kitchen"); PyInt 2]) ])
          = Ok out).
Proof.
  assert (H : create_pretty_excel Instances.float_repr Instances.isprintable
                (PyDict [ (lit "RenovationAreas",
                           PyList [PyStr (lit "Kitchen"); PyInt 2]) ])
              = Raise (TypeError
                         (lit "sequence item 1: expected str instance, int found")))
    by (vm_compute; reflexivity).
  split; [exact H|]. intros [out Hout]. rewrite H in Hout. discriminate Hout.
Qed.

(** C10. There is a record with a field that holds a list with an item
    that is not a string on which [create_pretty_excel] raises: the join
    fails before [str] is applied, whatever the tables of the
    interpreter. *)
Theorem create_pretty_excel_not_total
  (float_repr : str -> str) (isprintable : N -> bool) :
  exists details,
    list_with_non_str details (lit "RenovationAreas")
    /\ create_pretty_excel float_repr isprintable details
       = Raise (TypeError
                  (lit "sequence item 1: expected str instance, int found")).
Proof.
  exists (PyDict [ (lit "ProjectName", PyStr (lit "Oak St Remodel"));
                   (lit "RenovationAreas",
                    PyList [PyStr (lit "Kitchen"); PyInt 2]) ]).
  split.
  - exists [PyStr (lit "Kitchen"); PyInt 2].
    eexists. exists (PyInt 2).
    split; [reflexivity|]. split; [reflexivity|].
    split; [right; left; reflexivity | discriminate].
  - rewrite Render.create_pretty_excel_rendered. reflexivity.
Qed.

(** ** The ten keys of the record *)

(** C1, as the code has it. The record the client returns is the decoded
    answer as it is when the decoder accepts the text, with the keys the
    answer has and no other, and it is the fallback record, which has the
    ten keys all mapped to ["Not provided"], when the decoder refuses the
    text. A key that the record lacks is given the text ["Not provided"]
    by [create_pretty_excel], in the row-2 cell of its column, not in the
    record. *)
Theorem record_keys_default_at_render
  (ChatCompletion_create : request -> result response)
  (json_loads : str -> result value)
  (float_repr : str -> str) (isprintable : N -> bool)
  (transcript_text content : str) (resp : response) (others : list str) :
  ChatCompletion_create (completion_request (build_prompt transcript_text))
    = Ok resp ->
  choices resp = content :: others ->
  (forall details,
     json_loads (strip content) = Ok details ->
     fst (run (extract_details_with_gpt ChatCompletion_create json_loads
                 transcript_text))
     = Ok details)
  /\ (forall msg pos,
        json_loads (strip content) = Raise (JSONDecodeError msg pos) ->
        fst (run (extract_details_with_gpt ChatCompletion_create json_loads
                    transcript_text))
        = Ok fallback
        /\ has_all_keys fallback
        /\ forall header,
             In header headers ->
             py_get fallback header PyNone = Ok not_provided)
  /\ (forall fields out i header,
        create_pretty_excel float_repr isprintable (PyDict fields) = Ok out ->
        headers !! i = Some header ->
        dict_lookup fields header = None ->
        exists ws,
          worksheets (saved out) = [ws]
          /\ cell_value <$> cells ws !! (2, S i) = Some (lit "Not provided")).
Proof.
  intros Hresp Hchoices. split; [|split].
  - intros details Hjson.
    rewrite (extract_details_answered _ _ _ _ _ _ Hresp Hchoices), Hjson.
    reflexivity.
  - intros msg pos Hjson. split; [|split].
    + rewrite (extract_details_answered _ _ _ _ _ _ Hresp Hchoices), Hjson.
      reflexivity.
    + destruct fallback_fields as (items & -> & _ & Hall).
      exists items. split; [reflexivity|].
      eapply Forall_impl; [exact Hall|].
      intros header ->. discriminate.
    + destruct fallback_fields as (items & -> & _ & Hall).
      intros header Hin. simpl.
      rewrite List.Forall_forall in Hall. rewrite (Hall header Hin). reflexivity.
  - intros fields out i header Hout Hi Hmissing.
    destruct (row2_cell _ _ _ _ _ _ Hout Hi)
      as (fields' & ws & whole & Hd & Hws & Hfield & _ & Hcell).
    exists ws. split; [exact Hws|].
    pose proof (Render.field_text_dict float_repr isprintable fields header) as H.
    rewrite Hmissing in H. rewrite H in Hfield. injection Hfield as <-.
    exact Hcell.
Qed.

(** C1 on an answer with one key only: the record keeps that one key, and
    the sheet rendered from it has ["Not provided"] under [ClientName]. *)
Lemma record_keys_default_at_render_witness :
  fst (run (extract_details_with_gpt
              (Instances.answering
                 (lit "{" ++ quoted (lit "ProjectName") ++ lit ": "
                    ++ quoted (lit "Oak St Remodel") ++ lit "}"))
              (Json.loads 100) (lit "Client: Jane Doe")))
  = Ok (PyDict [(lit "ProjectName", PyStr (lit "Oak St Remodel"))])
  /\ exists out ws,
       create_pretty_excel Instances.float_repr Instances.isprintable
         (PyDict [(lit "ProjectName", PyStr (lit "Oak St Remodel"))])
       = Ok out
       /\ worksheets (saved out) = [ws]
       /\ cell_value <$> cells ws !! (2, 2) = Some (lit "Not provided").
Proof.
  destruct (record_keys_default_at_render
              (Instances.answering
                 (lit "{" ++ quoted (lit "ProjectName") ++ lit ": "
                    ++ quoted (lit "Oak St Remodel") ++ lit "}"))
              (Json.loads 100) Instances.float_repr Instances.isprintable
              (lit "Client: Jane Doe") _ _ [] eq_refl eq_refl)
    as (Hparsed & _ & Hrender).
  split.
  - apply Hparsed. vm_compute. reflexivity.
  - assert (Hout : create_pretty_excel Instances.float_repr Instances.isprintable
                     (PyDict [(lit "ProjectName", PyStr (lit "Oak St Remodel"))])
                   = Ok (rendered
                           [ lit "Oak St Remodel"; lit "Not provided";
                             lit "Not provided"; lit "Not provided";
                             lit "Not provided"; lit "Not provided";
                             lit "Not provided"; lit "Not provided";
                             lit "Not provided"; lit "Not provided" ])).
    { rewrite Render.create_pretty_excel_rendered. vm_compute. reflexivity. }
    destruct (Hrender _ _ 1 (lit "ClientName") Hout eq_refl eq_refl)
      as (ws & Hws & Hcell).
    eexists. exists ws. split; [exact Hout|]. split; [exact Hws | exact Hcell].
Defined.

(** C1 as stated fails: on an answer with one key only, the record the
    client returns has no [ClientName], so it does not have all ten keys
    and no ["Not provided"] stands in it for the missing ones. *)
Lemma record_keys_counterexample :
  fst (run (extract_details_with_gpt
              (Instances.answering
                 (lit "{" ++ quoted (lit "ProjectName") ++ lit ": "
                    ++ quoted (lit "Oak St Remodel") ++ lit "}"))
              (Json.loads 100) (lit "Client: Jane Doe")))
  = Ok (PyDict [(lit "ProjectName", PyStr (lit "Oak St Remodel"))])
  /\ dict_lookup [(lit "ProjectName", PyStr (lit "Oak St Remodel"))]
       (lit "ClientName") = None
  /\ ~ has_all_keys (PyDict [(lit "ProjectName", PyStr (lit "Oak St Remodel"))]).
Proof.
  split; [vm_compute; reflexivity|]. split; [vm_compute; reflexivity|].
  intros (items & Hitems & Hall). injection Hitems as <-.
  apply List.Forall_inv_tail, List.Forall_inv in Hall.
  apply Hall. vm_compute. reflexivity.
Qed.

(* ===================================================================== *)
(** * Further properties *)
(* ===================================================================== *)

(** ** More on the Text Normalizer *)

Module CleanTextMore.

Lemma re_sub_non_space (text : str) (in_run : bool) :
  List.filter non_space (re_sub_spaces in_run text) = List.filter non_space text.
Proof.
  revert in_run. induction text as [|c rest IH]; intros in_run; [reflexivity|].
  simpl. unfold non_space at 2. destruct (isspace c) eqn:Hc; simpl.
  - destruct in_run; [apply IH|]. simpl. apply IH.
  - unfold non_space at 1. rewrite Hc. simpl. f_equal. apply IH.
Qed.

Lemma lstrip_non_space (s : str) :
  List.filter non_space (lstrip s) = List.filter non_space s.
Proof.
  induction s as [|c r IH]; [reflexivity|].
  simpl. unfold non_space at 2. destruct (isspace c) eqn:Hc; simpl.
  - exact IH.
  - unfold non_space at 1. rewrite Hc. reflexivity.
Qed.

Lemma filter_rev {A} (f : A -> bool) (l : list A) :
  List.filter f (rev l) = rev (List.filter f l).
Proof.
  induction l as [|x l IH]; [reflexivity|].
  simpl. rewrite List.filter_app, IH. simpl.
  destruct (f x); simpl; [reflexivity | apply app_nil_r].
Qed.

Lemma strip_non_space (s : str) :
  List.filter non_space (strip s) = List.filter non_space s.
Proof.
  unfold strip, rstrip.
  rewrite filter_rev, lstrip_non_space, filter_rev, rev_involutive.
  apply lstrip_non_space.
Qed.

Lemma single_spaced_In (s : str) (p : bool) (c : N) :
  single_spaced p s -> In c s -> isspace c = true -> c = space.
Proof.
  revert p. induction s as [|a r IH]; intros p Hs Hin Hc; [destruct Hin|].
  destruct Hs as [Ha Hr]. destruct Hin as [->|Hin].
  - apply Ha. exact Hc.
  - eapply IH; eassumption.
Qed.

Lemma rstrip_fixed (s : str) :
  (forall init c, s = init ++ [c] -> isspace c = false) -> rstrip s = s.
Proof.
  induction s as [|a r IH]; intros Hlast; [reflexivity|].
  rewrite CleanText.rstrip_cons.
  destruct r as [|b r'].
  - simpl. rewrite (Hlast [] a eq_refl). reflexivity.
  - rewrite IH.
    + reflexivity.
    + intros init c E. apply (Hlast (a :: init) c). rewrite E. reflexivity.
Qed.

Lemma lstrip_length (s : str) : length (lstrip s) <= length s.
Proof.
  induction s as [|c r IH]; simpl; [lia|].
  destruct (isspace c); simpl; lia.
Qed.

Lemma re_sub_length (text : str) (in_run : bool) :
  length (re_sub_spaces in_run text) <= length text.
Proof.
  revert in_run. induction text as [|c rest IH]; intros in_run; simpl; [lia|].
  destruct (isspace c); [destruct in_run|]; simpl.
  - specialize (IH true). lia.
  - specialize (IH true). lia.
  - specialize (IH false). lia.
Qed.

Lemma strip_length (s : str) : length (strip s) <= length s.
Proof.
  unfold strip, rstrip. rewrite length_rev.
  pose proof (lstrip_length (rev (lstrip s))) as H1.
  rewrite length_rev in H1. pose proof (lstrip_length s). lia.
Qed.

Lemma isspace_to_space (c : N) : isspace (to_space c) = isspace c.
Proof. unfold to_space. destruct (isspace c) eqn:E; [reflexivity | exact E]. Qed.

Lemma re_sub_to_space (text : str) (in_run : bool) :
  re_sub_spaces in_run (map to_space text) = re_sub_spaces in_run text.
Proof.
  revert in_run. induction text as [|c rest IH]; intros in_run; [reflexivity|].
  simpl. rewrite isspace_to_space. destruct (isspace c) eqn:Hc.
  - destruct in_run; rewrite IH; reflexivity.
  - rewrite IH. unfold to_space. rewrite Hc. reflexivity.
Qed.

Lemma all_space_filter (s : str) :
  forallb isspace s = true <-> List.filter non_space s = [].
Proof.
  induction s as [|c r IH]; simpl; [tauto|].
  unfold non_space at 1. destruct (isspace c); simpl.
  - exact IH.
  - split; discriminate.
Qed.

Lemma clean_text_non_space (x : str) :
  List.filter non_space (clean_text x) = List.filter non_space x.
Proof. unfold clean_text. rewrite strip_non_space. apply re_sub_non_space. Qed.

Lemma single_spaced_all (s : str) (p : bool) :
  single_spaced p s ->
  forallb (fun c => negb (isspace c) || (c =? 32)%N) s = true.
Proof.
  revert p. induction s as [|a r IH]; intros p Hs; [reflexivity|].
  destruct Hs as [Ha Hr]. simpl. rewrite (IH _ Hr), andb_true_r.
  destruct (isspace a) eqn:E; [|reflexivity].
  destruct (Ha eq_refl) as [-> _]. reflexivity.
Qed.

End CleanTextMore.

(** X1. [clean_text] keeps every code point that is not whitespace, in
    the order of the text: only whitespace is dropped or replaced. *)
Theorem clean_text_keeps_non_whitespace (x : str) :
  List.filter non_space (clean_text x) = List.filter non_space x.
Proof. apply CleanTextMore.clean_text_non_space. Qed.

(** X2. The only whitespace code point left in [clean_text x] is the
    space U+0020: tabs, newlines, no-break spaces and the other Unicode
    spaces never survive. *)
Theorem clean_text_only_spaces (x : str) :
  forallb (fun c => negb (isspace c) || (c =? 32)%N) (clean_text x) = true.
Proof.
  eapply CleanTextMore.single_spaced_all.
  apply CleanText.clean_text_single_spaced.
Qed.

(** X3. [clean_text x] is the empty text exactly when [x] holds nothing
    but whitespace (the empty text included). *)
Theorem clean_text_empty_iff (x : str) :
  clean_text x = [] <-> forallb isspace x = true.
Proof.
  rewrite CleanTextMore.all_space_filter.
  rewrite <- CleanTextMore.clean_text_non_space.
  split.
  - intros ->. reflexivity.
  - intros Hall. pose proof (CleanText.strip_head (re_sub_spaces false x)) as Hhead.
    fold (clean_text x) in Hhead.
    destruct (clean_text x) as [|c r]; [reflexivity|].
    simpl in Hall. unfold non_space in Hall at 1. rewrite Hhead in Hall.
    discriminate Hall.
Qed.

(** X4. The texts [clean_text] leaves as they are: those that do not
    start or end with whitespace and in which every whitespace code point
    is a space that follows a code point that is not whitespace. *)
Theorem clean_text_fixed_points (x : str) :
  clean_text x = x
  <-> single_spaced true x
      /\ (forall init c, x = init ++ [c] -> isspace c = false).
Proof.
  split.
  - intros E. split.
    + rewrite <- E. eapply CleanText.single_spaced_flag.
      * apply CleanText.strip_head.
      * apply CleanText.clean_text_single_spaced.
    + intros init c Ex. rewrite <- E in Ex. unfold clean_text, strip in Ex.
      eapply CleanText.rstrip_last. exact Ex.
  - intros [Hs Hlast].
    assert (Hhead : match x with c :: _ => isspace c = false | [] => True end).
    { destruct x as [|c r]; [exact I|]. destruct Hs as [Hc _].
      destruct (isspace c); [|reflexivity]. destruct (Hc eq_refl) as [_ H].
      discriminate H. }
    unfold clean_text.
    rewrite (CleanText.re_sub_fixed x false)
      by (eapply CleanText.single_spaced_flag; eassumption).
    unfold strip. rewrite (CleanText.lstrip_fixed x Hhead).
    apply CleanTextMore.rstrip_fixed. exact Hlast.
Qed.

(** X5. [clean_text] never makes a text longer. *)
Theorem clean_text_length (x : str) : length (clean_text x) <= length x.
Proof.
  unfold clean_text.
  pose proof (CleanTextMore.strip_length (re_sub_spaces false x)).
  pose proof (CleanTextMore.re_sub_length x false). lia.
Qed.

(** X6. Which whitespace code points a text uses does not matter: the
    text with each of them replaced by a space has the same
    [clean_text]. *)
Theorem clean_text_whitespace_kind (x : str) :
  clean_text (map to_space x) = clean_text x.
Proof.
  unfold clean_text. rewrite CleanTextMore.re_sub_to_space. reflexivity.
Qed.

(** ** More on the Text Extractor *)

Module PdfPages.

Lemma pdf_pages_all (texts : list (option str)) (i : nat) (text : str)
  (log : list event) :
  pdf_pages i (map Ok texts) text log
  = (Ok (text ++ flat_map (fun t => page_text t ++ [10%N]) texts),
     log ++ map PageExtractText (seq i (length texts))).
Proof.
  revert i text log. induction texts as [|t rest IH]; intros i text log.
  - simpl. rewrite !app_nil_r. reflexivity.
  - simpl. unfold bind, emit, lift. rewrite IH.
    rewrite <- !app_assoc. simpl.
    destruct t as [[|c r]|]; reflexivity.
Qed.

Lemma pdf_pages_failing (texts : list (option str)) (e : exn)
  (rest : list (result (option str))) (i : nat) (text : str) (log : list event) :
  pdf_pages i (map Ok texts ++ Raise e :: rest) text log
  = (Raise e, log ++ map PageExtractText (seq i (S (length texts)))).
Proof.
  revert i text log. induction texts as [|t more IH]; intros i text log.
  - reflexivity.
  - simpl. unfold bind, emit, lift. rewrite IH.
    rewrite <- !app_assoc. reflexivity.
Qed.

Lemma newlines_only (texts : list (option str)) :
  Forall (fun t => t = None \/ t = Some []) texts ->
  forallb isspace (flat_map (fun t => page_text t ++ [10%N]) texts) = true.
Proof.
  induction 1 as [|t rest [->| ->] _ IH]; [reflexivity| |]; simpl; exact IH.
Qed.

End PdfPages.

(** X7. When the PDF reader opens the file and every page gives its
    text, [extract_text_from_pdf] returns the texts of the pages in
    order, each followed by a newline (a page without text gives the
    newline alone), after asking each page once, in order. *)
Theorem extract_text_from_pdf_all_pages {file : Type}
  (PyPDF2_PdfReader : file -> result (list (result (option str))))
  (file_bytes : file) (texts : list (option str)) :
  PyPDF2_PdfReader file_bytes = Ok (map Ok texts) ->
  run (extract_text_from_pdf PyPDF2_PdfReader file_bytes)
  = (Ok (flat_map (fun t => page_text t ++ [10%N]) texts),
     PdfReader :: map PageExtractText (seq 0 (length texts))).
Proof.
  intros Hpages. unfold run, extract_text_from_pdf, bind, emit, lift.
  rewrite Hpages. rewrite PdfPages.pdf_pages_all. reflexivity.
Qed.

(** X7 on concrete data. *)
Lemma extract_text_from_pdf_all_pages_witness :
  run (extract_text_from_pdf Instances.PyPDF2_PdfReader tt)
  = (Ok (lit "Client: Jane Doe" ++ [10%N; 10%N]),
     [PdfReader; PageExtractText 0; PageExtractText 1]).
Proof.
  rewrite (extract_text_from_pdf_all_pages Instances.PyPDF2_PdfReader tt
             [Some (lit "Client: Jane Doe"); None] eq_refl).
  reflexivity.
Defined.

(** X8. When a page fails to give its text, [extract_text_from_pdf]
    raises what that page raised, and the pages after it are never asked:
    the text read so far is lost. *)
Theorem extract_text_from_pdf_failing_page {file : Type}
  (PyPDF2_PdfReader : file -> result (list (result (option str))))
  (file_bytes : file) (texts : list (option str)) (e : exn)
  (rest : list (result (option str))) :
  PyPDF2_PdfReader file_bytes = Ok (map Ok texts ++ Raise e :: rest) ->
  run (extract_text_from_pdf PyPDF2_PdfReader file_bytes)
  = (Raise e, PdfReader :: map PageExtractText (seq 0 (S (length texts)))).
Proof.
  intros Hpages. unfold run, extract_text_from_pdf, bind, emit, lift.
  rewrite Hpages. rewrite PdfPages.pdf_pages_failing. reflexivity.
Qed.

(** X8 on concrete data. *)
Lemma extract_text_from_pdf_failing_page_witness :
  run (extract_text_from_pdf
         (fun _ : unit =>
            Ok [ Ok (Some (lit "page one"));
                 Raise (LibraryError (lit "PdfReadError"));
                 Ok (Some (lit "page three")) ])
         tt)
  = (Raise (LibraryError (lit "PdfReadError")),
     [PdfReader; PageExtractText 0; PageExtractText 1]).
Proof.
  rewrite (extract_text_from_pdf_failing_page _ tt
             [Some (lit "page one")] (LibraryError (lit "PdfReadError"))
             [Ok (Some (lit "page three"))] eq_refl).
  reflexivity.
Defined.

(** X9. A PDF none of whose pages gives any text (a scan, say) is
    extracted to newlines only, which [clean_text] turns into the empty
    text: the prompt is then built on an empty transcript. *)
Theorem textless_pdf_cleans_to_empty {file : Type}
  (PyPDF2_PdfReader : file -> result (list (result (option str))))
  (file_bytes : file) (texts : list (option str)) :
  PyPDF2_PdfReader file_bytes = Ok (map Ok texts) ->
  Forall (fun t => t = None \/ t = Some []) texts ->
  exists raw_text,
    fst (run (extract_text_from_pdf PyPDF2_PdfReader file_bytes)) = Ok raw_text
    /\ clean_text raw_text = []
    /\ build_prompt (clean_text raw_text) = prompt_head ++ prompt_tail.
Proof.
  intros Hpages Hempty. eexists. split.
  - unfold run, extract_text_from_pdf, bind, emit, lift.
    rewrite Hpages, PdfPages.pdf_pages_all. reflexivity.
  - assert (Hclean : clean_text
                       ([] ++ flat_map (fun t => page_text t ++ [10%N]) texts) = []).
    { simpl. pose proof (CleanText.strip_head
                           (re_sub_spaces false
                              (flat_map (fun t => page_text t ++ [10%N]) texts))) as Hhead.
      fold (clean_text (flat_map (fun t => page_text t ++ [10%N]) texts)) in Hhead.
      pose proof (CleanTextMore.clean_text_non_space
                    (flat_map (fun t => page_text t ++ [10%N]) texts)) as Hkeep.
      rewrite (proj1 (CleanTextMore.all_space_filter _)
                 (PdfPages.newlines_only texts Hempty)) in Hkeep.
      destruct (clean_text (flat_map (fun t => page_text t ++ [10%N]) texts))
        as [|c r]; [reflexivity|].
      simpl in Hkeep. unfold non_space in Hkeep at 1. rewrite Hhead in Hkeep.
      discriminate Hkeep. }
    split; [exact Hclean|]. unfold build_prompt. rewrite Hclean. reflexivity.
Qed.

(** X9 on concrete data. *)
Lemma textless_pdf_cleans_to_empty_witness :
  exists raw_text,
    fst (run (extract_text_from_pdf
                (fun _ : unit => Ok [Ok None; Ok (Some []); Ok None]) tt))
    = Ok raw_text
    /\ clean_text raw_text = [].
Proof.
  destruct (textless_pdf_cleans_to_empty
              (fun _ : unit => Ok [Ok None; Ok (Some []); Ok None]) tt
              [None; Some []; None] eq_refl) as (raw & Hraw & Hclean & _).
  - repeat (apply List.Forall_cons; [first [left; reflexivity | right; reflexivity]|]).
    apply List.Forall_nil.
  - exists raw. split; assumption.
Defined.

(** ** More on the Prompt Builder and the Extraction Client *)

(** X10. Two transcripts with the same prompt are the same transcript:
    the prompt loses nothing of the text it is built on. *)
Theorem build_prompt_injective (a b : str) :
  build_prompt a = build_prompt b -> a = b.
Proof.
  unfold build_prompt. intros H.
  apply app_inv_head in H. apply app_inv_tail in H. exact H.
Qed.

(** X10 on concrete data. *)
Lemma build_prompt_injective_witness :
  clean_text (lit "Client:  Jane") = clean_text (lit " Client: Jane ").
Proof.
  apply build_prompt_injective. vm_compute. reflexivity.
Defined.

Module StripPad.

Lemma lstrip_app (a b : str) :
  lstrip (a ++ b) = if forallb isspace a then lstrip b else lstrip a ++ b.
Proof.
  induction a as [|c r IH]; [reflexivity|].
  simpl. destruct (isspace c); [exact IH | reflexivity].
Qed.

Lemma lstrip_all_space (s : str) : forallb isspace s = true -> lstrip s = [].
Proof.
  induction s as [|c r IH]; [reflexivity|].
  simpl. destruct (isspace c); [exact IH | discriminate].
Qed.

Lemma forallb_rev {A} (f : A -> bool) (l : list A) :
  forallb f (rev l) = forallb f l.
Proof.
  induction l as [|x l IH]; [reflexivity|].
  simpl. rewrite forallb_app, IH. simpl. rewrite andb_true_r. apply andb_comm.
Qed.

Lemma rstrip_app_space (s ws : str) :
  forallb isspace ws = true -> rstrip (s ++ ws) = rstrip s.
Proof.
  intros H. unfold rstrip. rewrite rev_app_distr, lstrip_app.
  rewrite forallb_rev, H. reflexivity.
Qed.

Lemma strip_pad (ws1 content ws2 : str) :
  forallb isspace ws1 = true -> forallb isspace ws2 = true ->
  strip (ws1 ++ content ++ ws2) = strip content.
Proof.
  intros H1 H2. unfold strip.
  rewrite lstrip_app, H1, lstrip_app.
  destruct (forallb isspace content) eqn:Hc.
  - rewrite (lstrip_all_space ws2 H2), (lstrip_all_space content Hc). reflexivity.
  - apply rstrip_app_space. exact H2.
Qed.

End StripPad.

Section ExtractionClientMore.

Variable ChatCompletion_create : request -> result response.
Variable json_loads : str -> result value.

(** The run of the client, case by case. *)
Lemma extract_details_run (transcript_text : str) :
  run (extract_details_with_gpt ChatCompletion_create json_loads transcript_text)
  = let req := completion_request (build_prompt transcript_text) in
    match ChatCompletion_create req with
    | Raise e => (Raise e, [ChatCompletionCreate req])
    | Ok resp =>
        match choices resp with
        | [] => (Raise (IndexError (lit "list index out of range")),
                 [ChatCompletionCreate req])
        | content :: _ =>
            match json_loads (strip content) with
            | Ok details => (Ok details, [ChatCompletionCreate req])
            | Raise (JSONDecodeError _ _) =>
                (Ok fallback,
                 [ ChatCompletionCreate req;
                   StError (lit "Error parsing GPT JSON output. Returning fallback data.");
                   StWrite [lit "Raw GPT output was:"; strip content] ])
            | Raise e => (Raise e, [ChatCompletionCreate req])
            end
        end
    end.
Proof.
  unfold run, extract_details_with_gpt, bind, emit, lift, ret,
    try_except_JSONDecodeError, first_choice.
  cbv zeta.
  destruct (ChatCompletion_create (completion_request (build_prompt transcript_text)))
    as [resp|e]; [|reflexivity].
  destruct (choices resp) as [|content others]; [reflexivity|].
  destruct (json_loads (strip content)) as [details|[]]; reflexivity.
Qed.

Lemma client_completion_calls (transcript_text : str) :
  List.filter is_completion_call
    (snd (run (extract_details_with_gpt ChatCompletion_create json_loads
                 transcript_text)))
  = [ChatCompletionCreate (completion_request (build_prompt transcript_text))].
Proof.
  rewrite extract_details_run. cbv zeta.
  destruct (ChatCompletion_create _) as [resp|e]; [|reflexivity].
  destruct (choices resp) as [|content others]; [reflexivity|].
  destruct (json_loads (strip content)) as [details|[]]; reflexivity.
Qed.

End ExtractionClientMore.

(** X11. [extract_details_with_gpt] raises in three cases only, and then
    raises what is named: the completion call raised; the answer has no
    choice ([IndexError]); the decoder raised something other than
    [JSONDecodeError] on the trimmed first choice. *)
Theorem extract_details_raises_iff
  (ChatCompletion_create : request -> result response)
  (json_loads : str -> result value) (transcript_text : str) (e : exn) :
  fst (run (extract_details_with_gpt ChatCompletion_create json_loads
              transcript_text)) = Raise e
  <-> ChatCompletion_create (completion_request (build_prompt transcript_text))
      = Raise e
      \/ (exists resp,
            ChatCompletion_create
              (completion_request (build_prompt transcript_text)) = Ok resp
            /\ choices resp = []
            /\ e = IndexError (lit "list index out of range"))
      \/ (exists resp content others,
            ChatCompletion_create
              (completion_request (build_prompt transcript_text)) = Ok resp
            /\ choices resp = content :: others
            /\ json_loads (strip content) = Raise e
            /\ forall msg pos, e <> JSONDecodeError msg pos).
Proof.
  rewrite extract_details_run. cbv zeta.
  destruct (ChatCompletion_create (completion_request (build_prompt transcript_text)))
    as [resp|e0] eqn:Hsvc.
  - destruct (choices resp) as [|content others] eqn:Hch.
    + simpl. split.
      * intros [= <-]. right. left. exists resp. auto.
      * intros [H|[(r & [= <-] & _ & ->)|(r & c & o & [= <-] & Hc & _)]];
          [discriminate H | reflexivity | rewrite Hch in Hc; discriminate Hc].
    + destruct (json_loads (strip content)) as [details|e1] eqn:Hjson.
      * simpl. split; [discriminate|].
        intros [H|[(r & [= <-] & Hc & _)|(r & c & o & [= <-] & Hc & Hj & _)]].
        -- discriminate H.
        -- rewrite Hch in Hc. discriminate Hc.
        -- rewrite Hch in Hc. injection Hc as <- <-. rewrite Hjson in Hj.
           discriminate Hj.
      * split.
        -- intros H. right. right. exists resp, content, others.
           split; [reflexivity|]. split; [exact Hch|].
           destruct e1; simpl in H;
             first [ discriminate H
                   | injection H as <-;
                     split; [exact Hjson | intros m p; discriminate] ].
        -- intros [H|[(r & [= <-] & Hc & _)|(r & c & o & [= <-] & Hc & Hj & Hne)]].
           ++ discriminate H.
           ++ rewrite Hch in Hc. discriminate Hc.
           ++ rewrite Hch in Hc. injection Hc as <- <-. rewrite Hjson in Hj.
              injection Hj as ->.
              destruct e; try reflexivity. exfalso. eapply Hne. reflexivity.
  - simpl. split.
    + intros [= <-]. left. reflexivity.
    + intros [[= <-]|[(r & H & _)|(r & c & o & H & _)]];
        [reflexivity | discriminate H | discriminate H].
Qed.

(** X12. Whatever the service and the decoder do, one run of
    [extract_details_with_gpt] sends exactly one completion request, the
    one for the prompt of the transcript: nothing is retried. *)
Theorem one_completion_request
  (ChatCompletion_create : request -> result response)
  (json_loads : str -> result value) (transcript_text : str) :
  List.filter is_completion_call
    (snd (run (extract_details_with_gpt ChatCompletion_create json_loads
                 transcript_text)))
  = [ChatCompletionCreate (completion_request (build_prompt transcript_text))].
Proof. apply client_completion_calls. Qed.

(** X13. The error banner of the client is shown only together with the
    fallback record: when [st.error] is in the log, the client has
    returned the fallback (it has not raised, and it has not returned a
    decoded record), and the raw answer, trimmed, has been written out. *)
Theorem error_banner_means_fallback
  (ChatCompletion_create : request -> result response)
  (json_loads : str -> result value) (transcript_text msg : str) :
  In (StError msg)
    (snd (run (extract_details_with_gpt ChatCompletion_create json_loads
                 transcript_text))) ->
  fst (run (extract_details_with_gpt ChatCompletion_create json_loads
              transcript_text)) = Ok fallback
  /\ exists resp content others,
       ChatCompletion_create (completion_request (build_prompt transcript_text))
       = Ok resp
       /\ choices resp = content :: others
       /\ In (StWrite [lit "Raw GPT output was:"; strip content])
            (snd (run (extract_details_with_gpt ChatCompletion_create
                         json_loads transcript_text))).
Proof.
  rewrite extract_details_run. cbv zeta.
  destruct (ChatCompletion_create _) as [resp|e] eqn:Hsvc.
  - destruct (choices resp) as [|content others] eqn:Hch.
    + simpl. intros [H|[]]. discriminate H.
    + destruct (json_loads (strip content)) as [details|[]]; simpl;
        try (intros [H|[]]; discriminate H).
      intros _. split; [reflexivity|].
      exists resp, content, others. split; [reflexivity|]. split; [exact Hch|].
      right. right. left. reflexivity.
  - simpl. intros [H|[]]. discriminate H.
Qed.

(** X13 on concrete data. *)
Lemma error_banner_means_fallback_witness :
  fst (run (extract_details_with_gpt
              (Instances.answering (lit "Sure, here's the info: ..."))
              (Json.loads 100) (lit "Client: Jane Doe")))
  = Ok fallback.
Proof.
  eapply error_banner_means_fallback.
  vm_compute. right. left. reflexivity.
Defined.

(** X14. Whitespace around the answer of the model, of any kind, changes
    nothing: an answer and the same answer with whitespace before and
    after it give the same result and the same log. *)
Theorem answer_padding_ignored
  (padded plain : request -> result response)
  (json_loads : str -> result value)
  (transcript_text before content after : str)
  (resp1 resp2 : response) (others1 others2 : list str) :
  forallb isspace before = true ->
  forallb isspace after = true ->
  padded (completion_request (build_prompt transcript_text)) = Ok resp1 ->
  choices resp1 = (before ++ content ++ after) :: others1 ->
  plain (completion_request (build_prompt transcript_text)) = Ok resp2 ->
  choices resp2 = content :: others2 ->
  run (extract_details_with_gpt padded json_loads transcript_text)
  = run (extract_details_with_gpt plain json_loads transcript_text).
Proof.
  intros Hb Ha Hp1 Hc1 Hp2 Hc2.
  rewrite !extract_details_run. cbv zeta.
  rewrite Hp1, Hp2, Hc1, Hc2.
  rewrite (StripPad.strip_pad before content after Hb Ha). reflexivity.
Qed.

(** X14 on concrete data. *)
Lemma answer_padding_ignored_witness :
  run (extract_details_with_gpt
         (Instances.answering ([10%N; 9%N] ++ lit "{}" ++ [160%N; 32%N]))
         (Json.loads 100) (lit "Client: Jane Doe"))
  = run (extract_details_with_gpt (Instances.answering (lit "{}"))
           (Json.loads 100) (lit "Client: Jane Doe")).
Proof.
  eapply (answer_padding_ignored _ _ (Json.loads 100) _ [10%N; 9%N] (lit "{}")
            [160%N; 32%N]); reflexivity.
Defined.

(** ** More on the Spreadsheet Renderer *)

Module RenderMore.

Section RowFoldExact.

Variable row : nat.
Variable styling : Cell -> Cell.
Variable step : Worksheet -> nat * str -> Worksheet.
Hypothesis step_exact : forall ws item,
  cells (step ws item)
  = <[(row, fst item) :=
        styling {| cell_value := snd item;
                   cell_font := cell_font (cell_at row (fst item) ws);
                   cell_fill := cell_fill (cell_at row (fst item) ws);
                   cell_alignment := cell_alignment (cell_at row (fst item) ws);
                   cell_border := cell_border (cell_at row (fst item) ws) |}]>
      (cells ws).

Lemma step_cells (ws : Worksheet) (item : nat * str) :
  exists cell,
    cell_value cell = cell_value (styling {| cell_value := snd item;
                   cell_font := cell_font (cell_at row (fst item) ws);
                   cell_fill := cell_fill (cell_at row (fst item) ws);
                   cell_alignment := cell_alignment (cell_at row (fst item) ws);
                   cell_border := cell_border (cell_at row (fst item) ws) |})
    /\ cells (step ws item) = <[(row, fst item) := cell]> (cells ws).
Proof. eexists. split; [reflexivity | apply step_exact]. Qed.

Lemma fold_keeps_None (items : list (nat * str)) (ws : Worksheet) (r c : nat) :
  r <> row \/ ~ In c (map fst items) ->
  cells (fold_left step items ws) !! (r, c) = cells ws !! (r, c).
Proof.
  revert ws. induction items as [|item rest IH]; intros ws H; [reflexivity|].
  simpl. rewrite IH.
  - rewrite step_exact. apply lookup_insert_ne. intros Heq.
    injection Heq as Hr Hc.
    destruct H as [H|H]; [congruence|]. apply H. left. exact Hc.
  - destruct H as [H|H]; [left; exact H|]. right. intros Hin. apply H.
    right. exact Hin.
Qed.

Lemma fold_written_exact (items : list (nat * str)) (ws : Worksheet)
  (c : nat) (t : str) :
  List.NoDup (map fst items) -> In (c, t) items ->
  cells ws !! (row, c) = None ->
  cells (fold_left step items ws) !! (row, c)
  = Some (styling {| cell_value := t; cell_font := None; cell_fill := None;
                     cell_alignment := None; cell_border := None |}).
Proof.
  revert ws. induction items as [|item rest IH]; intros ws Hnd Hin Hnone;
    [destruct Hin|].
  simpl in Hnd. inversion Hnd as [|? ? Hfresh Hnd']; subst.
  simpl. destruct Hin as [->|Hin].
  - rewrite fold_keeps_None by (right; exact Hfresh).
    rewrite step_exact. simpl. rewrite lookup_insert_eq.
    unfold cell_at. rewrite Hnone. reflexivity.
  - apply IH; [exact Hnd' | exact Hin |].
    rewrite step_exact. rewrite lookup_insert_ne; [exact Hnone|].
    intros Heq. injection Heq as Hc. apply Hfresh.
    rewrite Hc. apply (in_map fst _ _ Hin).
Qed.

End RowFoldExact.

Lemma header_write_exact (ws : Worksheet) (item : nat * str) :
  cells (header_write ws item)
  = <[(1, fst item) :=
        header_style {| cell_value := snd item;
                        cell_font := cell_font (cell_at 1 (fst item) ws);
                        cell_fill := cell_fill (cell_at 1 (fst item) ws);
                        cell_alignment := cell_alignment (cell_at 1 (fst item) ws);
                        cell_border := cell_border (cell_at 1 (fst item) ws) |}]>
      (cells ws).
Proof. reflexivity. Qed.

Lemma value_write_exact (ws : Worksheet) (item : nat * str) :
  cells (value_write ws item)
  = <[(2, fst item) :=
        value_style {| cell_value := snd item;
                       cell_font := cell_font (cell_at 2 (fst item) ws);
                       cell_fill := cell_fill (cell_at 2 (fst item) ws);
                       cell_alignment := cell_alignment (cell_at 2 (fst item) ws);
                       cell_border := cell_border (cell_at 2 (fst item) ws) |}]>
      (cells ws).
Proof. reflexivity. Qed.

(** The cells of the rendered sheet, with their styles. *)
Lemma rendered_sheet_cells (texts : list str) (i : nat) :
  (forall h, headers !! i = Some h ->
     cells (rendered_sheet texts) !! (1, S i)
     = Some {| cell_value := h;
               cell_font := Some header_font;
               cell_fill := Some header_fill;
               cell_alignment := Some center_alignment;
               cell_border := Some thin_border |})
  /\ (forall t, texts !! i = Some t ->
        cells (rendered_sheet texts) !! (2, S i)
        = Some {| cell_value := t;
                  cell_font := None;
                  cell_fill := None;
                  cell_alignment := Some wrap_alignment;
                  cell_border := Some thin_border |}).
Proof.
  unfold rendered_sheet. cbn [cells set_row_height set_freeze_panes].
  split.
  - intros h Hi.
    rewrite (fold_keeps_None 2 value_style value_write value_write_exact)
      by (left; discriminate).
    rewrite (fold_written_exact 1 header_style header_write header_write_exact
               _ _ (S i) h).
    + reflexivity.
    + rewrite Render.enumerate_fst. apply List.seq_NoDup.
    + apply (Render.enumerate_lookup headers 1 i h Hi).
    + reflexivity.
  - intros t Hi.
    rewrite (fold_written_exact 2 value_style value_write value_write_exact
               _ _ (S i) t).
    + reflexivity.
    + rewrite Render.enumerate_fst. apply List.seq_NoDup.
    + apply (Render.enumerate_lookup texts 1 i t Hi).
    + rewrite (fold_keeps_None 1 header_style header_write header_write_exact)
        by (left; discriminate).
      reflexivity.
Qed.

Lemma value_fold_dimensions (items : list (nat * str)) (ws : Worksheet) :
  column_width (fold_left value_write items ws) = column_width ws
  /\ row_height (fold_left value_write items ws) = row_height ws.
Proof.
  revert ws. induction items as [|item rest IH]; intros ws; [split; reflexivity|].
  simpl. destruct (IH (value_write ws item)) as [-> ->]. split; reflexivity.
Qed.

Lemma header_fold_row_height (items : list (nat * str)) (ws : Worksheet) :
  row_height (fold_left header_write items ws) = row_height ws.
Proof.
  revert ws. induction items as [|item rest IH]; intros ws; [reflexivity|].
  simpl. rewrite IH. reflexivity.
Qed.

Lemma header_fold_column_width (items : list (nat * str)) (ws : Worksheet) :
  column_width (fold_left header_write items ws)
  = fold_left (fun m item => <[[N.of_nat (64 + fst item)] := 25]> m) items
      (column_width ws).
Proof.
  revert ws. induction items as [|item rest IH]; intros ws; [reflexivity|].
  simpl. rewrite IH. reflexivity.
Qed.

Lemma field_text_same_lookup (float_repr : str -> str) (isprintable : N -> bool)
  (fields1 fields2 : list (str * value)) (header : str) :
  dict_lookup fields1 header = dict_lookup fields2 header ->
  field_text float_repr isprintable (PyDict fields1) header
  = field_text float_repr isprintable (PyDict fields2) header.
Proof. intros H. unfold field_text, py_get. rewrite H. reflexivity. Qed.

Lemma cell_text_same_lookup (float_repr : str -> str) (isprintable : N -> bool)
  (fields1 fields2 : list (str * value)) (header : str) :
  dict_lookup fields1 header = dict_lookup fields2 header ->
  cell_text float_repr isprintable (PyDict fields1) header
  = cell_text float_repr isprintable (PyDict fields2) header.
Proof.
  intros H. unfold cell_text.
  rewrite (field_text_same_lookup _ _ fields1 fields2 header H). reflexivity.
Qed.

Lemma cell_texts_same_lookup (float_repr : str -> str) (isprintable : N -> bool)
  (fields1 fields2 : list (str * value)) (hs : list str) :
  (forall header, In header hs ->
     dict_lookup fields1 header = dict_lookup fields2 header) ->
  cell_texts float_repr isprintable (PyDict fields1) hs
  = cell_texts float_repr isprintable (PyDict fields2) hs.
Proof.
  induction hs as [|h rest IH]; intros Hsame; [reflexivity|].
  cbn [cell_texts]. rewrite (cell_text_same_lookup _ _ fields1 fields2 h)
    by (apply Hsame; left; reflexivity).
  rewrite IH by (intros h' Hin; apply Hsame; right; exact Hin).
  reflexivity.
Qed.

Lemma cell_texts_app (float_repr : str -> str) (isprintable : N -> bool)
  (details : value) (hs1 hs2 : list str) :
  cell_texts float_repr isprintable details (hs1 ++ hs2)
  = match cell_texts float_repr isprintable details hs1 with
    | Ok texts1 =>
        match cell_texts float_repr isprintable details hs2 with
        | Ok texts2 => Ok (texts1 ++ texts2)
        | Raise e => Raise e
        end
    | Raise e => Raise e
    end.
Proof.
  induction hs1 as [|h rest IH]; cbn [app cell_texts].
  - destruct (cell_texts float_repr isprintable details hs2); reflexivity.
  - destruct (cell_text float_repr isprintable details h); [|reflexivity].
    cbn [rbind]. rewrite IH.
    destruct (cell_texts float_repr isprintable details rest); [|reflexivity].
    cbn [rbind]. destruct (cell_texts float_repr isprintable details hs2); reflexivity.
Qed.

Lemma join_values_first_non_str (sep : str) (strs : list str) (item : value)
  (rest : list value) (i : N) :
  (forall s, item <> PyStr s) ->
  join_values sep i (map PyStr strs ++ item :: rest)
  = Raise (TypeError (lit "sequence item "
                        ++ decimal_N (i + N.of_nat (length strs))
                        ++ lit ": expected str instance, " ++ type_name item
                        ++ lit " found")).
Proof.
  intros Hitem. revert i. induction strs as [|s more IH]; intros i.
  - cbn [map app length N.of_nat]. rewrite N.add_0_r.
    destruct item; try reflexivity. exfalso. eapply Hitem. reflexivity.
  - cbn [map app length join_values]. rewrite IH. cbn [rbind].
    replace (i + 1 + N.of_nat (length more))%N
      with (i + N.of_nat (S (length more)))%N by lia.
    reflexivity.
Qed.

End RenderMore.

(** X15. In every workbook [create_pretty_excel] returns, each of the
    ten header cells is bold white on the solid blue fill, centred, with
    a thin border on its four sides, and each of the ten row-2 cells has
    no font or fill of its own, wraps its text, is aligned to the top
    and has the same thin border. *)
Theorem rendered_cell_styles (float_repr : str -> str) (isprintable : N -> bool)
  (details : value) (out : BytesIO) :
  create_pretty_excel float_repr isprintable details = Ok out ->
  exists ws,
    worksheets (saved out) = [ws]
    /\ forall i header,
         headers !! i = Some header ->
         cells ws !! (1, S i)
         = Some {| cell_value := header;
                   cell_font := Some {| bold := true; color := lit "FFFFFF" |};
                   cell_fill := Some {| fill_type := lit "solid";
                                        fgColor := lit "4F81BD" |};
                   cell_alignment :=
                     Some {| horizontal := Some (lit "center");
                             vertical := Some (lit "center");
                             wrap_text := false |};
                   cell_border := Some thin_border |}
         /\ exists text,
              cells ws !! (2, S i)
              = Some {| cell_value := text;
                        cell_font := None;
                        cell_fill := None;
                        cell_alignment :=
                          Some {| horizontal := None;
                                  vertical := Some (lit "top");
                                  wrap_text := true |};
                        cell_border := Some thin_border |}.
Proof.
  intros Hout.
  destruct (Render.create_pretty_excel_Ok _ _ _ _ Hout)
    as (texts & Htexts & Hlen & ->).
  exists (rendered_sheet texts). split; [reflexivity|].
  intros i header Hi.
  destruct (RenderMore.rendered_sheet_cells texts i) as [Hrow1 Hrow2].
  split; [exact (Hrow1 header Hi)|].
  assert (Hlt : i < length texts).
  { apply lookup_lt_Some in Hi. rewrite Hlen. exact Hi. }
  destruct (lookup_lt_is_Some_2 texts i Hlt) as [text Htext].
  exists text. exact (Hrow2 text Htext).
Qed.

(** X15 on concrete data. *)
Lemma rendered_cell_styles_witness :
  exists out ws,
    create_pretty_excel Instances.float_repr Instances.isprintable
      (PyDict [(lit "ClientName", PyStr (lit "Jane Doe"))]) = Ok out
    /\ worksheets (saved out) = [ws]
    /\ cell_font <$> cells ws !! (1, 2) = Some (Some header_font)
    /\ cell_alignment <$> cells ws !! (2, 2) = Some (Some wrap_alignment).
Proof.
  assert (Hout : create_pretty_excel Instances.float_repr Instances.isprintable
                   (PyDict [(lit "ClientName", PyStr (lit "Jane Doe"))])
                 = Ok (rendered
                         [ lit "Not provided"; lit "Jane Doe";
                           lit "Not provided"; lit "Not provided";
                           lit "Not provided"; lit "Not provided";
                           lit "Not provided"; lit "Not provided";
                           lit "Not provided"; lit "Not provided" ])).
  { rewrite Render.create_pretty_excel_rendered. vm_compute. reflexivity. }
  destruct (rendered_cell_styles _ _ _ _ Hout) as (ws & Hws & Hcells).
  destruct (Hcells 1 (lit "ClientName") eq_refl) as (H1 & text & H2).
  eexists. exists ws. split; [exact Hout|]. split; [exact Hws|].
  rewrite H1, H2. split; reflexivity.
Defined.

(** X16. In every workbook [create_pretty_excel] returns, the columns A
    to J, and no other, have their width set, to 25; row 1, and no
    other, has its height set, to 25; and the panes are frozen at A2. *)
Theorem rendered_dimensions (float_repr : str -> str) (isprintable : N -> bool)
  (details : value) (out : BytesIO) :
  create_pretty_excel float_repr isprintable details = Ok out ->
  exists ws,
    worksheets (saved out) = [ws]
    /\ column_width ws
       = list_to_map
           [ (lit "A", 25); (lit "B", 25); (lit "C", 25); (lit "D", 25);
             (lit "E", 25); (lit "F", 25); (lit "G", 25); (lit "H", 25);
             (lit "I", 25); (lit "J", 25) ]
    /\ row_height ws = {[ 1 := 25 ]}
    /\ freeze_panes ws = Some (lit "A2").
Proof.
  intros Hout.
  destruct (Render.create_pretty_excel_Ok _ _ _ _ Hout)
    as (texts & Htexts & Hlen & ->).
  exists (rendered_sheet texts). split; [reflexivity|].
  unfold rendered_sheet.
  cbn [column_width row_height freeze_panes set_row_height set_freeze_panes].
  destruct (RenderMore.value_fold_dimensions (enumerate 1 texts)
              (fold_left header_write (enumerate 1 headers)
                 (set_title (lit "Renovation Data") (wb_active Workbook_new))))
    as [-> ->].
  rewrite RenderMore.header_fold_row_height, RenderMore.header_fold_column_width.
  split; [|split]; reflexivity.
Qed.

(** X16 on concrete data. *)
Lemma rendered_dimensions_witness :
  exists out ws,
    create_pretty_excel Instances.float_repr Instances.isprintable
      (PyDict [(lit "ClientName", PyStr (lit "Jane Doe"))]) = Ok out
    /\ worksheets (saved out) = [ws]
    /\ column_width ws !! lit "J" = Some 25
    /\ column_width ws !! lit "K" = None
    /\ row_height ws !! 1 = Some 25
    /\ row_height ws !! 2 = None.
Proof.
  assert (Hout : create_pretty_excel Instances.float_repr Instances.isprintable
                   (PyDict [(lit "ClientName", PyStr (lit "Jane Doe"))])
                 = Ok (rendered
                         [ lit "Not provided"; lit "Jane Doe";
                           lit "Not provided"; lit "Not provided";
                           lit "Not provided"; lit "Not provided";
                           lit "Not provided"; lit "Not provided";
                           lit "Not provided"; lit "Not provided" ])).
  { rewrite Render.create_pretty_excel_rendered. vm_compute. reflexivity. }
  destruct (rendered_dimensions _ _ _ _ Hout) as (ws & Hws & Hcol & Hrow & _).
  eexists. exists ws. split; [exact Hout|]. split; [exact Hws|].
  rewrite Hcol, Hrow. repeat split; vm_compute; reflexivity.
Defined.

(** X17. [create_pretty_excel] reads nothing of a mapping but the values
    of the ten fields: two mappings that agree on them, whatever other
    keys they hold and in whatever order, are rendered alike (the same
    workbook, or the same error). *)
Theorem render_reads_ten_fields_only
  (float_repr : str -> str) (isprintable : N -> bool)
  (fields1 fields2 : list (str * value)) :
  (forall header, In header headers ->
     dict_lookup fields1 header = dict_lookup fields2 header) ->
  create_pretty_excel float_repr isprintable (PyDict fields1)
  = create_pretty_excel float_repr isprintable (PyDict fields2).
Proof.
  intros Hsame. rewrite !Render.create_pretty_excel_rendered.
  rewrite (RenderMore.cell_texts_same_lookup _ _ fields1 fields2 headers Hsame).
  reflexivity.
Qed.

(** X17 on concrete data. *)
Lemma render_reads_ten_fields_only_witness :
  create_pretty_excel Instances.float_repr Instances.isprintable
    (PyDict [ (lit "Floors", PyList [PyInt 1; PyInt 2]);
              (lit "ClientName", PyStr (lit "Jane Doe"));
              (lit "clientname", PyStr (lit "J. Doe")) ])
  = create_pretty_excel Instances.float_repr Instances.isprintable
      (PyDict [(lit "ClientName", PyStr (lit "Jane Doe"))]).
Proof.
  apply render_reads_ten_fields_only.
  intros header Hin.
  repeat (destruct Hin as [<-|Hin]; [vm_compute; reflexivity|]).
  destruct Hin.
Defined.

(** X18. A mapping with none of the ten keys, whatever else it holds, is
    rendered exactly like the fallback record: row 2 is ["Not provided"]
    ten times, and nothing in the workbook tells the two apart. *)
Theorem render_without_keys_is_fallback
  (float_repr : str -> str) (isprintable : N -> bool)
  (fields : list (str * value)) :
  (forall header, In header headers -> dict_lookup fields header = None) ->
  create_pretty_excel float_repr isprintable (PyDict fields)
  = create_pretty_excel float_repr isprintable fallback
  /\ create_pretty_excel float_repr isprintable (PyDict fields)
     = Ok (rendered (map (fun _ => lit "Not provided") headers)).
Proof.
  intros Hmissing.
  assert (Hempty : create_pretty_excel float_repr isprintable (PyDict fields)
                   = create_pretty_excel float_repr isprintable (PyDict [])).
  { rewrite !Render.create_pretty_excel_rendered.
    rewrite (RenderMore.cell_texts_same_lookup _ _ fields [] headers); [reflexivity|].
    intros header Hin. rewrite (Hmissing header Hin). reflexivity. }
  rewrite Hempty, !Render.create_pretty_excel_rendered.
  assert (Hnone : cell_texts float_repr isprintable (PyDict []) headers
                  = Ok (map (fun _ => lit "Not provided") headers))
    by (vm_compute; reflexivity).
  assert (Hfallback : cell_texts float_repr isprintable fallback headers
                      = Ok (map (fun _ => lit "Not provided") headers))
    by (vm_compute; reflexivity).
  rewrite Hnone, Hfallback. split; reflexivity.
Qed.

(** X18 on concrete data. *)
Lemma render_without_keys_is_fallback_witness :
  create_pretty_excel Instances.float_repr Instances.isprintable
    (PyDict [ (lit "project_name", PyStr (lit "Oak St Remodel"));
              (lit "client", PyStr (lit "Jane Doe")) ])
  = create_pretty_excel Instances.float_repr Instances.isprintable fallback.
Proof.
  refine (proj1 (render_without_keys_is_fallback Instances.float_repr
                   Instances.isprintable
                   [ (lit "project_name", PyStr (lit "Oak St Remodel"));
                     (lit "client", PyStr (lit "Jane Doe")) ] _)).
  intros header Hin.
  repeat (destruct Hin as [<-|Hin]; [vm_compute; reflexivity|]).
  destruct Hin.
Defined.

(** X19. The default stands for a missing key only. A key that is there
    with [null] is rendered as the text [None], with [true] or [false] as
    [True] or [False], and with the empty list as the empty text. *)
Theorem present_value_is_not_defaulted
  (float_repr : str -> str) (isprintable : N -> bool)
  (fields : list (str * value)) (out : BytesIO) (i : nat) (header : str)
  (v : value) :
  create_pretty_excel float_repr isprintable (PyDict fields) = Ok out ->
  headers !! i = Some header ->
  dict_lookup fields header = Some v ->
  exists ws,
    worksheets (saved out) = [ws]
    /\ (v = PyNone -> cell_value <$> cells ws !! (2, S i) = Some (lit "None"))
    /\ (v = PyBool true -> cell_value <$> cells ws !! (2, S i) = Some (lit "True"))
    /\ (v = PyBool false -> cell_value <$> cells ws !! (2, S i) = Some (lit "False"))
    /\ (v = PyList [] -> cell_value <$> cells ws !! (2, S i) = Some []).
Proof.
  intros Hout Hi Hv.
  destruct (row2_cell _ _ _ _ _ _ Hout Hi)
    as (fields' & ws & whole & _ & Hws & Hfield & _ & Hcell).
  exists ws. split; [exact Hws|].
  unfold field_text, py_get in Hfield. rewrite Hv in Hfield.
  repeat split; intros ->; cbn in Hfield; injection Hfield as <-; exact Hcell.
Qed.

(** X19 on concrete data. *)
Lemma present_value_is_not_defaulted_witness :
  exists out ws,
    create_pretty_excel Instances.float_repr Instances.isprintable
      (PyDict [ (lit "ClientName", PyNone);
                (lit "RenovationAreas", PyList []) ]) = Ok out
    /\ worksheets (saved out) = [ws]
    /\ cell_value <$> cells ws !! (2, 2) = Some (lit "None")
    /\ cell_value <$> cells ws !! (2, 5) = Some [].
Proof.
  assert (Hout : create_pretty_excel Instances.float_repr Instances.isprintable
                   (PyDict [ (lit "ClientName", PyNone);
                             (lit "RenovationAreas", PyList []) ])
                 = Ok (rendered
                         [ lit "Not provided"; lit "None";
                           lit "Not provided"; lit "Not provided";
                           []; lit "Not provided";
                           lit "Not provided"; lit "Not provided";
                           lit "Not provided"; lit "Not provided" ])).
  { rewrite Render.create_pretty_excel_rendered. vm_compute. reflexivity. }
  destruct (present_value_is_not_defaulted _ _ _ _ 1 (lit "ClientName") PyNone
              Hout eq_refl eq_refl) as (ws & Hws & Hnone & _).
  destruct (present_value_is_not_defaulted _ _ _ _ 4 (lit "RenovationAreas")
              (PyList []) Hout eq_refl eq_refl) as (ws' & Hws' & _ & _ & _ & Hnil).
  rewrite Hws in Hws'. injection Hws' as <-.
  eexists. exists ws. split; [exact Hout|]. split; [exact Hws|].
  split; [apply Hnone; reflexivity | apply Hnil; reflexivity].
Defined.

(** X20. The error of a list that cannot be joined names its first item
    that is not a string: when the cells of the fields before [header], in
    the fixed order, are all given their text and the list of [header]
    starts with the strings [strs] followed by [item],
    [create_pretty_excel] raises the [TypeError] for the item at index
    [length strs], with the type of [item]. *)
Theorem first_non_string_item_reported
  (float_repr : str -> str) (isprintable : N -> bool)
  (fields : list (str * value)) (before after : list str) (header : str)
  (strs : list str) (item : value) (rest : list value) :
  headers = before ++ header :: after ->
  (forall h, In h before ->
     exists text, cell_text float_repr isprintable (PyDict fields) h = Ok text) ->
  dict_lookup fields header = Some (PyList (map PyStr strs ++ item :: rest)) ->
  (forall s, item <> PyStr s) ->
  create_pretty_excel float_repr isprintable (PyDict fields)
  = Raise (TypeError (lit "sequence item "
                        ++ decimal_N (N.of_nat (length strs))
                        ++ lit ": expected str instance, " ++ type_name item
                        ++ lit " found")).
Proof.
  intros Hsplit Hbefore Hlist Hitem.
  rewrite Render.create_pretty_excel_rendered, Hsplit.
  rewrite RenderMore.cell_texts_app.
  destruct (Render.cell_texts_Ok float_repr isprintable (PyDict fields) before
              Hbefore) as [texts ->].
  cbn [cell_texts]. unfold cell_text at 1, field_text, py_get. rewrite Hlist.
  cbn [rbind]. unfold py_join.
  rewrite (RenderMore.join_values_first_non_str _ _ _ _ 0%N Hitem).
  reflexivity.
Qed.

(** X20 on concrete data. *)
Lemma first_non_string_item_reported_witness :
  create_pretty_excel Instances.float_repr Instances.isprintable
    (PyDict [ (lit "ProjectName", PyList [PyStr (lit "Oak St")]);
              (lit "MaterialPreferences",
               PyList [PyStr (lit "oak"); PyStr (lit "brass");
                       PyList [PyStr (lit "tile")]; PyInt 3]);
              (lit "Timeline", PyList [PyNone]) ])
  = Raise (TypeError
             (lit "sequence item 2: expected str instance, list found")).
Proof.
  rewrite (first_non_string_item_reported _ _ _
             [ lit "ProjectName"; lit "ClientName"; lit "PropertyAddress";
               lit "ProjectManager"; lit "RenovationAreas"; lit "ScopeOfWork" ]
             [ lit "BudgetOrCost"; lit "Timeline"; lit "AdditionalNotes" ]
             (lit "MaterialPreferences")
             [lit "oak"; lit "brass"] (PyList [PyStr (lit "tile")]) [PyInt 3]).
  - reflexivity.
  - reflexivity.
  - intros h Hin.
    repeat (destruct Hin as [<-|Hin]; [eexists; vm_compute; reflexivity|]).
    destruct Hin.
  - vm_compute. reflexivity.
  - discriminate.
Defined.

(** ** The Presentation Shell *)

Module ShellEvents.

Lemma pdf_pages_events (pages : list (result (option str))) (i : nat)
  (text : str) (log : list event) :
  exists events,
    snd (pdf_pages i pages text log) = log ++ events
    /\ forallb is_parser_call events = true.
Proof.
  revert i text log. induction pages as [|page rest IH]; intros i text log.
  - exists []. split; [symmetry; apply app_nil_r | reflexivity].
  - simpl. unfold bind, emit, lift.
    destruct page as [extracted|e].
    + destruct (IH (S i)
                  (text ++ (match extracted with
                            | Some ((_ :: _) as t) => t
                            | _ => []
                            end ++ [10%N]))
                  (log ++ [PageExtractText i])) as (events & -> & Hall).
      exists (PageExtractText i :: events).
      split; [rewrite <- app_assoc; reflexivity | exact Hall].
    + exists [PageExtractText i]. split; reflexivity.
Qed.

Section Events.

Context {file : Type}.
Variable unicode_lower : str -> str.
Variable docx_Document : file -> result (list str).
Variable PyPDF2_PdfReader : file -> result (list (result (option str))).

(** The Text Extractor calls document parsers and nothing else. *)
Lemma extract_text_events (file_bytes : file) (file_extension : str) :
  forallb is_parser_call
    (snd (run (extract_text unicode_lower docx_Document PyPDF2_PdfReader
                 file_bytes file_extension))) = true.
Proof.
  unfold run, extract_text.
  destruct (Str.eqb _ (lit ".docx")).
  - unfold extract_text_from_docx, bind, emit, lift, ret.
    destruct (docx_Document file_bytes); reflexivity.
  - destruct (Str.eqb _ (lit ".pdf")); [|reflexivity].
    unfold extract_text_from_pdf, bind, emit, lift.
    destruct (PyPDF2_PdfReader file_bytes) as [pages|e]; [|reflexivity].
    destruct (pdf_pages_events pages 0 [] ([] ++ [PdfReader]))
      as (events & Hev & Hall).
    destruct (pdf_pages 0 pages [] ([] ++ [PdfReader])) as [r log].
    simpl in Hev. subst log. simpl. exact Hall.
Qed.

End Events.

Lemma filter_all_false {A} (f g : A -> bool) (l : list A) :
  forallb g l = true -> (forall x, g x = true -> f x = false) ->
  List.filter f l = [].
Proof.
  intros Hall Hfg. induction l as [|x l IH]; [reflexivity|].
  simpl in Hall. apply andb_true_iff in Hall as [Hx Hl].
  simpl. rewrite (Hfg x Hx). apply IH. exact Hl.
Qed.

Lemma pipeline_events_app (a b : list ui_event) :
  pipeline_events (a ++ b) = pipeline_events a ++ pipeline_events b.
Proof. unfold pipeline_events. apply flat_map_app. Qed.

Lemma pipeline_events_Ev (events : list event) :
  pipeline_events (map Ev events) = events.
Proof.
  induction events as [|e r IH]; [reflexivity|].
  simpl. f_equal. exact IH.
Qed.

Lemma filter_map_Ev (f : ui_event -> bool) (events : list event) :
  (forall e, f (Ev e) = false) -> List.filter f (map Ev events) = [].
Proof.
  intros Hf. induction events as [|e r IH]; [reflexivity|].
  simpl. rewrite Hf. exact IH.
Qed.

Lemma In_map_Ev (ev : ui_event) (events : list event) :
  In ev (map Ev events) -> exists e, ev = Ev e /\ In e events.
Proof.
  intros H. apply in_map_iff in H as (e & <- & Hin). exists e. auto.
Qed.

End ShellEvents.

Section ShellFacts.

Context {file : Type}.
Variable name : file -> str.
Variable unicode_lower : str -> str.
Variable docx_Document : file -> result (list str).
Variable PyPDF2_PdfReader : file -> result (list (result (option str))).
Variable ChatCompletion_create : request -> result response.
Variable json_loads : str -> result value.
Variable float_repr : str -> str.
Variable isprintable : N -> bool.
Variable other_exception_text : exn -> str.

(** The run of the body of the [try], stage by stage. *)
Lemma process_run (uploaded_file : file) (file_extension : str)
  (log : list ui_event) :
  process unicode_lower docx_Document PyPDF2_PdfReader ChatCompletion_create
    json_loads float_repr isprintable uploaded_file file_extension log
  = match run (extract_text unicode_lower docx_Document PyPDF2_PdfReader
                 uploaded_file file_extension) with
    | (Raise e, events1) => (Raise e, log ++ text_spinner events1)
    | (Ok raw_text, events1) =>
        match run (extract_details_with_gpt ChatCompletion_create json_loads
                     (clean_text raw_text)) with
        | (Raise e, events2) =>
            (Raise e, log ++ text_spinner events1 ++ details_spinner events2)
        | (Ok details, events2) =>
            match create_pretty_excel float_repr isprintable details with
            | Raise e =>
                (Raise e,
                 log ++ text_spinner events1 ++ details_spinner events2
                 ++ preview details ++ excel_spinner)
            | Ok excel_data =>
                (Ok tt,
                 log ++ text_spinner events1 ++ details_spinner events2
                 ++ preview details ++ excel_spinner
                 ++ [ StSuccess (lit "Excel file ready!");
                      StDownloadButton (download_of excel_data) ])
            end
        end
    end.
Proof.
  unfold process, ui_bind, with_spinner, stage, ui_ret, ui_emit, ui_lift,
    text_spinner, details_spinner, excel_spinner, preview.
  destruct (run (extract_text unicode_lower docx_Document PyPDF2_PdfReader
                   uploaded_file file_extension)) as [[raw_text|e] events1].
  - destruct (run (extract_details_with_gpt ChatCompletion_create json_loads
                     (clean_text raw_text))) as [[details|e] events2].
    + destruct (create_pretty_excel float_repr isprintable details)
        as [excel_data|e]; simpl; repeat rewrite <- app_assoc; reflexivity.
    + simpl. repeat rewrite <- app_assoc. reflexivity.
  - simpl. repeat rewrite <- app_assoc. reflexivity.
Qed.

(** The run of [main] on an upload with the button pressed. *)
Lemma main_run (uploaded_file : file) :
  main name unicode_lower docx_Document PyPDF2_PdfReader ChatCompletion_create
    json_loads float_repr isprintable other_exception_text
    (Some uploaded_file) true []
  = match process unicode_lower docx_Document PyPDF2_PdfReader
            ChatCompletion_create json_loads float_repr isprintable
            uploaded_file (snd (PosixPath.splitext (name uploaded_file)))
            (greeting ++ upload_notice (name uploaded_file)) with
    | (Raise e, log) =>
        (Ok tt,
         log ++ [Ev (StError (lit "An error occurred: "
                                ++ exception_text other_exception_text e))])
    | done => done
    end.
Proof. reflexivity. Qed.

End ShellFacts.

Module ShellLogs.

Lemma no_download_Ev (events : list event) :
  List.filter is_download (map Ev events) = [].
Proof. apply ShellEvents.filter_map_Ev. reflexivity. Qed.

Lemma no_download_text_spinner (events : list event) :
  List.filter is_download (text_spinner events) = [].
Proof.
  unfold text_spinner. rewrite !List.filter_app, no_download_Ev. reflexivity.
Qed.

Lemma no_download_details_spinner (events : list event) :
  List.filter is_download (details_spinner events) = [].
Proof.
  unfold details_spinner. rewrite !List.filter_app, no_download_Ev. reflexivity.
Qed.

Lemma spinner_enters (f : ui_event -> bool) (events : list event) :
  (forall e, f (Ev e) = false) ->
  length (List.filter f (map Ev events)) = 0.
Proof. intros H. rewrite (ShellEvents.filter_map_Ev f events H). reflexivity. Qed.

Lemma render_non_dict (float_repr : str -> str) (isprintable : N -> bool)
  (details : value) :
  isinstance_dict details = false ->
  create_pretty_excel float_repr isprintable details
  = Raise (AttributeError
             (lit "'" ++ type_name details
                ++ lit "' object has no attribute 'get'")).
Proof.
  intros H. rewrite Render.create_pretty_excel_rendered.
  destruct details; try discriminate H; reflexivity.
Qed.

Lemma last_two {A} (l : list A) (a b : A) : last (l ++ [a; b]) = Some b.
Proof.
  change (l ++ [a; b]) with (l ++ ([a] ++ [b])).
  rewrite app_assoc. apply last_snoc.
Qed.

End ShellLogs.

Section ShellProperties.

Context {file : Type}.
Variable name : file -> str.
Variable unicode_lower : str -> str.
Variable docx_Document : file -> result (list str).
Variable PyPDF2_PdfReader : file -> result (list (result (option str))).
Variable ChatCompletion_create : request -> result response.
Variable json_loads : str -> result value.
Variable float_repr : str -> str.
Variable isprintable : N -> bool.
Variable other_exception_text : exn -> str.

(** X21. Unless a file is uploaded and the button is pressed, [main]
    calls no document parser and no completion service and offers no
    download. *)
Theorem main_idle (uploaded_file : option file) (process_button : bool) :
  uploaded_file = None \/ process_button = false ->
  let log :=
    snd (main name unicode_lower docx_Document PyPDF2_PdfReader
           ChatCompletion_create json_loads float_repr isprintable
           other_exception_text uploaded_file process_button []) in
  List.filter is_parser_call (pipeline_events log) = []
  /\ List.filter is_completion_call (pipeline_events log) = []
  /\ List.filter is_download log = [].
Proof.
  intros H. destruct uploaded_file as [f|].
  - destruct H as [H| ->]; [discriminate H|].
    cbv zeta. split; [|split]; reflexivity.
  - cbv zeta. split; [|split]; reflexivity.
Qed.

(** X22. [main] never raises, whatever the upload, the button, the
    parsers, the service and the decoder do: what a stage raises is
    caught. *)
Theorem main_never_raises (uploaded_file : option file) (process_button : bool) :
  fst (main name unicode_lower docx_Document PyPDF2_PdfReader
         ChatCompletion_create json_loads float_repr isprintable
         other_exception_text uploaded_file process_button []) = Ok tt.
Proof.
  destruct uploaded_file as [f|]; [|reflexivity].
  destruct process_button; [|reflexivity].
  rewrite main_run.
  destruct (process _ _ _ _ _ _ _ _ _ _) as [[[]|e] log]; reflexivity.
Qed.

(** X23. A run of [main] on an upload with the button pressed ends in
    one of two ways: with the download button, or with the error message
    built from what a stage raised, and then no download is offered. *)
Theorem main_ends_with_download_or_error (uploaded_file : file) :
  let log :=
    snd (main name unicode_lower docx_Document PyPDF2_PdfReader
           ChatCompletion_create json_loads float_repr isprintable
           other_exception_text (Some uploaded_file) true []) in
  (exists excel_data, last log = Some (StDownloadButton (download_of excel_data)))
  \/ (exists e,
        last log
        = Some (Ev (StError (lit "An error occurred: "
                               ++ exception_text other_exception_text e)))
        /\ List.filter is_download log = []).
Proof.
  cbv zeta. rewrite main_run, process_run.
  destruct (run (extract_text _ _ _ _ _)) as [[raw_text|e] events1].
  - destruct (run (extract_details_with_gpt _ _ _)) as [[details|e] events2].
    + destruct (create_pretty_excel float_repr isprintable details)
        as [excel_data|e].
      * left. exists excel_data. cbn [snd].
        rewrite !app_assoc. apply ShellLogs.last_two.
      * right. exists e. cbn [snd]. split; [apply last_snoc|].
        rewrite !List.filter_app, ShellLogs.no_download_text_spinner,
          ShellLogs.no_download_details_spinner. reflexivity.
    + right. exists e. cbn [snd]. split; [apply last_snoc|].
      rewrite !List.filter_app, ShellLogs.no_download_text_spinner,
        ShellLogs.no_download_details_spinner. reflexivity.
  - right. exists e. cbn [snd]. split; [apply last_snoc|].
    rewrite !List.filter_app, ShellLogs.no_download_text_spinner. reflexivity.
Qed.

(** The download buttons and the previews in the log of a run on an
    upload with the button pressed. *)
Lemma main_downloads (uploaded_file : file) :
  List.filter is_download
    (snd (main name unicode_lower docx_Document PyPDF2_PdfReader
            ChatCompletion_create json_loads float_repr isprintable
            other_exception_text (Some uploaded_file) true []))
  = match fst (run (extract_text unicode_lower docx_Document PyPDF2_PdfReader
                      uploaded_file
                      (snd (PosixPath.splitext (name uploaded_file))))) with
    | Ok raw_text =>
        match fst (run (extract_details_with_gpt ChatCompletion_create
                          json_loads (clean_text raw_text))) with
        | Ok details =>
            match create_pretty_excel float_repr isprintable details with
            | Ok excel_data => [StDownloadButton (download_of excel_data)]
            | Raise _ => []
            end
        | Raise _ => []
        end
    | Raise _ => []
    end.
Proof.
  rewrite main_run, process_run.
  destruct (run (extract_text _ _ _ _ _)) as [[raw_text|e] events1]; cbn [fst].
  - destruct (run (extract_details_with_gpt _ _ _)) as [[details|e] events2];
      cbn [fst].
    + destruct (create_pretty_excel float_repr isprintable details)
        as [excel_data|e]; cbn [snd];
        rewrite !List.filter_app, ShellLogs.no_download_text_spinner,
          ShellLogs.no_download_details_spinner; reflexivity.
    + cbn [snd].
      rewrite !List.filter_app, ShellLogs.no_download_text_spinner,
        ShellLogs.no_download_details_spinner. reflexivity.
  - cbn [snd].
    rewrite !List.filter_app, ShellLogs.no_download_text_spinner. reflexivity.
Qed.

Lemma main_preview (uploaded_file : file) (raw_text : str) (details : value) :
  fst (run (extract_text unicode_lower docx_Document PyPDF2_PdfReader
              uploaded_file (snd (PosixPath.splitext (name uploaded_file)))))
  = Ok raw_text ->
  fst (run (extract_details_with_gpt ChatCompletion_create json_loads
              (clean_text raw_text))) = Ok details ->
  In (StJson details)
    (snd (main name unicode_lower docx_Document PyPDF2_PdfReader
            ChatCompletion_create json_loads float_repr isprintable
            other_exception_text (Some uploaded_file) true []))
  /\ In (StSuccess (lit "Extraction complete! Here are the details:"))
       (snd (main name unicode_lower docx_Document PyPDF2_PdfReader
               ChatCompletion_create json_loads float_repr isprintable
               other_exception_text (Some uploaded_file) true [])).
Proof.
  intros HE HD. rewrite main_run, process_run.
  destruct (run (extract_text _ _ _ _ _)) as [[raw|e] events1];
    cbn [fst] in HE; [|discriminate HE]. injection HE as ->.
  destruct (run (extract_details_with_gpt _ _ _)) as [[det|e] events2];
    cbn [fst] in HD; [|discriminate HD]. injection HD as ->.
  destruct (create_pretty_excel float_repr isprintable details)
    as [excel_data|e]; cbn [snd]; rewrite !in_app_iff; unfold preview;
    split.
  - right. right. right. left. right. left. reflexivity.
  - right. right. right. left. left. reflexivity.
  - left. right. right. right. left. right. left. reflexivity.
  - left. right. right. right. left. left. reflexivity.
Qed.

(** X24. The download [main] offers is the rendering of the record it
    has shown. If the download button is in the log, then the text of
    the upload was extracted, the client returned a record from the
    normalized text, that record is the one given to [st.json], and the
    data of the button is what [create_pretty_excel] returned for it,
    under the fixed label, file name and MIME type. Conversely, when the
    three stages succeed the button is offered. *)
Theorem download_is_rendering_of_preview (uploaded_file : file) :
  let file_extension := snd (PosixPath.splitext (name uploaded_file)) in
  let log :=
    snd (main name unicode_lower docx_Document PyPDF2_PdfReader
           ChatCompletion_create json_loads float_repr isprintable
           other_exception_text (Some uploaded_file) true []) in
  forall d,
    In (StDownloadButton d) log
    <-> exists raw_text details excel_data,
          fst (run (extract_text unicode_lower docx_Document PyPDF2_PdfReader
                      uploaded_file file_extension)) = Ok raw_text
          /\ fst (run (extract_details_with_gpt ChatCompletion_create
                         json_loads (clean_text raw_text))) = Ok details
          /\ create_pretty_excel float_repr isprintable details = Ok excel_data
          /\ In (StJson details) log
          /\ d = download_of excel_data.
Proof.
  cbv zeta. intros d. split.
  - intros H.
    assert (Hf : In (StDownloadButton d)
                   (List.filter is_download
                      (snd (main name unicode_lower docx_Document
                              PyPDF2_PdfReader ChatCompletion_create json_loads
                              float_repr isprintable other_exception_text
                              (Some uploaded_file) true []))))
      by (apply List.filter_In; split; [exact H | reflexivity]).
    rewrite main_downloads in Hf.
    destruct (fst (run (extract_text _ _ _ _ _))) as [raw_text|e] eqn:HE;
      [|destruct Hf].
    destruct (fst (run (extract_details_with_gpt _ _ _))) as [details|e] eqn:HD;
      [|destruct Hf].
    destruct (create_pretty_excel float_repr isprintable details)
      as [excel_data|e] eqn:HR; [|destruct Hf].
    destruct Hf as [Hf|[]]. injection Hf as <-.
    exists raw_text, details, excel_data.
    split; [reflexivity|]. split; [exact HD|]. split; [exact HR|].
    split; [|reflexivity].
    apply (main_preview uploaded_file raw_text details HE HD).
  - intros (raw_text & details & excel_data & HE & HD & HR & _ & ->).
    apply (proj1 (List.filter_In is_download _ _)).
    rewrite main_downloads, HE, HD, HR. left. reflexivity.
Qed.

(** X25. When the answer of the model is not JSON the user still gets a
    spreadsheet: if the text is extracted, the service answers and the
    decoder refuses the trimmed first choice with [JSONDecodeError], then
    [main] shows the client's error banner and the fallback record, and
    offers the workbook whose row 2 is ["Not provided"] ten times. *)
Theorem non_json_answer_still_downloads (uploaded_file : file)
  (raw_text content msg : str) (pos : nat) (resp : response)
  (others : list str) :
  let log :=
    snd (main name unicode_lower docx_Document PyPDF2_PdfReader
           ChatCompletion_create json_loads float_repr isprintable
           other_exception_text (Some uploaded_file) true []) in
  fst (run (extract_text unicode_lower docx_Document PyPDF2_PdfReader
              uploaded_file (snd (PosixPath.splitext (name uploaded_file)))))
  = Ok raw_text ->
  ChatCompletion_create (completion_request (build_prompt (clean_text raw_text)))
  = Ok resp ->
  choices resp = content :: others ->
  json_loads (strip content) = Raise (JSONDecodeError msg pos) ->
  In (Ev (StError (lit "Error parsing GPT JSON output. Returning fallback data.")))
    log
  /\ In (StJson fallback) log
  /\ last log
     = Some (StDownloadButton
               (download_of
                  (rendered (map (fun _ => lit "Not provided") headers)))).
Proof.
  cbv zeta. intros HE Hsvc Hch Hjson.
  pose proof (extract_details_run ChatCompletion_create json_loads
                (clean_text raw_text)) as HD.
  cbv zeta in HD. rewrite Hsvc, Hch, Hjson in HD.
  assert (HR : create_pretty_excel float_repr isprintable fallback
               = Ok (rendered (map (fun _ => lit "Not provided") headers))).
  { rewrite Render.create_pretty_excel_rendered.
    assert (Hf : cell_texts float_repr isprintable fallback headers
                 = Ok (map (fun _ => lit "Not provided") headers))
      by (vm_compute; reflexivity).
    rewrite Hf. reflexivity. }
  rewrite main_run, process_run.
  destruct (run (extract_text _ _ _ _ _)) as [[raw|e] events1];
    cbn [fst] in HE; [|discriminate HE]. injection HE as ->.
  rewrite HD, HR. cbn [snd].
  split; [|split].
  - rewrite !in_app_iff. right. right. left.
    unfold details_spinner. rewrite !in_app_iff. right. left.
    apply in_map. right. left. reflexivity.
  - rewrite !in_app_iff. right. right. right. left. right. left. reflexivity.
  - rewrite !app_assoc. apply ShellLogs.last_two.
Qed.

(** X26. An upload whose name has no [.docx] or [.pdf] extension, in any
    letter case, is refused before anything is read or sent: the log of
    [main] is the greeting, the notice of the upload, an empty spinner
    and the message that the format is unsupported, with the extension,
    lowered, that [os.path.splitext] found in the name. *)
Theorem unsupported_upload_reported (uploaded_file : file) :
  let file_extension :=
    lower unicode_lower (snd (PosixPath.splitext (name uploaded_file))) in
  file_extension <> lit ".docx" ->
  file_extension <> lit ".pdf" ->
  main name unicode_lower docx_Document PyPDF2_PdfReader ChatCompletion_create
    json_loads float_repr isprintable other_exception_text
    (Some uploaded_file) true []
  = (Ok tt,
     greeting ++ upload_notice (name uploaded_file)
     ++ [ SpinnerEnter (lit "Extracting text..."); SpinnerExit;
          Ev (StError (lit "An error occurred: Unsupported file format: "
                         ++ file_extension)) ]).
Proof.
  cbv zeta. intros Hd Hp. rewrite main_run, process_run.
  unfold run, extract_text. rewrite (eqb_neq _ _ Hd), (eqb_neq _ _ Hp).
  unfold raise, text_spinner. cbn [map app exception_text].
  rewrite <- !app_assoc. reflexivity.
Qed.

(** X27. When the model answers with JSON that is not an object, [main]
    has already announced the extraction as complete and shown the value
    when rendering fails: the run ends with the message that an object
    of that type has no [get], and no download is offered. *)
Theorem non_object_answer_reported (uploaded_file : file)
  (raw_text : str) (details : value) :
  let log :=
    snd (main name unicode_lower docx_Document PyPDF2_PdfReader
           ChatCompletion_create json_loads float_repr isprintable
           other_exception_text (Some uploaded_file) true []) in
  fst (run (extract_text unicode_lower docx_Document PyPDF2_PdfReader
              uploaded_file (snd (PosixPath.splitext (name uploaded_file)))))
  = Ok raw_text ->
  fst (run (extract_details_with_gpt ChatCompletion_create json_loads
              (clean_text raw_text))) = Ok details ->
  isinstance_dict details = false ->
  In (StSuccess (lit "Extraction complete! Here are the details:")) log
  /\ In (StJson details) log
  /\ last log
     = Some (Ev (StError (lit "An error occurred: "
                            ++ lit "'" ++ type_name details
                            ++ lit "' object has no attribute 'get'")))
  /\ List.filter is_download log = [].
Proof.
  cbv zeta. intros HE HD Hdict.
  destruct (main_preview uploaded_file raw_text details HE HD) as [Hjson Hsucc].
  split; [exact Hsucc|]. split; [exact Hjson|].
  split.
  - rewrite main_run, process_run.
    destruct (run (extract_text _ _ _ _ _)) as [[raw|e] events1];
      cbn [fst] in HE; [|discriminate HE]. injection HE as ->.
    destruct (run (extract_details_with_gpt _ _ _)) as [[det|e] events2];
      cbn [fst] in HD; [|discriminate HD]. injection HD as ->.
    rewrite (ShellLogs.render_non_dict float_repr isprintable details Hdict).
    cbn [snd exception_text]. rewrite app_assoc. apply last_snoc.
  - rewrite main_downloads, HE, HD.
    rewrite (ShellLogs.render_non_dict float_repr isprintable details Hdict).
    reflexivity.
Qed.

(** X28. Every spinner [main] enters it also leaves, whatever a stage
    raises: the log has as many spinner exits as spinner entries. *)
Theorem spinners_balanced (uploaded_file : option file) (process_button : bool) :
  let log :=
    snd (main name unicode_lower docx_Document PyPDF2_PdfReader
           ChatCompletion_create json_loads float_repr isprintable
           other_exception_text uploaded_file process_button []) in
  length (List.filter is_spinner_enter log)
  = length (List.filter is_spinner_exit log).
Proof.
  cbv zeta. destruct uploaded_file as [f|]; [|reflexivity].
  destruct process_button; [|reflexivity].
  rewrite main_run, process_run.
  assert (Hin : forall events,
             List.filter is_spinner_enter (map Ev events) = [])
    by (intros events; apply ShellEvents.filter_map_Ev; reflexivity).
  assert (Hout : forall events,
             List.filter is_spinner_exit (map Ev events) = [])
    by (intros events; apply ShellEvents.filter_map_Ev; reflexivity).
  destruct (run (extract_text _ _ _ _ _)) as [[raw_text|e] events1].
  - destruct (run (extract_details_with_gpt _ _ _)) as [[details|e] events2].
    + destruct (create_pretty_excel float_repr isprintable details)
        as [excel_data|e]; cbn [snd]; unfold text_spinner, details_spinner;
        rewrite !List.filter_app, !Hin, !Hout; reflexivity.
    + cbn [snd]. unfold text_spinner, details_spinner.
      rewrite !List.filter_app, !Hin, !Hout. reflexivity.
  - cbn [snd]. unfold text_spinner.
    rewrite !List.filter_app, !Hin, !Hout. reflexivity.
Qed.

(** X29. One run of [main] sends at most one completion request, and
    only once the text of the upload has been extracted: the request is
    then the one for the prompt built on the normalized text. *)
Theorem main_completion_calls (uploaded_file : file) :
  List.filter is_completion_call
    (pipeline_events
       (snd (main name unicode_lower docx_Document PyPDF2_PdfReader
               ChatCompletion_create json_loads float_repr isprintable
               other_exception_text (Some uploaded_file) true [])))
  = match fst (run (extract_text unicode_lower docx_Document PyPDF2_PdfReader
                      uploaded_file
                      (snd (PosixPath.splitext (name uploaded_file))))) with
    | Ok raw_text =>
        [ChatCompletionCreate
           (completion_request (build_prompt (clean_text raw_text)))]
    | Raise _ => []
    end.
Proof.
  rewrite main_run, process_run.
  pose proof (ShellEvents.extract_text_events unicode_lower docx_Document
                PyPDF2_PdfReader uploaded_file
                (snd (PosixPath.splitext (name uploaded_file)))) as Hparsers.
  assert (Hnone : forall events,
             forallb is_parser_call events = true ->
             List.filter is_completion_call events = []).
  { intros events H. apply (ShellEvents.filter_all_false _ is_parser_call _ H).
    intros [] Hx; try discriminate Hx; reflexivity. }
  destruct (run (extract_text _ _ _ _ _)) as [[raw_text|e] events1];
    cbn [fst snd] in *.
  - pose proof (client_completion_calls ChatCompletion_create json_loads
                  (clean_text raw_text)) as Hcalls.
    destruct (run (extract_details_with_gpt _ _ _)) as [[details|e] events2];
      cbn [snd] in Hcalls.
    + destruct (create_pretty_excel float_repr isprintable details)
        as [excel_data|e]; cbn [snd]; unfold text_spinner, details_spinner;
        rewrite !ShellEvents.pipeline_events_app, !ShellEvents.pipeline_events_Ev,
          !List.filter_app, (Hnone _ Hparsers), Hcalls; reflexivity.
    + cbn [snd]. unfold text_spinner, details_spinner.
      rewrite !ShellEvents.pipeline_events_app, !ShellEvents.pipeline_events_Ev,
        !List.filter_app, (Hnone _ Hparsers), Hcalls. reflexivity.
  - unfold text_spinner.
    rewrite !ShellEvents.pipeline_events_app, !ShellEvents.pipeline_events_Ev,
      !List.filter_app, (Hnone _ Hparsers). reflexivity.
Qed.

End ShellProperties.

(** X21 on concrete data. *)
Lemma main_idle_witness :
  List.filter is_completion_call
    (pipeline_events
       (snd (Examples.main (Instances.answering (lit "{}"))
               (Some (lit "notes.docx")) false))) = []
  /\ List.filter is_download
       (snd (Examples.main (Instances.answering (lit "{}")) None true)) = [].
Proof.
  split.
  - refine (proj1 (proj2 (main_idle Examples.name Instances.unicode_lower
                            Examples.docx_Document Examples.PyPDF2_PdfReader
                            (Instances.answering (lit "{}")) (Json.loads 100)
                            Instances.float_repr Instances.isprintable
                            Examples.other_exception_text
                            (Some (lit "notes.docx")) false _))).
    right. reflexivity.
  - refine (proj2 (proj2 (main_idle Examples.name Instances.unicode_lower
                            Examples.docx_Document Examples.PyPDF2_PdfReader
                            (Instances.answering (lit "{}")) (Json.loads 100)
                            Instances.float_repr Instances.isprintable
                            Examples.other_exception_text None true _))).
    left. reflexivity.
Defined.

(** X25 on concrete data. *)
Lemma non_json_answer_still_downloads_witness :
  last (snd (Examples.main (Instances.answering (lit "Sure, here's the info: ..."))
               (Some (lit "notes.docx")) true))
  = Some (StDownloadButton
            (download_of (rendered (map (fun _ => lit "Not provided") headers)))).
Proof.
  refine (proj2 (proj2 (non_json_answer_still_downloads Examples.name
            Instances.unicode_lower Examples.docx_Document
            Examples.PyPDF2_PdfReader
            (Instances.answering (lit "Sure, here's the info: ...")) (Json.loads 100)
            Instances.float_repr Instances.isprintable
            Examples.other_exception_text (lit "notes.docx")
            (lit "Client: Jane Doe," ++ [10%N] ++ lit "budget $50,000")
            (lit "Sure, here's the info: ...") (lit "Expecting value") 0
            {| choices := [lit "Sure, here's the info: ..."] |} [] _ _ _ _))).
  - vm_compute. reflexivity.
  - reflexivity.
  - reflexivity.
  - vm_compute. reflexivity.
Defined.

(** X26 on concrete data. *)
Lemma unsupported_upload_reported_witness :
  Examples.main (Instances.answering (lit "{}")) (Some (lit "notes.TXT")) true
  = (Ok tt,
     greeting ++ upload_notice (lit "notes.TXT")
     ++ [ SpinnerEnter (lit "Extracting text..."); SpinnerExit;
          Ev (StError (lit "An error occurred: Unsupported file format: .txt")) ])
  /\ Examples.main (Instances.answering (lit "{}")) (Some (lit ".docx")) true
     = (Ok tt,
        greeting ++ upload_notice (lit ".docx")
        ++ [ SpinnerEnter (lit "Extracting text..."); SpinnerExit;
             Ev (StError (lit "An error occurred: Unsupported file format: ")) ]).
Proof.
  split.
  - unfold Examples.main.
    rewrite (unsupported_upload_reported Examples.name Instances.unicode_lower
               Examples.docx_Document Examples.PyPDF2_PdfReader
               (Instances.answering (lit "{}")) (Json.loads 100)
               Instances.float_repr Instances.isprintable
               Examples.other_exception_text (lit "notes.TXT")).
    + reflexivity.
    + vm_compute. discriminate.
    + vm_compute. discriminate.
  - unfold Examples.main.
    rewrite (unsupported_upload_reported Examples.name Instances.unicode_lower
               Examples.docx_Document Examples.PyPDF2_PdfReader
               (Instances.answering (lit "{}")) (Json.loads 100)
               Instances.float_repr Instances.isprintable
               Examples.other_exception_text (lit ".docx")).
    + reflexivity.
    + vm_compute. discriminate.
    + vm_compute. discriminate.
Defined.

(** X27 on concrete data. *)
Lemma non_object_answer_reported_witness :
  last (snd (Examples.main (Instances.answering (lit "[1, 2]"))
               (Some (lit "scan.pdf")) true))
  = Some (Ev (StError
                (lit "An error occurred: 'list' object has no attribute 'get'"))).
Proof.
  refine (proj1 (proj2 (proj2 (non_object_answer_reported Examples.name
            Instances.unicode_lower Examples.docx_Document
            Examples.PyPDF2_PdfReader
            (Instances.answering (lit "[1, 2]")) (Json.loads 100)
            Instances.float_repr Instances.isprintable
            Examples.other_exception_text (lit "scan.pdf")
            (lit "Client: Jane Doe" ++ [10%N; 10%N])
            (PyList [PyInt 1; PyInt 2]) _ _ _)))).
  - vm_compute. reflexivity.
  - vm_compute. reflexivity.
  - reflexivity.
Defined.
